(** * ShirijaangaServer: the promotional-email pipeline

    A shallow embedding of the e-mail subsystem of the server:

    - [EmailConfigModel]  (models/EmailConfigModel.js): the sender
      configuration document and its counter methods;
    - [EmailServiceUtil]  (utils/email.util.js): the [EmailService]
      singleton, [initializeTransporter] and [sendEmail];
    - [PromotionalEmailModel] (models/PromotionalEmailModel.js): the
      campaign schema, which has no instance methods, documents and the
      collection;
    - [PromotionalEmailController] (controllers/PromotionalEmailController.js):
      [sendPromotionalEmail], [sendEmailsInBackground] and
      [cancelPromotionalEmail]; [PromotionalEmailHistory]:
      [getPromotionalEmails];
    - [EmailAnalyticsModel] (models/EmailAnalyticsModel.js) and
      [EmailServiceReports] (utils/email.util.js): [getEmailStats],
      [getSystemHealth], [resetPerformanceMetrics] and
      [recordDailyAnalytics];
    - [EmailMiddleware] (middlewares/emailMiddleware.js): [checkEmailConfig],
      [checkEmailLimit] and [validatePromotionalEmail];
    - [StudentModel] (models/studentModel.js): the validator of the address;
    - [EmailConfigController] (controllers/EmailConfigController.js):
      [setEmailConfig], [deleteEmailConfig] and [testEmailConfig];
    - [EmailAnalyticsController] (controllers/EmailAnalyticsController.js):
      [generateRecommendations] and [generateSummary];
    - [EmailCronJobs] (utils/emailCron.js): [initialize] and [stopAll].

    Conventions.  A JavaScript Number that holds a counter or a duration in
    milliseconds is a [Z]; such values are exact in binary64 below 2^53.
    Percentages are computed in binary64, as the code computes them.  A
    [string] holds the text of a JavaScript string in UTF-8, and what
    JavaScript decides by the character ([trim], the class [\s], [length])
    is decided here on the code points of the text.  Every
    [new Date ()] and [Date.now ()] is an argument of the function that
    evaluates it.  [async] functions are written in direct style, one
    [await] after the other; what other requests may do while a function
    awaits is made explicit where a statement depends on it.  What the
    outside world decides (whether the transport accepts a mail, whether
    the database accepts a write) is an argument as well.  Calls of the
    logger are left out. *)

From stdpp Require Import gmap strings list pretty.
From Stdlib Require Import ZArith Lia Ascii PrimFloat FloatOps Uint63 SpecFloat.

Local Open Scope Z_scope.

(** ** JavaScript numerics *)

Module JS.

(** [Math.round (num / den)] for integers [num] and [den > 0]: the nearest
    integer, a tie going toward +infinity.  One correctly rounded binary64
    quotient lies on the same side of every half-integer as the exact
    quotient as long as [|num| < 2^51], so the exact value is used. *)
Definition round_div (num den : Z) : Z := (2 * num + den) / (2 * den).

(** [Math.ceil (num / den)] for [den > 0]. *)
Definition ceil_div (num den : Z) : Z := - ((- num) / den).

(** An integer as a binary64 Number (exact below 2^53). *)
Definition Number (z : Z) : float :=
  if z <? 0 then PrimFloat.opp (PrimFloat.of_uint63 (Uint63.of_Z (- z)))
  else PrimFloat.of_uint63 (Uint63.of_Z z).

(** [Math.round] of a finite binary64 value [(-1)^s * m * 2^e], computed
    exactly.  Every call below is guarded by a positive divisor, so the
    argument is finite; infinities and NaN are sent to [0]. *)
Definition Math_round (x : float) : Z :=
  match Prim2SF x with
  | S754_finite s m e =>
      let sm := if s then Z.neg m else Z.pos m in
      if 0 <=? e then sm * 2 ^ e
      else (2 * sm + 2 ^ (- e)) / (2 * 2 ^ (- e))
  | _ => 0
  end.

(** [Math.round ((a / b) * 100)]: the quotient is rounded to binary64
    before it is multiplied, and the product is rounded again. *)
Definition round_pct (a b : Z) : Z :=
  Math_round (PrimFloat.mul (PrimFloat.div (Number a) (Number b)) (Number 100)).

(** An [async] call either resolves to a value or throws. *)
Inductive Completion (A : Type) :=
| Resolved (a : A)
| Thrown (message : string).
Arguments Resolved {A} a.
Arguments Thrown {A} message.

(** Truthiness of a Number: [if (n)] fails exactly on [0] (and NaN). *)
Definition truthy (n : Z) : bool := negb (n =? 0).

(** The one-character string holding a double quote. *)
Definition dquote : string := String (Ascii.ascii_of_nat 34) EmptyString.

(** [s.padStart (n, c)] for a one-character pad [c]. *)
Definition padStart (n : nat) (c : string) (s : string) : string :=
  String.concat EmptyString (replicate (n - String.length s) c) +:+ s.

(** *** Text *)

(** A continuation byte [10xxxxxx] of UTF-8. *)
Definition continuation (b : Ascii.ascii) : bool :=
  let n := Ascii.nat_of_ascii b in (128 <=? n)%nat && (n <? 192)%nat.

(** The characters of a text, each one as the bytes that encode it: a byte
    and the continuation bytes that follow it. *)
Fixpoint chars (l : list Ascii.ascii) : list (list Ascii.ascii) :=
  match l with
  | [] => []
  | b :: l' =>
      match chars l' with
      | (b' :: ch) :: rest =>
          if continuation b' then (b :: b' :: ch) :: rest
          else [b] :: (b' :: ch) :: rest
      | rest => [b] :: rest
      end
  end.

(** The code point a character encodes. *)
Definition codePoint (ch : list Ascii.ascii) : Z :=
  match ch with
  | [] => 0
  | b :: bs =>
      let n := Z.of_nat (Ascii.nat_of_ascii b) in
      fold_left (fun cp c => 64 * cp + Z.of_nat (Ascii.nat_of_ascii c) mod 64) bs
        (if n <? 128 then n else if n <? 224 then n mod 32
         else if n <? 240 then n mod 16 else n mod 8)
  end.

(** The white space of ECMAScript, line terminators included: what [trim]
    strips and what [\s] matches.  TAB to CR, SP, NBSP, U+1680, U+2000 to
    U+200A, LS, PS, U+202F, U+205F, U+3000 and the byte order mark. *)
Definition isWhiteSpace (ch : list Ascii.ascii) : bool :=
  let cp := codePoint ch in
  ((9 <=? cp) && (cp <=? 13)) || (cp =? 32) || (cp =? 160) || (cp =? 5760) ||
  ((8192 <=? cp) && (cp <=? 8202)) || (cp =? 8232) || (cp =? 8233) ||
  (cp =? 8239) || (cp =? 8287) || (cp =? 12288) || (cp =? 65279).

(** [s.length]: the number of UTF-16 code units, two for a code point
    beyond U+FFFF. *)
Definition codeUnits (ch : list Ascii.ascii) : nat :=
  if 65536 <=? codePoint ch then 2%nat else 1%nat.

Definition String_length (s : string) : nat :=
  foldr (fun ch n => (codeUnits ch + n)%nat) 0%nat
        (chars (String.list_ascii_of_string s)).

(** [s.trimStart ()] and [s.trim ()], on the characters. *)
Fixpoint trimStart (l : list (list Ascii.ascii)) : list (list Ascii.ascii) :=
  match l with
  | ch :: l' => if isWhiteSpace ch then trimStart l' else l
  | [] => []
  end.

Definition trim (s : string) : string :=
  String.string_of_list_ascii
    (concat (rev (trimStart (rev (trimStart (chars (String.list_ascii_of_string s))))))).

(** [s.replace (/\s/g, '')]. *)
Definition removeSpaces (s : string) : string :=
  String.string_of_list_ascii
    (concat (List.filter (fun ch => negb (isWhiteSpace ch))
                         (chars (String.list_ascii_of_string s)))).

(** The character that is the one byte [c]. *)
Definition isChar (c : Ascii.ascii) (ch : list Ascii.ascii) : bool :=
  bool_decide (ch = [c]).

(** The longest run of characters at the front of [l] that satisfy [p],
    and what follows it. *)
Fixpoint span (p : list Ascii.ascii -> bool) (l : list (list Ascii.ascii))
  : list (list Ascii.ascii) * list (list Ascii.ascii) :=
  match l with
  | ch :: l' =>
      if p ch then let '(run, rest) := span p l' in (ch :: run, rest)
      else ([], l)
  | [] => ([], [])
  end.

(** The class [[^\s@]]. *)
Definition plainChar (ch : list Ascii.ascii) : bool :=
  negb (isWhiteSpace ch) && negb (isChar "@" ch).

(** A dot that is neither the first nor the last character. *)
Definition dotBetween (l : list (list Ascii.ascii)) : bool :=
  match l with
  | [] => false
  | _ :: tl => existsb (isChar ".") (removelast tl)
  end.

(** [/^[^\s@]+@[^\s@]+\.[^\s@]+$/.test (s)]: the text up to the first [@]
    is not empty and free of white space; what follows that [@] is free of
    white space and of [@] and holds a dot between two other characters. *)
Definition emailRegex (s : string) : bool :=
  let '(localPart, rest) :=
    span (fun ch => negb (isChar "@" ch)) (chars (String.list_ascii_of_string s)) in
  match rest with
  | _ :: domain =>
      negb (Nat.eqb (length localPart) 0) && forallb plainChar localPart &&
      forallb plainChar domain && dotBetween domain
  | [] => false
  end.

End JS.

(** ** Dates

    A [Date] is the broken-down local time a JavaScript Date exposes through
    its getters, together with its epoch time. *)

Record Date := mkDate {
  getFullYear : Z;
  getMonth : Z;      (* 0 .. 11 *)
  getDate : Z;       (* day of the month *)
  getDay : Z;        (* day of the week, 0 = Sunday *)
  getTime : Z        (* milliseconds since the epoch *)
}.

Definition dayName (d : Z) : string :=
  nth (Z.to_nat d) ["Sun"; "Mon"; "Tue"; "Wed"; "Thu"; "Fri"; "Sat"] EmptyString.

Definition monthName (m : Z) : string :=
  nth (Z.to_nat m)
      ["Jan"; "Feb"; "Mar"; "Apr"; "May"; "Jun";
       "Jul"; "Aug"; "Sep"; "Oct"; "Nov"; "Dec"] EmptyString.

(** [d.toDateString ()], for instance ["Mon Nov 02 2026"]. *)
Definition toDateString (d : Date) : string :=
  dayName (getDay d) +:+ " " +:+ monthName (getMonth d) +:+ " " +:+
  JS.padStart 2 "0" (pretty (getDate d)) +:+ " " +:+
  JS.padStart 4 "0" (pretty (getFullYear d)).

(** The month key [`${y.getFullYear()}-${String(m.getMonth() + 1).padStart(2, '0')}`],
    the year and the month being read from two Date objects. *)
Definition monthKey (y m : Date) : string :=
  pretty (getFullYear y) +:+ "-" +:+ JS.padStart 2 "0" (pretty (getMonth m + 1)).

(** ** models/EmailConfigModel.js *)

Module EmailConfigModel.

(** A document of [EmailConfigSchema]; a path of type Date without a default
    is absent until it is first written. *)
Record EmailConfig := mkEmailConfig {
  _id : nat;
  service : string;
  email : string;
  appPassword : string;
  fromName : string;
  isActive : bool;
  (* Daily Limits & Usage *)
  dailyLimit : Z;
  emailsSentToday : Z;
  lastResetDate : Date;
  (* Monthly Tracking *)
  monthlyEmailsSent : Z;
  currentMonth : string;
  (* Performance Metrics *)
  totalEmailsSent : Z;
  totalEmailsFailed : Z;
  successRate : Z;
  (* Error Tracking *)
  errorCount : Z;
  lastErrorMessage : string;
  lastErrorAt : option Date;
  (* Reliability Metrics *)
  consecutiveFailures : Z;
  lastSuccessfulSend : option Date;
  averageSendTime : Z;
  (* Security & Monitoring *)
  lastUsedIP : option string;
  suspiciousActivityCount : Z;
  lastSuspiciousActivity : option Date;
  (* Configuration Metadata *)
  createdAt : Date;
  updatedAt : Date
}.

(** Assignments [this.path = v], one per path the methods write. *)

Definition set_emailsSentToday (v : Z) (c : EmailConfig) : EmailConfig :=
  let '(mkEmailConfig a b c0 d e f g _ i j k l m n o p q r s t u w x y z) := c in
  mkEmailConfig a b c0 d e f g v i j k l m n o p q r s t u w x y z.

Definition set_lastResetDate (v : Date) (c : EmailConfig) : EmailConfig :=
  let '(mkEmailConfig a b c0 d e f g h _ j k l m n o p q r s t u w x y z) := c in
  mkEmailConfig a b c0 d e f g h v j k l m n o p q r s t u w x y z.

Definition set_monthlyEmailsSent (v : Z) (c : EmailConfig) : EmailConfig :=
  let '(mkEmailConfig a b c0 d e f g h i _ k l m n o p q r s t u w x y z) := c in
  mkEmailConfig a b c0 d e f g h i v k l m n o p q r s t u w x y z.

Definition set_currentMonth (v : string) (c : EmailConfig) : EmailConfig :=
  let '(mkEmailConfig a b c0 d e f g h i j _ l m n o p q r s t u w x y z) := c in
  mkEmailConfig a b c0 d e f g h i j v l m n o p q r s t u w x y z.

Definition set_totalEmailsSent (v : Z) (c : EmailConfig) : EmailConfig :=
  let '(mkEmailConfig a b c0 d e f g h i j k _ m n o p q r s t u w x y z) := c in
  mkEmailConfig a b c0 d e f g h i j k v m n o p q r s t u w x y z.

Definition set_totalEmailsFailed (v : Z) (c : EmailConfig) : EmailConfig :=
  let '(mkEmailConfig a b c0 d e f g h i j k l _ n o p q r s t u w x y z) := c in
  mkEmailConfig a b c0 d e f g h i j k l v n o p q r s t u w x y z.

Definition set_successRate (v : Z) (c : EmailConfig) : EmailConfig :=
  let '(mkEmailConfig a b c0 d e f g h i j k l m _ o p q r s t u w x y z) := c in
  mkEmailConfig a b c0 d e f g h i j k l m v o p q r s t u w x y z.

Definition set_errorCount (v : Z) (c : EmailConfig) : EmailConfig :=
  let '(mkEmailConfig a b c0 d e f g h i j k l m n _ p q r s t u w x y z) := c in
  mkEmailConfig a b c0 d e f g h i j k l m n v p q r s t u w x y z.

Definition set_lastErrorMessage (v : string) (c : EmailConfig) : EmailConfig :=
  let '(mkEmailConfig a b c0 d e f g h i j k l m n o _ q r s t u w x y z) := c in
  mkEmailConfig a b c0 d e f g h i j k l m n o v q r s t u w x y z.

Definition set_lastErrorAt (v : option Date) (c : EmailConfig) : EmailConfig :=
  let '(mkEmailConfig a b c0 d e f g h i j k l m n o p _ r s t u w x y z) := c in
  mkEmailConfig a b c0 d e f g h i j k l m n o p v r s t u w x y z.

Definition set_consecutiveFailures (v : Z) (c : EmailConfig) : EmailConfig :=
  let '(mkEmailConfig a b c0 d e f g h i j k l m n o p q _ s t u w x y z) := c in
  mkEmailConfig a b c0 d e f g h i j k l m n o p q v s t u w x y z.

Definition set_lastSuccessfulSend (v : option Date) (c : EmailConfig) : EmailConfig :=
  let '(mkEmailConfig a b c0 d e f g h i j k l m n o p q r _ t u w x y z) := c in
  mkEmailConfig a b c0 d e f g h i j k l m n o p q r v t u w x y z.

Definition set_averageSendTime (v : Z) (c : EmailConfig) : EmailConfig :=
  let '(mkEmailConfig a b c0 d e f g h i j k l m n o p q r s _ u w x y z) := c in
  mkEmailConfig a b c0 d e f g h i j k l m n o p q r s v u w x y z.

Definition set_lastUsedIP (v : option string) (c : EmailConfig) : EmailConfig :=
  let '(mkEmailConfig a b c0 d e f g h i j k l m n o p q r s t _ w x y z) := c in
  mkEmailConfig a b c0 d e f g h i j k l m n o p q r s t v w x y z.

Definition set_suspiciousActivityCount (v : Z) (c : EmailConfig) : EmailConfig :=
  let '(mkEmailConfig a b c0 d e f g h i j k l m n o p q r s t u _ x y z) := c in
  mkEmailConfig a b c0 d e f g h i j k l m n o p q r s t u v x y z.

Definition set_lastSuspiciousActivity (v : option Date) (c : EmailConfig) : EmailConfig :=
  let '(mkEmailConfig a b c0 d e f g h i j k l m n o p q r s t u w _ y z) := c in
  mkEmailConfig a b c0 d e f g h i j k l m n o p q r s t u w v y z.

(** The four [new Date ()] that one call of [resetDailyCounterIfNeeded]
    evaluates, in program order. *)
Record ResetClock := mkResetClock {
  at_today : Date;     (* const today = new Date().toDateString() *)
  at_stamp : Date;     (* this.lastResetDate = new Date() *)
  at_year : Date;      (* new Date().getFullYear() *)
  at_month : Date      (* new Date().getMonth() *)
}.

(** A clock that does not move during the call. *)
Definition frozen (now : Date) : ResetClock := mkResetClock now now now now.

(** [resetDailyCounterIfNeeded]: the value returned is the document that
    [this.save ()] persists. *)
Definition resetDailyCounterIfNeeded (clk : ResetClock) (this : EmailConfig)
  : EmailConfig :=
  let today := toDateString (at_today clk) in
  let lastReset := toDateString (lastResetDate this) in
  let this :=
    if bool_decide (today <> lastReset)
    then set_lastResetDate (at_stamp clk) (set_emailsSentToday 0 this)
    else this in
  let currentMonth' := monthKey (at_year clk) (at_month clk) in
  if bool_decide (currentMonth this <> currentMonth')
  then set_currentMonth currentMonth' (set_monthlyEmailsSent 0 this)
  else this.

(** [updateSuccessRate]. *)
Definition updateSuccessRate (this : EmailConfig) : EmailConfig :=
  let totalAttempts := totalEmailsSent this + totalEmailsFailed this in
  set_successRate
    (if 0 <? totalAttempts
     then JS.round_pct (totalEmailsSent this) totalAttempts
     else 0)
    this.

(** [recordSuccessfulSend (sendTime)], called at time [now]. *)
Definition recordSuccessfulSend (now : Date) (sendTime : Z) (this : EmailConfig)
  : EmailConfig :=
  let this := set_totalEmailsSent (totalEmailsSent this + 1) this in
  let this := set_emailsSentToday (emailsSentToday this + 1) this in
  let this := set_monthlyEmailsSent (monthlyEmailsSent this + 1) this in
  let this := set_lastSuccessfulSend (Some now) this in
  let this := set_consecutiveFailures 0 this in
  let this :=
    if JS.truthy sendTime
    then
      let totalSends := totalEmailsSent this + totalEmailsFailed this in
      set_averageSendTime
        (JS.round_div (averageSendTime this * (totalSends - 1) + sendTime) totalSends)
        this
    else this in
  updateSuccessRate this.

(** [recordFailedSend (errorMessage)], called at time [now]. *)
Definition recordFailedSend (now : Date) (errorMessage : string) (this : EmailConfig)
  : EmailConfig :=
  let this := set_totalEmailsFailed (totalEmailsFailed this + 1) this in
  let this := set_errorCount (errorCount this + 1) this in
  let this := set_consecutiveFailures (consecutiveFailures this + 1) this in
  let this := set_lastErrorMessage errorMessage this in
  let this := set_lastErrorAt (Some now) this in
  updateSuccessRate this.

(** [recordSuspiciousActivity (ipAddress)], called at time [now]. *)
Definition recordSuspiciousActivity (now : Date) (ipAddress : string)
  (this : EmailConfig) : EmailConfig :=
  let this := set_suspiciousActivityCount (suspiciousActivityCount this + 1) this in
  let this := set_lastSuspiciousActivity (Some now) this in
  set_lastUsedIP (Some ipAddress) this.

(** The collection, in natural order.  [findOne ({ isActive: true })]
    returns the first active document; [save] writes a document back under
    its [_id].  Mongoose writes the paths assigned since the document was
    read; that is the whole document written back here as long as nobody
    else has written to the record in between. *)
Definition findOneActive (configs : list EmailConfig) : option EmailConfig :=
  List.find isActive configs.

Definition save (doc : EmailConfig) (configs : list EmailConfig) : list EmailConfig :=
  map (fun c => if Nat.eqb (_id c) (_id doc) then doc else c) configs.

End EmailConfigModel.

(** ** utils/email.util.js *)

Module EmailServiceUtil.
Import JS EmailConfigModel.

(** What [nodemailer.createTransport] is given; the pool settings are
    constants of the call. *)
Record Transporter := mkTransporter {
  tr_service : string;
  tr_user : string;
  tr_pass : string
}.

Record Mail := mkMail {
  mail_from : string;
  mail_to : string;
  mail_subject : string;
  mail_html : string
}.

(** How the promise of [transporter.sendMail] settles. *)
Inductive SendMailOutcome :=
| Accepted (messageId : string)
| Rejected (message : string).

Record PerformanceMetrics := mkPerformanceMetrics {
  sendTimes : list Z;
  pm_errorCount : Z;
  pm_successCount : Z
}.

(** The [EmailService] singleton.  [currentConfig] is the document loaded by
    the last successful [initializeTransporter]; it is kept, and mutated, for
    as long as the transporter lives. *)
Record EmailService := mkEmailService {
  transporter : option Transporter;
  currentConfig : option EmailConfig;
  performanceMetrics : PerformanceMetrics
}.

Definition constructor : EmailService :=
  mkEmailService None None (mkPerformanceMetrics [] 0 0).

(** The object [sendEmail] resolves to. *)
Record SendResult := mkSendResult {
  success : bool;
  messageId : option string;
  error : option string;
  sendTime : Z
}.

(** The clock readings of [initializeTransporter] and of [sendEmail]. *)
Record InitClock := mkInitClock {
  ic_reset : ResetClock;     (* inside resetDailyCounterIfNeeded *)
  ic_suspicious : Date       (* inside recordSuspiciousActivity *)
}.

Record SendClock := mkSendClock {
  sc_start : Z;              (* const startTime = Date.now() *)
  sc_init : InitClock;
  sc_end : Z;                (* Date.now() after sendMail settled *)
  sc_record : Date           (* new Date() inside the record method *)
}.

Definition nonEmpty (s : string) : bool := negb (String.eqb s EmptyString).

(** [initializeTransporter (ipAddress)]: the collection and the service after
    the call, and the message of the error it throws, if any. *)
Definition initializeTransporter (clk : InitClock) (ipAddress : string)
  (configs : list EmailConfig) (this : EmailService)
  : list EmailConfig * EmailService * option string :=
  match findOneActive configs with
  | None => (configs, this, Some "No active email configuration found")
  | Some config =>
      let config := resetDailyCounterIfNeeded (ic_reset clk) config in
      let configs := save config configs in
      (* Check for suspicious activity *)
      let suspicious :=
        match lastUsedIP config with
        | Some ip => nonEmpty ipAddress && nonEmpty ip && negb (String.eqb ip ipAddress)
        | None => false
        end in
      let config :=
        if suspicious then recordSuspiciousActivity (ic_suspicious clk) ipAddress config
        else set_lastUsedIP (Some ipAddress) config in
      let configs := save config configs in
      (* Check daily limit *)
      if dailyLimit config <=? emailsSentToday config
      then (configs, this,
            Some ("Daily email limit reached (" +:+ pretty (dailyLimit config) +:+ ")"))
      else
        (configs,
         mkEmailService
           (Some (mkTransporter (service config) (email config) (appPassword config)))
           (Some config)
           (performanceMetrics this),
         None)
  end.

Section Transport.

(** The mail transport behind nodemailer. *)
Variable sendMail : Transporter -> Mail -> SendMailOutcome.

(** [sendEmail (to, subject, html, ipAddress)]. *)
Definition sendEmail (clk : SendClock) (to subject html ipAddress : string)
  (configs : list EmailConfig) (this : EmailService)
  : list EmailConfig * EmailService * Completion SendResult :=
  let startTime := sc_start clk in
  let '(configs, this, thrown) :=
    match transporter this with
    | None => initializeTransporter (sc_init clk) ipAddress configs this
    | Some _ => (configs, this, None)
    end in
  match thrown with
  | Some message => (configs, this, Thrown message)
  | None =>
      match transporter this, currentConfig this with
      | Some tr, Some config =>
          let mail :=
            mkMail (JS.dquote +:+ fromName config +:+ JS.dquote +:+ " <" +:+ email config +:+ ">")
                   to subject html in
          let sendTime := sc_end clk - startTime in
          match sendMail tr mail with
          | Accepted mid =>
              let pm := performanceMetrics this in
              let pm := mkPerformanceMetrics (sendTimes pm ++ [sendTime])
                          (pm_errorCount pm) (pm_successCount pm + 1) in
              let config := recordSuccessfulSend (sc_record clk) sendTime config in
              (save config configs,
               mkEmailService (Some tr) (Some config) pm,
               Resolved (mkSendResult true (Some mid) None sendTime))
          | Rejected message =>
              let pm := performanceMetrics this in
              let pm := mkPerformanceMetrics (sendTimes pm)
                          (pm_errorCount pm + 1) (pm_successCount pm) in
              let config := recordFailedSend (sc_record clk) message config in
              (save config configs,
               mkEmailService (Some tr) (Some config) pm,
               Resolved (mkSendResult false None (Some message) sendTime))
          end
      | _, _ => (configs, this, Thrown "TypeError")
      end
  end.

End Transport.

End EmailServiceUtil.

(** ** models/PromotionalEmailModel.js

    The schema declares the six content paths, [sentCount], [failedCount],
    [status] and [configUsed] (the [timestamps] paths are left out here),
    and nothing else: no other path, and no instance method.  Mongoose keeps
    a schema strict: a key the schema does not declare is dropped by
    [create], and a property assigned to a document under such a name lives
    on the in-memory object only; [save] validates the modified paths and
    writes them, and nothing else, to the collection. *)

Module PromotionalEmailModel.

Record Content := mkContent {
  title : string;
  content : string;
  buttonText : string;
  buttonLink : string;
  contactEmail : string;
  contactPhone : string
}.

(** [enum] of the path [status]. *)
Definition statusEnum : list string := ["sending"; "completed"; "failed"].

(** A record of the collection: the declared paths. *)
Record Stored := mkStored {
  st_content : Content;
  st_sentCount : Z;
  st_failedCount : Z;
  st_status : string;
  st_configUsed : nat
}.

Inductive Path := PSentCount | PFailedCount | PStatus.

Global Instance Path_eq_dec : EqDecision Path.
Proof. solve_decision. Defined.

(** A document: the hydrated paths, the paths modified since the last save,
    and the properties the controllers assign or read that the schema does
    not declare ([undefined] until assigned). *)
Record Doc := mkDoc {
  doc_id : nat;
  doc_content : Content;
  sentCount : Z;
  failedCount : Z;
  status : string;
  configUsed : nat;
  modified : list Path;
  totalRecipients : option Z;
  startTime : option Date;
  progress : option Z;
  endTime : option Date;
  duration : option Z;
  averageSendTime : option Z
}.

(** Assignment to a declared path marks it modified. *)
Definition set_sentCount (v : Z) (d : Doc) : Doc :=
  let '(mkDoc i c _ f s u m tr st pr en du av) := d in
  mkDoc i c v f s u (PSentCount :: m) tr st pr en du av.

Definition set_failedCount (v : Z) (d : Doc) : Doc :=
  let '(mkDoc i c n _ s u m tr st pr en du av) := d in
  mkDoc i c n v s u (PFailedCount :: m) tr st pr en du av.

Definition set_status (v : string) (d : Doc) : Doc :=
  let '(mkDoc i c n f _ u m tr st pr en du av) := d in
  mkDoc i c n f v u (PStatus :: m) tr st pr en du av.

Definition clear_modified (d : Doc) : Doc :=
  let '(mkDoc i c n f s u _ tr st pr en du av) := d in
  mkDoc i c n f s u [] tr st pr en du av.

(** Assignment to an undeclared name. *)
Definition set_progress (v : Z) (d : Doc) : Doc :=
  let '(mkDoc i c n f s u m tr st _ en du av) := d in
  mkDoc i c n f s u m tr st (Some v) en du av.

Definition set_endTime (v : Date) (d : Doc) : Doc :=
  let '(mkDoc i c n f s u m tr st pr _ du av) := d in
  mkDoc i c n f s u m tr st pr (Some v) du av.

Definition set_duration (v : Z) (d : Doc) : Doc :=
  let '(mkDoc i c n f s u m tr st pr en _ av) := d in
  mkDoc i c n f s u m tr st pr en (Some v) av.

Definition set_averageSendTime (v : Z) (d : Doc) : Doc :=
  let '(mkDoc i c n f s u m tr st pr en du _) := d in
  mkDoc i c n f s u m tr st pr en du (Some v).

(** A record read from the collection as a document. *)
Definition hydrate (id : nat) (r : Stored) : Doc :=
  mkDoc id (st_content r) (st_sentCount r) (st_failedCount r) (st_status r)
        (st_configUsed r) [] None None None None None None.

Definition findById (id : nat) (campaigns : gmap nat Stored) : option Doc :=
  hydrate id <$> campaigns !! id.

(** Validation of the modified paths: only [status] carries a validator. *)
Definition validate (d : Doc) : option string :=
  if bool_decide (PStatus ∈ modified d) && negb (bool_decide (status d ∈ statusEnum))
  then Some ("PromotionalEmail validation failed: status: `" +:+ status d +:+
             "` is not a valid enum value for path `status`.")
  else None.

Definition writePath (d : Doc) (p : Path) (r : Stored) : Stored :=
  let '(mkStored c n f s u) := r in
  match p with
  | PSentCount => mkStored c (sentCount d) f s u
  | PFailedCount => mkStored c n (failedCount d) s u
  | PStatus => mkStored c n f (status d) u
  end.

(** [doc.save ()]: the document after the call, the collection, and the
    message of the error thrown, if any.  A refused save writes nothing and
    leaves the paths modified.  (No code path deletes a campaign; on a
    missing record the write is a no-op here.) *)
Definition save (d : Doc) (campaigns : gmap nat Stored)
  : Doc * gmap nat Stored * option string :=
  match validate d with
  | Some message => (d, campaigns, Some message)
  | None =>
      (clear_modified d,
       alter (fun r => foldr (writePath d) r (modified d)) (doc_id d) campaigns,
       None)
  end.

(** The object handed to [PromotionalEmail.create]. *)
Record CreateInput := mkCreateInput {
  ci_content : Content;
  ci_configUsed : nat;
  ci_status : string;
  ci_totalRecipients : Z;
  ci_startTime : Date
}.

Definition requiredMissing (c : Content) : bool :=
  String.eqb (title c) EmptyString || String.eqb (content c) EmptyString ||
  String.eqb (buttonLink c) EmptyString || String.eqb (contactEmail c) EmptyString ||
  String.eqb (contactPhone c) EmptyString.

(** [PromotionalEmail.create (input)]; [newId] is the ObjectId the driver
    generates for the new document.  The keys [totalRecipients] and
    [startTime] are not paths of the schema and are dropped. *)
Definition create (newId : nat) (input : CreateInput) (campaigns : gmap nat Stored)
  : option Doc * gmap nat Stored * option string :=
  if requiredMissing (ci_content input)
  then (None, campaigns, Some "PromotionalEmail validation failed: a required path is missing")
  else if negb (bool_decide (ci_status input ∈ statusEnum))
  then (None, campaigns, Some "PromotionalEmail validation failed: status")
  else
    match campaigns !! newId with
    | Some _ => (None, campaigns, Some "E11000 duplicate key error")
    | None =>
        let r := mkStored (ci_content input) 0 0 (ci_status input)
                          (ci_configUsed input) in
        (Some (hydrate newId r), <[newId := r]> campaigns, None)
    end.

(** The instance methods the controller calls.  Nothing is assigned to
    [PromotionalEmailSchema.methods], so on a document the properties
    [addError], [addPerformanceLog] and [updateStats] are [undefined]: the
    call [promotionalEmail.addError (...)] throws a TypeError once its
    arguments are evaluated, and has no other effect. *)
Definition notAFunction (method : string) : string :=
  "promotionalEmail." +:+ method +:+ " is not a function".

Definition addError (recipient message : string) (d : Doc) : JS.Completion unit :=
  JS.Thrown (notAFunction "addError").

Definition addPerformanceLog (batchNumber batchSent batchFailed averageTime : Z)
  (d : Doc) : JS.Completion unit :=
  JS.Thrown (notAFunction "addPerformanceLog").

Definition updateStats (d : Doc) : JS.Completion unit :=
  JS.Thrown (notAFunction "updateStats").

End PromotionalEmailModel.

(** ** controllers/PromotionalEmailController.js *)

Module PromotionalEmailController.
Import JS EmailConfigModel EmailServiceUtil PromotionalEmailModel.

Record Student := mkStudent {
  firstName : string;
  lastName : string;
  student_email : option string
}.

(** The recipient query: [email] exists, is not empty and matches
    [/^[^\s@]+@[^\s@]+\.[^\s@]+$/] (on ASCII text). *)
Definition isSpace (c : Ascii.ascii) : bool :=
  let n := Ascii.nat_of_ascii c in
  ((9 <=? n)%nat && (n <=? 13)%nat) || (n =? 32)%nat.

Fixpoint takeWhile {A} (p : A -> bool) (l : list A) : list A :=
  match l with
  | x :: l' => if p x then x :: takeWhile p l' else []
  | [] => []
  end.


Definition plain (c : Ascii.ascii) : bool :=
  negb (isSpace c) && negb (Ascii.eqb c "@"%char).

Definition dotInside (l : list Ascii.ascii) : bool :=
  match l with
  | [] => false
  | _ :: tl => existsb (fun c => Ascii.eqb c "."%char) (removelast tl)
  end.

Definition matchesEmail (s : string) : bool :=
  let l := String.list_ascii_of_string s in
  let localPart := takeWhile (fun c => negb (Ascii.eqb c "@"%char)) l in
  match drop (length localPart) l with
  | _ :: domain =>
      negb (Nat.eqb (length localPart) 0) && forallb plain localPart &&
      forallb plain domain && dotInside domain
  | [] => false
  end.

Definition hasValidEmail (s : Student) : bool :=
  match student_email s with
  | Some e => nonEmpty e && matchesEmail e
  | None => false
  end.

Definition emailOf (s : Student) : string :=
  default EmptyString (student_email s).

(** [req.body]. *)
Record Body := mkBody {
  body_title : option string;
  body_content : option string;
  body_buttonText : option string;
  body_buttonLink : option string;
  body_contactEmail : option string;
  body_contactPhone : option string
}.

Definition falsy (o : option string) : bool :=
  match o with
  | Some s => String.eqb s EmptyString
  | None => true
  end.

(** What a handler sends with [res.status (code).json (...)]. *)
Inductive Response :=
| Status400 (message : string)
| Status404 (message : string)
| Status500 (message : string)
| Started (campaignId : nat) (totalStudents estimatedTime : Z)
| Cancelled (id : nat) (sentCount failedCount : Z) (progress : option Z).

(** The three collections the handlers work on. *)
Record World := mkWorld {
  configs : list EmailConfig;
  students : list Student;
  campaigns : gmap nat Stored
}.

(** The arguments of the detached call [sendEmailsInBackground (students,
    promotionalEmail, emailConfig, req.ip)]. *)
Record Background := mkBackground {
  bg_students : list Student;
  bg_promotionalEmail : Doc;
  bg_emailConfig : EmailConfig;
  bg_clientIP : string
}.

(** The pre-flight refusal. *)
Definition quotaExceeded (remainingEmails : Z) (n : nat) : Response :=
  Status400 ("Daily email limit exceeded. " +:+ pretty remainingEmails +:+
             " emails remaining, but " +:+ pretty n +:+ " students to email.").

(** [sendPromotionalEmail (req, res)]: the response, the collections after
    the handler returned, and the background call it left running, if any. *)
Definition sendPromotionalEmail (clk : ResetClock) (now : Date) (newId : nat)
  (body : Body) (ip : string) (w : World) : Response * World * option Background :=
  (* Validate required fields *)
  if falsy (body_title body) || falsy (body_content body) ||
     falsy (body_buttonLink body) || falsy (body_contactEmail body) ||
     falsy (body_contactPhone body)
  then (Status400 "Title, content, button link, contact email and phone are required",
        w, None)
  else
    (* Get active email config *)
    match findOneActive (configs w) with
    | None =>
        (Status400 "No active email configuration found. Please set up email first.",
         w, None)
    | Some emailConfig =>
        (* Get all students with emails *)
        let found := List.filter hasValidEmail (students w) in
        if Nat.eqb (length found) 0
        then (Status400 "No students with valid email addresses found", w, None)
        else
          (* Check daily limit *)
          let emailConfig := resetDailyCounterIfNeeded clk emailConfig in
          let w := mkWorld (EmailConfigModel.save emailConfig (configs w))
                           (students w) (campaigns w) in
          let remainingEmails := dailyLimit emailConfig - emailsSentToday emailConfig in
          if remainingEmails <? Z.of_nat (length found)
          then (quotaExceeded remainingEmails (length found), w, None)
          else
            (* Create promotional email record *)
            let str o := trim (default EmptyString o) in
            let input :=
              mkCreateInput
                (mkContent (str (body_title body)) (str (body_content body))
                   (trim (if falsy (body_buttonText body) then "Book Now"
                          else default EmptyString (body_buttonText body)))
                   (str (body_buttonLink body)) (str (body_contactEmail body))
                   (str (body_contactPhone body)))
                (_id emailConfig) "sending" (Z.of_nat (length found)) now in
            match create newId input (campaigns w) with
            | (Some promotionalEmail, campaigns', _) =>
                (Started newId (Z.of_nat (length found))
                         (ceil_div (Z.of_nat (length found) * 2) 60),
                 mkWorld (configs w) (students w) campaigns',
                 Some (mkBackground found promotionalEmail emailConfig ip))
            | (None, _, _) =>
                (Status500 "Failed to send promotional email", w, None)
            end
    end.

(** [cancelPromotionalEmail (req, res)] for [req.params.id = id]. *)
Definition cancelPromotionalEmail (now : Date) (id : nat) (campaigns : gmap nat Stored)
  : Response * gmap nat Stored :=
  match findById id campaigns with
  | None => (Status404 "Promotional email not found", campaigns)
  | Some email =>
      if negb (String.eqb (status email) "sending")
      then (Status400 "Cannot cancel campaign that is not in sending status", campaigns)
      else
        let email := set_status "cancelled" email in
        let email := set_endTime now email in
        match save email campaigns with
        | (email, campaigns', None) =>
            (Cancelled (doc_id email) (sentCount email) (failedCount email)
                       (progress email),
             campaigns')
        | (_, campaigns', Some _) =>
            (Status500 "Failed to cancel promotional email", campaigns')
        end
  end.

(** *** The background sender *)

(** Effects of [sendEmailsInBackground] that leave no mark on the
    collection, in program order.  A send is recorded with its recipient and
    its subject; the HTML body that [generateEmailContent] builds for the
    recipient is not modelled. *)
Inductive Event :=
| SendEmail (batch : Z) (to subject : string)   (* EmailService.sendEmail (...) *)
| BatchSettled (batch : Z)                      (* Promise.all resolved *)
| Sleep (ms : Z).                               (* setTimeout (resolve, ms) *)

Definition batchSize : nat := 10.
Definition delayBetweenBatches : Z := 2000.

(** The function's locals, the document it was handed and the clock
    position.  [pos] is the loop variable [i]; [uncaught] is the error that
    leaves the function, if one does.  The handler does not await the call,
    so such an error is an unhandled rejection: server.js answers it by
    closing the server and ending the process. *)
Record Sender := mkSender {
  pos : nat;
  finished : bool;
  uncaught : option string;
  local_sentCount : Z;
  local_failedCount : Z;
  promotionalEmail : Doc;
  tick : nat;
  trace : list Event;
  local_startTime : Z
}.

(** The state shared by the callbacks of one batch. *)
Record Batch := mkBatch {
  run_sentCount : Z;
  run_failedCount : Z;
  batchSent : Z;
  batchFailed : Z;
  b_trace : list Event;
  b_rejected : option string      (* the first rejection among the callbacks *)
}.

Section Engine.

(** What [EmailService.sendEmail] does for the recipient at a given index of
    the recipient list. *)
Variable deliver : nat -> Student -> Completion SendResult.

(** The [n]-th reading of the clock. *)
Variable clock : nat -> Date.

(** A callback up to its [await]: [EmailService.sendEmail (student.email,
    promotionalEmail.title, emailContent, clientIP)] is called. *)
Definition callOne (batchNumber : Z) (doc : Doc) (student : Student) (b : Batch)
  : Batch :=
  mkBatch (run_sentCount b) (run_failedCount b) (batchSent b) (batchFailed b)
          (b_trace b ++ [SendEmail batchNumber (emailOf student) (title (doc_content doc))])
          (b_rejected b).

(** The [catch] block of a callback: [failedCount++; batchFailed++;
    await promotionalEmail.addError (student.email, error.message)].  An
    error thrown in here rejects the promise of the callback. *)
Definition caughtOne (student : Student) (message : string) (doc : Doc) (b : Batch)
  : Batch :=
  let b := mkBatch (run_sentCount b) (run_failedCount b + 1) (batchSent b)
                   (batchFailed b + 1) (b_trace b) (b_rejected b) in
  match addError (emailOf student) message doc with
  | Resolved _ => b
  | Thrown m =>
      mkBatch (run_sentCount b) (run_failedCount b) (batchSent b) (batchFailed b)
              (b_trace b)
              (match b_rejected b with Some m0 => Some m0 | None => Some m end)
  end.

(** A callback from its [await] on, for the recipient at index [idx]. *)
Definition resumeOne (doc : Doc) (idx : nat) (student : Student) (b : Batch) : Batch :=
  match deliver idx student with
  | Resolved result =>
      if success result
      then (* sentCount++; batchSent++ *)
        mkBatch (run_sentCount b + 1) (run_failedCount b) (batchSent b + 1)
                (batchFailed b) (b_trace b) (b_rejected b)
      else
        (* failedCount++; batchFailed++;
           await promotionalEmail.addError (student.email, result.error) *)
        let b := mkBatch (run_sentCount b) (run_failedCount b + 1) (batchSent b)
                         (batchFailed b + 1) (b_trace b) (b_rejected b) in
        match addError (emailOf student) (default EmptyString (error result)) doc with
        | Resolved _ => b
        | Thrown m => caughtOne student m doc b
        end
  | Thrown message => caughtOne student message doc b
  end.

(** [await Promise.all (batch.map (async (student) => { ... }))] for the
    batch that starts at index [i]: every callback runs up to its [await]
    while [map] runs, so that every [sendEmail] of the batch is called, in
    input order; the callbacks then resume as the sends settle.  The order
    in which they resume is not fixed by the program, and a callback that
    resumes after another has rejected still runs to its end; neither the
    counters they leave nor the rejection depend on the order, and the
    input order is taken here. *)
Definition processBatch (i : nat) (batchNumber : Z) (batch : list Student)
  (s : Sender) : Batch :=
  let doc := promotionalEmail s in
  let called :=
    fold_left (fun b st => callOne batchNumber doc st b) batch
              (mkBatch (local_sentCount s) (local_failedCount s) 0 0 (trace s) None) in
  fold_left (fun b '(idx, st) => resumeOne doc idx st b)
            (combine (seq i (length batch)) batch) called.

(** The function has ended: it has returned, or [thrown] has left it. *)
Definition ended (thrown : option string) (doc : Doc) (s : Sender) : Sender :=
  mkSender (pos s) true thrown (local_sentCount s) (local_failedCount s) doc
           (S (tick s)) (trace s) (local_startTime s).

(** The outer [catch] block.  Nothing catches what is thrown in here. *)
Definition failCampaign (message : string) (s : Sender) (campaigns : gmap nat Stored)
  : Sender * gmap nat Stored :=
  let doc := set_status "failed" (promotionalEmail s) in
  let doc := set_endTime (clock (tick s)) doc in
  match addError "SYSTEM" message doc with
  | Thrown m => (ended (Some m) doc s, campaigns)
  | Resolved _ =>
      let '(doc, campaigns, thrown) := save doc campaigns in
      (ended thrown doc s, campaigns)
  end.

(** One turn of the [for] loop. *)
Definition batchTurn (recipients : list Student) (s : Sender)
  (campaigns : gmap nat Stored) : Sender * gmap nat Stored :=
  let n := length recipients in
  let i := pos s in
  let batch := take batchSize (drop i recipients) in
  let batchNumber := Z.of_nat (i / batchSize) + 1 in
  let batchStartTime := getTime (clock (tick s)) in
  let b := processBatch i batchNumber batch s in
  let s := mkSender i false None (run_sentCount b) (run_failedCount b)
                    (promotionalEmail s) (S (tick s)) (b_trace b) (local_startTime s) in
  match b_rejected b with
  | Some message => failCampaign message s campaigns
  | None =>
      let tr := trace s ++ [BatchSettled batchNumber] in
      let batchTime := getTime (clock (tick s)) - batchStartTime in
      let averageTime :=
        if 0 <? batchSent b then round_div batchTime (batchSent b) else 0 in
      (* Update campaign progress *)
      let doc := set_sentCount (run_sentCount b) (promotionalEmail s) in
      let doc := set_failedCount (run_failedCount b) doc in
      let doc := set_progress (round_pct (run_sentCount b) (Z.of_nat n)) doc in
      let s := mkSender i false None (run_sentCount b) (run_failedCount b) doc
                        (S (tick s)) tr (local_startTime s) in
      match addPerformanceLog batchNumber (batchSent b) (batchFailed b) averageTime doc with
      | Thrown message => failCampaign message s campaigns
      | Resolved _ =>
          match updateStats doc with
          | Thrown message => failCampaign message s campaigns
          | Resolved _ =>
              (* Delay between batches to avoid rate limiting *)
              let tr :=
                if (i + batchSize <? n)%nat
                then tr ++ [Sleep delayBetweenBatches] else tr in
              (mkSender (i + batchSize) false None (run_sentCount b) (run_failedCount b)
                        doc (tick s) tr (local_startTime s),
               campaigns)
          end
      end
  end.

(** The lines under [// Campaign completed]. *)
Definition complete (s : Sender) (campaigns : gmap nat Stored)
  : Sender * gmap nat Stored :=
  let sent := local_sentCount s in
  let totalTime := getTime (clock (tick s)) - local_startTime s in
  let doc := set_status "completed" (promotionalEmail s) in
  let doc := set_endTime (clock (S (tick s))) doc in
  let doc := set_duration totalTime doc in
  let doc :=
    set_averageSendTime (if 0 <? sent then round_div totalTime sent else 0) doc in
  let s := mkSender (pos s) false None sent (local_failedCount s) doc (S (S (tick s)))
                    (trace s) (local_startTime s) in
  match save doc campaigns with
  | (doc, campaigns, Some message) => failCampaign message s campaigns
  | (doc, campaigns, None) => (ended None doc s, campaigns)
  end.

(** One turn of the [for] loop, or what follows the loop. *)
Definition step (recipients : list Student) (s : Sender) (campaigns : gmap nat Stored)
  : Sender * gmap nat Stored :=
  if finished s then (s, campaigns)
  else if (pos s <? length recipients)%nat then batchTurn recipients s campaigns
  else complete s campaigns.

(** The locals on entry: [sentCount = 0], [failedCount = 0],
    [startTime = Date.now ()]. *)
Definition initialSender (doc : Doc) : Sender :=
  mkSender 0 false None 0 0 doc 1 [] (getTime (clock 0)).

(** The loop and its epilogue. *)
Fixpoint run (fuel : nat) (recipients : list Student) (s : Sender)
  (campaigns : gmap nat Stored) : Sender * gmap nat Stored :=
  match fuel with
  | O => (s, campaigns)
  | S fuel =>
      let '(s', campaigns') := step recipients s campaigns in
      if finished s' then (s', campaigns')
      else run fuel recipients s' campaigns'
  end.

(** [sendEmailsInBackground (students, promotionalEmail, emailConfig,
    clientIP)]; the last two arguments reach [EmailService.sendEmail] only,
    which [deliver] stands for. *)
Definition sendEmailsInBackground (recipients : list Student) (doc : Doc)
  (campaigns : gmap nat Stored) : Sender * gmap nat Stored :=
  run (S (length recipients)) recipients (initialSender doc) campaigns.

End Engine.

End PromotionalEmailController.

(** ** models/EmailAnalyticsModel.js *)

Module EmailAnalyticsModel.

(** A document of [EmailAnalyticsSchema]: the paths [recordDailyAnalytics]
    writes.  [date] is the epoch time of the Date stored; the other paths of
    the schema keep their defaults.  The keys of a stored Map are strings. *)
Record EmailAnalytics := mkEmailAnalytics {
  ea_date : Z;
  ea_period : string;
  ea_emailsSent : Z;
  ea_emailsFailed : Z;
  ea_successRate : Z;
  ea_averageSendTime : Z;
  ea_peakSendingHour : Z;
  ea_sendingPattern : list (string * Z);       (* Hour -> Count *)
  ea_campaignsRun : Z;
  ea_consecutiveFailures : Z;
  ea_systemUptime : Z
}.

(** A key of a JavaScript [Map]: any value; a Number or a string here. *)
Inductive MapKey :=
| NumberKey (n : Z)
| StringKey (s : string).

(** The update document handed to [findOneAndUpdate]: the values as the
    caller built them. *)
Record Update := mkUpdate {
  u_date : Z;
  u_period : string;
  u_emailsSent : Z;
  u_emailsFailed : Z;
  u_successRate : Z;
  u_averageSendTime : Z;
  u_peakSendingHour : Z;
  u_sendingPattern : list (MapKey * Z);
  u_campaignsRun : Z;
  u_consecutiveFailures : Z;
  u_systemUptime : Z
}.

(** The cast of a value to the path [sendingPattern], of type [Map].
    Mongoose copies the entries into a map of its own, which supports string
    keys only: an entry under a key of another type makes the cast throw. *)
Fixpoint castMap (m : list (MapKey * Z)) : JS.Completion (list (string * Z)) :=
  match m with
  | [] => JS.Resolved []
  | (StringKey k, v) :: m' =>
      match castMap m' with
      | JS.Resolved entries => JS.Resolved ((k, v) :: entries)
      | JS.Thrown message => JS.Thrown message
      end
  | (NumberKey _, _) :: _ =>
      JS.Thrown "Mongoose maps only support string keys, got number"
  end.

(** The first document with the date and period of [update] is overwritten
    with it; if there is none, [update] is inserted. *)
Fixpoint upsert (update : EmailAnalytics) (docs : list EmailAnalytics)
  : list EmailAnalytics :=
  match docs with
  | [] => [update]
  | d :: docs' =>
      if (ea_date d =? ea_date update) && String.eqb (ea_period d) (ea_period update)
      then update :: docs'
      else d :: upsert update docs'
  end.

(** [findOneAndUpdate ({ date, period }, update, { upsert: true, new: true })]:
    the update is cast to the schema first, and an error of the cast is
    thrown before the database is asked. *)
Definition findOneAndUpdate (update : Update) (docs : list EmailAnalytics)
  : JS.Completion (list EmailAnalytics) :=
  match castMap (u_sendingPattern update) with
  | JS.Thrown message => JS.Thrown message
  | JS.Resolved sendingPattern =>
      JS.Resolved
        (upsert (mkEmailAnalytics (u_date update) (u_period update)
                   (u_emailsSent update) (u_emailsFailed update)
                   (u_successRate update) (u_averageSendTime update)
                   (u_peakSendingHour update) sendingPattern
                   (u_campaignsRun update) (u_consecutiveFailures update)
                   (u_systemUptime update))
                docs)
  end.

End EmailAnalyticsModel.

(** ** utils/email.util.js: statistics and health *)

Module EmailServiceReports.
Import JS EmailConfigModel EmailServiceUtil EmailAnalyticsModel.

(** [stats.currentSession]. *)
Record Session := mkSession {
  cs_totalSends : Z;
  cs_successCount : Z;
  cs_errorCount : Z;
  cs_averageSendTime : Z
}.

(** The object [getEmailStats] resolves to. *)
Record Stats := mkStats {
  (* Basic Info *)
  stats_email : string;
  stats_fromName : string;
  stats_isActive : bool;
  (* Daily Usage *)
  stats_dailyLimit : Z;
  sentToday : Z;
  remainingToday : Z;
  lastReset : Date;
  (* Monthly Usage *)
  monthlySent : Z;
  stats_currentMonth : string;
  (* Lifetime Statistics *)
  totalSent : Z;
  totalFailed : Z;
  stats_successRate : Z;
  (* Performance Metrics *)
  stats_averageSendTime : Z;
  stats_consecutiveFailures : Z;
  stats_lastSuccessfulSend : option Date;
  lastError : string;
  stats_lastErrorAt : option Date;
  (* Reliability & Security *)
  stats_errorCount : Z;
  stats_suspiciousActivityCount : Z;
  stats_lastSuspiciousActivity : option Date;
  stats_lastUsedIP : option string;
  (* Current Session Performance *)
  currentSession : Session
}.

(** [sendTimes.reduce ((a, b) => a + b, 0)]. *)
Definition total (l : list Z) : Z := fold_left Z.add l 0.

Definition sessionOf (pm : PerformanceMetrics) : Session :=
  mkSession (pm_successCount pm + pm_errorCount pm) (pm_successCount pm)
            (pm_errorCount pm)
            (if (0 <? length (sendTimes pm))%nat
             then round_div (total (sendTimes pm)) (Z.of_nat (length (sendTimes pm)))
             else 0).

Definition statsOf (c : EmailConfig) (pm : PerformanceMetrics) : Stats :=
  mkStats (email c) (fromName c) (isActive c)
          (dailyLimit c) (emailsSentToday c) (dailyLimit c - emailsSentToday c)
          (lastResetDate c)
          (monthlyEmailsSent c) (currentMonth c)
          (totalEmailsSent c) (totalEmailsFailed c) (successRate c)
          (averageSendTime c) (consecutiveFailures c) (lastSuccessfulSend c)
          (lastErrorMessage c) (lastErrorAt c)
          (errorCount c) (suspiciousActivityCount c) (lastSuspiciousActivity c)
          (lastUsedIP c)
          (sessionOf pm).

(** [getEmailStats ()]: without a [currentConfig] the transporter is
    initialised first, with the default address ['unknown']. *)
Definition getEmailStats (clk : InitClock) (configs : list EmailConfig)
  (this : EmailService) : list EmailConfig * EmailService * Completion Stats :=
  let '(configs, this, thrown) :=
    match currentConfig this with
    | None => initializeTransporter clk "unknown" configs this
    | Some _ => (configs, this, None)
    end in
  match thrown with
  | Some message => (configs, this, Thrown message)
  | None =>
      match currentConfig this with
      | Some c => (configs, this, Resolved (statsOf c (performanceMetrics this)))
      | None => (configs, this, Thrown "TypeError")
      end
  end.

(** The object [getSystemHealth] resolves to: [status], [issues],
    [lastChecked] and the statistics spread after them. *)
Record Health := mkHealth {
  health_status : string;
  health_issues : list string;
  health_lastChecked : Date;
  health_stats : Stats
}.

(** The four checks of [getSystemHealth], in program order. *)
Definition diagnose (stats : Stats) : string * list string :=
  let status := "healthy" in
  let issues := [] in
  let '(status, issues) :=
    if 5 <? stats_consecutiveFailures stats
    then ("degraded",
          issues ++ ["High consecutive failures: " +:+
                     pretty (stats_consecutiveFailures stats)])
    else (status, issues) in
  let '(status, issues) :=
    if stats_successRate stats <? 80
    then ("degraded",
          issues ++ ["Low success rate: " +:+ pretty (stats_successRate stats) +:+ "%"])
    else (status, issues) in
  let issues :=
    if remainingToday stats <? 50
    then issues ++ ["Low daily quota remaining: " +:+ pretty (remainingToday stats)]
    else issues in
  let issues :=
    if 0 <? stats_suspiciousActivityCount stats
    then issues ++ ["Suspicious activity detected: " +:+
                    pretty (stats_suspiciousActivityCount stats) +:+ " incidents"]
    else issues in
  (status, issues).

(** [getSystemHealth ()], [now] being the [new Date ()] of [lastChecked]. *)
Definition getSystemHealth (clk : InitClock) (now : Date) (configs : list EmailConfig)
  (this : EmailService) : list EmailConfig * EmailService * Completion Health :=
  let '(configs, this, stats) := getEmailStats clk configs this in
  match stats with
  | Thrown message => (configs, this, Thrown message)
  | Resolved stats =>
      let '(status, issues) := diagnose stats in
      (configs, this, Resolved (mkHealth status issues now stats))
  end.

(** [resetPerformanceMetrics ()]. *)
Definition resetPerformanceMetrics (this : EmailService) : EmailService :=
  mkEmailService (transporter this) (currentConfig this) (mkPerformanceMetrics [] 0 0).

(** [recordDailyAnalytics ()].  [today] is the epoch time of the Date
    [today] after [today.setHours (0, 0, 0, 0)] and [currentHour] is
    [today.getHours ()] read after that: a Number, which
    [sendingPattern.set (currentHour, ...)] takes for the key.  An error
    thrown on the way is caught and logged, and nothing is written. *)
Definition recordDailyAnalytics (clk : InitClock) (today currentHour : Z)
  (configs : list EmailConfig) (this : EmailService) (analytics : list EmailAnalytics)
  : list EmailConfig * EmailService * list EmailAnalytics :=
  let '(configs, this, stats) := getEmailStats clk configs this in
  match stats with
  | Thrown _ => (configs, this, analytics)
  | Resolved stats =>
      let sendingPattern := [(NumberKey currentHour, sentToday stats)] in
      match
        findOneAndUpdate
          (mkUpdate today "daily"
             (sentToday stats)
             (cs_errorCount (currentSession stats))
             (stats_successRate stats)
             (stats_averageSendTime stats)
             currentHour
             sendingPattern
             1
             (stats_consecutiveFailures stats)
             (if 10 <? stats_consecutiveFailures stats then 90 else 100))
          analytics
      with
      | Resolved analytics' => (configs, this, analytics')
      | Thrown _ => (configs, this, analytics)
      end
  end.

End EmailServiceReports.

(** ** middlewares/emailMiddleware.js *)

Module EmailMiddleware.
Import JS EmailConfigModel EmailServiceUtil EmailServiceReports
       PromotionalEmailController.

(** What a middleware does with the request: it calls [next ()], or it
    answers with status 400. *)
Inductive Passage :=
| next
| status400 (message : string) (errors : list string).

(** [checkEmailConfig]; [clientIP] is the value of
    [req.ip || req.connection.remoteAddress], and [undefined] makes
    [initializeTransporter] take its default address. *)
Definition checkEmailConfig (clk : InitClock) (clientIP : option string)
  (configs : list EmailConfig) (this : EmailService)
  : list EmailConfig * EmailService * Passage :=
  let '(configs, this, thrown) :=
    initializeTransporter clk (default "unknown" clientIP) configs this in
  match thrown with
  | Some _ =>
      (configs, this,
       status400 "Email service not configured. Please set up email configuration first." [])
  | None => (configs, this, next)
  end.

(** The refusal of [checkEmailLimit]. *)
Definition limitReached (dailyLimit : Z) : Passage :=
  status400 ("Daily email limit reached (" +:+ pretty dailyLimit +:+
             "). Please try again tomorrow.") [].

(** [checkEmailLimit]; on [next ()] the statistics are left in
    [req.emailStats]. *)
Definition checkEmailLimit (clk : InitClock) (configs : list EmailConfig)
  (this : EmailService) : list EmailConfig * EmailService * Passage * option Stats :=
  let '(configs, this, stats) := getEmailStats clk configs this in
  match stats with
  | Thrown _ => (configs, this, status400 "Unable to check email limits" [], None)
  | Resolved stats =>
      if remainingToday stats <=? 0
      then (configs, this, limitReached (stats_dailyLimit stats), None)
      else (configs, this, next, Some stats)
  end.

(** [isValidEmail]: [emailRegex.test (email)]. *)
Definition isValidEmail (email : string) : bool := emailRegex email.

Section Validation.

(** [isValidUrl]: whether [new URL (string)] returns rather than throws. *)
Variable isValidUrl : string -> bool.

(** [!s || p (s)] for a body property that is a string or [undefined]. *)
Definition missingOr (p : string -> bool) (o : option string) : bool :=
  match o with
  | Some s => String.eqb s EmptyString || p s
  | None => true
  end.

(** [s.trim ().length < n]. *)
Definition shorterThan (n : nat) (s : string) : bool :=
  (String_length (trim s) <? n)%nat.

(** [validatePromotionalEmail]. *)
Definition validatePromotionalEmail (body : Body) : Passage :=
  let errors := [] in
  let errors :=
    if missingOr (shorterThan 5) (body_title body)
    then errors ++ ["Title is required and must be at least 5 characters long"]
    else errors in
  let errors :=
    if missingOr (shorterThan 10) (body_content body)
    then errors ++ ["Content is required and must be at least 10 characters long"]
    else errors in
  let errors :=
    if missingOr (fun s => negb (isValidUrl s)) (body_buttonLink body)
    then errors ++ ["Valid button link is required"]
    else errors in
  let errors :=
    if missingOr (fun s => negb (isValidEmail s)) (body_contactEmail body)
    then errors ++ ["Valid contact email is required"]
    else errors in
  let errors :=
    if missingOr (shorterThan 5) (body_contactPhone body)
    then errors ++ ["Contact phone is required"]
    else errors in
  if (0 <? length errors)%nat then status400 "Validation failed" errors else next.

End Validation.

End EmailMiddleware.

(** ** models/studentModel.js: the validator of [email] *)

Module StudentModel.
Import PromotionalEmailController.




End StudentModel.

(** ** controllers/EmailConfigController.js *)

Module EmailConfigController.
Import JS EmailConfigModel EmailServiceUtil EmailServiceReports
       PromotionalEmailController EmailMiddleware.

(** A handler answers with [res.status (code).json (...)]: a body with
    [success: true] and its data, or [success: false] and a message. *)
Inductive Answer (A : Type) :=
| Json (code : Z) (data : A)
| Failure (code : Z) (message : string).
Arguments Json {A} code data.
Arguments Failure {A} code message.

Definition set_isActive (v : bool) (c : EmailConfig) : EmailConfig :=
  let '(mkEmailConfig a b c0 d e _ g h i j k l m n o p q r s t u w x y z) := c in
  mkEmailConfig a b c0 d e v g h i j k l m n o p q r s t u w x y z.

(** [EmailConfig.updateMany ({}, { isActive: false })]. *)
Definition deactivateAll (configs : list EmailConfig) : list EmailConfig :=
  map (set_isActive false) configs.

(** The clock readings behind the defaults of a new document:
    [lastResetDate], the [new Date ()] of [currentMonth], [createdAt] and
    [updatedAt]. *)
Record CreateClock := mkCreateClock {
  cc_lastResetDate : Date;
  cc_currentMonth : Date;
  cc_createdAt : Date;
  cc_updatedAt : Date
}.

(** [EmailConfig.create ({ email, appPassword, fromName, dailyLimit,
    isActive })]: the paths not given take the defaults of the schema, the
    two required paths must not be empty, and [newId] is the ObjectId the
    driver generates. *)
Definition create (clk : CreateClock) (newId : nat)
  (email' appPassword' fromName' : string) (dailyLimit' : Z) (isActive' : bool)
  (configs : list EmailConfig)
  : option EmailConfig * list EmailConfig * option Z :=
  if String.eqb email' EmptyString || String.eqb appPassword' EmptyString
  then (None, configs, None)
  else if existsb (fun c => Nat.eqb (_id c) newId) configs
  then (None, configs, Some 11000)
  else
    let c :=
      mkEmailConfig newId "gmail" email' appPassword' fromName' isActive'
        dailyLimit' 0 (cc_lastResetDate clk)
        0 (monthKey (cc_currentMonth clk) (cc_currentMonth clk))
        0 0 0
        0 EmptyString None
        0 None 0
        None 0 None
        (cc_createdAt clk) (cc_updatedAt clk) in
    (Some c, configs ++ [c], None).

(** [req.body] of [setEmailConfig]; [dailyLimit] is a number or [undefined]. *)
Record ConfigBody := mkConfigBody {
  cb_email : option string;
  cb_appPassword : option string;
  cb_fromName : option string;
  cb_dailyLimit : option Z
}.

(** [data] of the answer of [setEmailConfig]. *)
Record ConfigData := mkConfigData {
  cd_id : nat;
  cd_email : string;
  cd_fromName : string;
  cd_dailyLimit : Z;
  cd_isActive : bool
}.

Section Lowercase.

(** [s.toLowerCase ()]: the lower-case mapping of the Unicode character
    database, a table of the runtime. *)
Variable toLowerCase : string -> string.

(** [setEmailConfig (req, res)]. *)
Definition setEmailConfig (clk : CreateClock) (init : InitClock) (newId : nat)
  (body : ConfigBody) (clientIP : option string)
  (configs : list EmailConfig) (service : EmailService)
  : Answer ConfigData * list EmailConfig * EmailService :=
  (* Validate required fields *)
  match cb_email body, cb_appPassword body with
  | Some email', Some appPassword' =>
      if String.eqb email' EmptyString || String.eqb appPassword' EmptyString
      then (Failure 400 "Email and app password are required", configs, service)
      (* Validate email format *)
      else if negb (emailRegex email')
      then (Failure 400 "Please provide a valid email address", configs, service)
      else
        (* Validate app password format *)
        let cleanAppPassword := removeSpaces appPassword' in
        if negb (Nat.eqb (String_length cleanAppPassword) 16)
        then (Failure 400 "App password must be 16 characters long", configs, service)
        else
          (* Deactivate all other configs *)
          let configs := deactivateAll configs in
          (* Create new active config *)
          let fromName' :=
            match cb_fromName body with
            | Some s => if String.eqb (trim s) EmptyString
                        then "EduConnect Consultancy" else trim s
            | None => "EduConnect Consultancy"
            end in
          let dailyLimit' :=
            match cb_dailyLimit body with
            | Some n => if n =? 0 then 500 else n
            | None => 500
            end in
          match create clk newId (toLowerCase (trim email')) cleanAppPassword
                       fromName' dailyLimit' true configs with
          | (Some emailConfig, configs, _) =>
              (* Reinitialize email service with new config *)
              let '(configs, service, thrown) :=
                initializeTransporter init (default "unknown" clientIP) configs service in
              match thrown with
              | Some _ => (Failure 500 "Failed to set email configuration", configs, service)
              | None =>
                  (Json 200
                     (mkConfigData (_id emailConfig) (email emailConfig)
                        (fromName emailConfig) (dailyLimit emailConfig)
                        (isActive emailConfig)),
                   configs, service)
              end
          | (None, configs, Some 11000) =>
              (Failure 400 "An active email configuration already exists", configs, service)
          | (None, configs, _) =>
              (Failure 500 "Failed to set email configuration", configs, service)
          end
  | _, _ => (Failure 400 "Email and app password are required", configs, service)
  end.

End Lowercase.

(** [EmailConfig.findById (id)] and [EmailConfig.findByIdAndDelete (id)]. *)
Definition findById (id : nat) (configs : list EmailConfig) : option EmailConfig :=
  List.find (fun c => Nat.eqb (_id c) id) configs.

Fixpoint findByIdAndDelete (id : nat) (configs : list EmailConfig) : list EmailConfig :=
  match configs with
  | [] => []
  | c :: configs' =>
      if Nat.eqb (_id c) id then configs' else c :: findByIdAndDelete id configs'
  end.

(** [deleteEmailConfig (req, res)] for [req.params.id = id]. *)
Definition deleteEmailConfig (id : nat) (configs : list EmailConfig)
  (service : EmailService) : Answer unit * list EmailConfig * EmailService :=
  match findById id configs with
  | None => (Failure 404 "Email configuration not found", configs, service)
  | Some _ =>
      (Json 200 tt,
       findByIdAndDelete id configs,
       (* Reset email service *)
       mkEmailService None None (performanceMetrics service))
  end.

Section Transport.

Variable sendMail : Transporter -> Mail -> SendMailOutcome.

(** [data] of the answer of [testEmailConfig]. *)
Record TestData := mkTestData {
  td_sendTime : Z;
  td_messageId : option string
}.

(** [testEmailConfig (req, res)]; [testContent] is the HTML of the test
    mail, which carries the time of the request. *)
Definition testEmailConfig (clk : SendClock) (testEmail : option string)
  (testContent : string) (clientIP : option string)
  (configs : list EmailConfig) (service : EmailService)
  : Answer TestData * list EmailConfig * EmailService :=
  match testEmail with
  | None => (Failure 400 "Test email address is required", configs, service)
  | Some testEmail =>
      if String.eqb testEmail EmptyString
      then (Failure 400 "Test email address is required", configs, service)
      (* Validate test email format *)
      else if negb (emailRegex testEmail)
      then (Failure 400 "Please provide a valid test email address", configs, service)
      else
        let '(configs, service, result) :=
          sendEmail sendMail clk testEmail "Test Email - EduConnect Configuration"
                    testContent (default "unknown" clientIP) configs service in
        match result with
        | Resolved result =>
            if success result
            then (Json 200 (mkTestData (sendTime result) (messageId result)),
                  configs, service)
            else (Failure 400 "Failed to send test email", configs, service)
        | Thrown _ => (Failure 500 "Failed to test email configuration", configs, service)
        end
  end.

End Transport.

End EmailConfigController.

(** ** controllers/EmailAnalyticsController.js: the helper functions *)

Module EmailAnalyticsController.
Import JS EmailAnalyticsModel EmailServiceReports PromotionalEmailModel.

Record Recommendation := mkRecommendation {
  rec_type : string;
  rec_message : string;
  rec_priority : string
}.

(** [generateRecommendations (stats, health)]. *)
Definition generateRecommendations (stats : Stats) (health : Health)
  : list Recommendation :=
  let recommendations := [] in
  let recommendations :=
    if stats_successRate stats <? 90
    then recommendations ++
         [mkRecommendation "warning"
            "Email success rate is below 90%. Check your email configuration and SMTP settings."
            "high"]
    else recommendations in
  let recommendations :=
    if remainingToday stats <? 100
    then recommendations ++
         [mkRecommendation "info"
            ("Only " +:+ pretty (remainingToday stats) +:+
             " emails remaining today. Consider upgrading your email plan.")
            "medium"]
    else recommendations in
  let recommendations :=
    if 3 <? stats_consecutiveFailures stats
    then recommendations ++
         [mkRecommendation "error"
            ("High consecutive failures (" +:+ pretty (stats_consecutiveFailures stats) +:+
             "). Email service may be degraded.")
            "high"]
    else recommendations in
  let recommendations :=
    if 5000 <? stats_averageSendTime stats
    then recommendations ++
         [mkRecommendation "warning"
            "Slow email sending detected. Check your network connection and SMTP server."
            "medium"]
    else recommendations in
  recommendations.

(** [l.reduce (f)] without an initial value, on a list that is not empty. *)
Definition reduce1 {A} (f : A -> A -> A) (l : list A) : option A :=
  match l with
  | [] => None
  | x :: l' => Some (fold_left f l' x)
  end.

(** [campaign.successRate]: the schema of a campaign declares no such path,
    so the property is [undefined] on every document. *)
Definition campaign_successRate (campaign : Stored) : option Z := None.

(** [a > b] on values that are a Number or [undefined]: [undefined] becomes
    NaN, and a comparison with NaN is false. *)
Definition gt (a b : option Z) : bool :=
  match a, b with
  | Some x, Some y => y <? x
  | _, _ => false
  end.

Record Summary := mkSummary {
  sum_totalEmailsSent : Z;
  sum_totalCampaigns : Z;
  sum_averageCampaignSize : Z;
  sum_averageSuccessRate : Z;
  bestDay : option EmailAnalytics;
  mostSuccessfulCampaign : option Stored
}.

(** [generateSummary (analytics, campaigns)]. *)
Definition generateSummary (analytics : list EmailAnalytics) (campaigns : list Stored)
  : Summary :=
  let totalEmails := fold_left (fun sum day => sum + ea_emailsSent day) analytics 0 in
  let totalCampaigns := Z.of_nat (length campaigns) in
  let averageCampaignSize :=
    if 0 <? totalCampaigns then round_div totalEmails totalCampaigns else 0 in
  mkSummary totalEmails totalCampaigns averageCampaignSize
    (* Math.round (averageSuccessRate) *)
    (if (0 <? length analytics)%nat
     then round_div (fold_left (fun sum day => sum + ea_successRate day) analytics 0)
                    (Z.of_nat (length analytics))
     else 0)
    (reduce1 (fun best day =>
                if ea_emailsSent best <? ea_emailsSent day then day else best)
             analytics)
    (reduce1 (fun best campaign =>
                if gt (campaign_successRate campaign) (campaign_successRate best)
                then campaign else best)
             campaigns).

End EmailAnalyticsController.

(** ** controllers/PromotionalEmailController.js: the campaign history *)

Module PromotionalEmailHistory.
Import JS PromotionalEmailModel EmailConfigController.

Record Pagination := mkPagination {
  pg_page : Z;
  pg_limit : Z;
  pg_total : Z;
  totalPages : Z;
  hasNext : bool;
  hasPrev : bool
}.

(** [.select ('-errors -performanceLog')]: the two names are left out of
    what is returned; the schema declares neither, so a record has all its
    paths afterwards. *)
Definition withoutLogs (r : Stored) : Stored :=
  mkStored (st_content r) (st_sentCount r) (st_failedCount r) (st_status r)
           (st_configUsed r).

Section History.

(** [PromotionalEmail.find ().sort ({ createdAt: -1 }).skip (skip).limit
    (limit)] as the driver answers it, and [countDocuments ()]. *)
Variable find : Z -> Z -> Completion (list Stored).
Variable countDocuments : Completion Z.

(** [parseInt (q) || d], [parsed] being [parseInt (q)] with NaN as [None]. *)
Definition orDefault (parsed : option Z) (d : Z) : Z :=
  match parsed with
  | Some n => if n =? 0 then d else n
  | None => d
  end.

(** [getPromotionalEmails (req, res)]; the two arguments are
    [parseInt (req.query.page)] and [parseInt (req.query.limit)].  The
    sender address that [populate] joins to every campaign is left out. *)
Definition getPromotionalEmails (page_q limit_q : option Z)
  : Answer (list Stored * Pagination) :=
  let page := orDefault page_q 1 in
  let limit := orDefault limit_q 10 in
  let skip := (page - 1) * limit in
  match find skip limit, countDocuments with
  | Resolved emails, Resolved total =>
      Json 200
        (map withoutLogs emails,
         mkPagination page limit total
           (ceil_div total limit)
           (page <? ceil_div total limit)
           (1 <? page))
  | _, _ => Failure 500 "Failed to get promotional email history"
  end.

End History.

End PromotionalEmailHistory.

(** ** utils/emailCron.js *)

Module EmailCronJobs.

(** A task handed out by [cron.schedule]: its expression and whether it is
    running. *)
Record Job := mkJob {
  expression : string;
  running : bool
}.

(** [cron.schedule (expression, ..., { scheduled: true, ... })]. *)
Definition schedule (expression : string) : Job := mkJob expression true.

(** The singleton is its list [jobs], empty at construction. *)
Definition constructor : list Job := [].

Definition setupDailyAnalytics (jobs : list Job) : list Job :=
  jobs ++ [schedule "0 0 * * *"].

Definition setupPerformanceReset (jobs : list Job) : list Job :=
  jobs ++ [schedule "0 * * * *"].

Definition setupHealthCheck (jobs : list Job) : list Job :=
  jobs ++ [schedule "*/30 * * * *"].

Definition setupMonthlyReset (jobs : list Job) : list Job :=
  jobs ++ [schedule "0 0 1 * *"].

(** [initialize ()]. *)
Definition initialize (jobs : list Job) : list Job :=
  setupMonthlyReset (setupHealthCheck (setupPerformanceReset (setupDailyAnalytics jobs))).

(** [stopAll ()]. *)
Definition stopAll (jobs : list Job) : list Job :=
  map (fun job => mkJob (expression job) false) jobs.

End EmailCronJobs.

(** * Vocabulary and sample data

    What the statements below are phrased in: predicates over the states of
    the embedding, the server as a transition system, and the concrete
    configurations, requests and environments the statements are tried
    on. *)

Section ConfigSamples.
Import EmailConfigModel.

(** A configuration in the middle of its life, last reset on 1 November
    2026. *)
Definition sampleConfig : EmailConfig :=
  mkEmailConfig 1 "gmail" "noreply@educonnect.com" "secret" "EduConnect Consultancy"
    true 500 450 (mkDate 2026 10 1 0 1793491200000) 450 "2026-11"
    1 0 100 0 EmptyString None 0 None 100 None 0 None
    (mkDate 2026 0 1 4 1767225600000) (mkDate 2026 0 1 4 1767225600000).

Definition nov2 : Date := mkDate 2026 10 2 1 1793577600000.
Definition nov2_later : Date := mkDate 2026 10 2 1 1793581200000.

End ConfigSamples.

Section ResetVocabulary.
Import EmailConfigModel.

(** All clock readings of two calls fall on one calendar day and in one
    calendar month. *)
Definition sameDayAndMonth (clk1 clk2 : ResetClock) : Prop :=
  toDateString (at_stamp clk1) = toDateString (at_today clk1) /\
  toDateString (at_today clk2) = toDateString (at_today clk1) /\
  monthKey (at_year clk2) (at_month clk2) = monthKey (at_year clk1) (at_month clk1).

End ResetVocabulary.

Section ServiceVocabulary.
Import JS EmailConfigModel EmailServiceUtil.

(** The message [sendEmail] hands to the transport. *)
Definition mailOf (config : EmailConfig) (to subject html : string) : Mail :=
  mkMail (JS.dquote +:+ fromName config +:+ JS.dquote +:+ " <" +:+ email config +:+ ">")
         to subject html.

End ServiceVocabulary.

Section ServiceSamples.
Import JS EmailConfigModel EmailServiceUtil.

(** A configuration whose day is over: yesterday's date, and the limit
    already reached. *)
Definition exhaustedConfig : EmailConfig :=
  set_emailsSentToday 500 sampleConfig.

Definition sampleService : EmailService :=
  mkEmailService (Some (mkTransporter "gmail" "noreply@educonnect.com" "secret"))
                 (Some exhaustedConfig) (mkPerformanceMetrics [] 0 0).

Definition sampleSendClock : SendClock :=
  mkSendClock 1793577600000 (mkInitClock (frozen nov2) nov2) 1793577600150 nov2.

Definition acceptAll (tr : Transporter) (m : Mail) : SendMailOutcome :=
  Accepted "<1@educonnect.com>".

End ServiceSamples.

Section StartVocabulary.
Import JS EmailConfigModel PromotionalEmailModel PromotionalEmailController.

Definition bodyComplete (body : Body) : Prop :=
  falsy (body_title body) || falsy (body_content body) ||
  falsy (body_buttonLink body) || falsy (body_contactEmail body) ||
  falsy (body_contactPhone body) = false.

End StartVocabulary.

Section RequestSamples.
Import JS EmailConfigModel PromotionalEmailModel PromotionalEmailController.

Definition sampleBody : Body :=
  mkBody (Some "Free Study Abroad Consultation")
         (Some "Get free consultation for studying abroad.")
         None (Some "https://educonnect.com/consultation")
         (Some "info@educonnect.com") (Some "+977-1-1234567").

Definition sampleStudent (k : nat) : Student :=
  mkStudent "Student" (pretty k) (Some ("student" +:+ pretty k +:+ "@example.org")).

Definition sampleStudents (n : nat) : list Student := map sampleStudent (seq 0 n).

(** The spec's scenario: 495 of 500 sent today, ten recipients. *)
Definition almostExhausted : EmailConfig :=
  set_lastResetDate nov2 (set_emailsSentToday 495 sampleConfig).

End RequestSamples.

Section CampaignSamples.
Import JS PromotionalEmailModel PromotionalEmailController.

Definition sampleContent : Content :=
  mkContent "Free Study Abroad Consultation"
            "Get free consultation for studying abroad." "Book Now"
            "https://educonnect.com/consultation" "info@educonnect.com"
            "+977-1-1234567".

(** A campaign as [create] stores it. *)
Definition sendingCampaign : Stored :=
  mkStored sampleContent 0 0 "sending" 1.

(** A campaign that is over, as an earlier run of the server or another
    writer left it in the collection. *)
Definition completedCampaign : Stored :=
  mkStored sampleContent 25 0 "completed" 1.

End CampaignSamples.

Section SenderVocabulary.
Import JS PromotionalEmailModel PromotionalEmailController.

(** The send to the recipient at index [idx] succeeds: [sendEmail] resolves
    to a result with [success: true]. *)
Definition delivered (deliver : nat -> Student -> Completion EmailServiceUtil.SendResult)
  (item : nat * Student) : bool :=
  match deliver item.1 item.2 with
  | Resolved result => EmailServiceUtil.success result
  | Thrown _ => false
  end.

(** The calls of [EmailService.sendEmail] for the members of a batch, in
    input order. *)
Definition dispatches (batchNumber : Z) (subject : string) (batch : list Student)
  : list Event :=
  map (fun st => SendEmail batchNumber (emailOf st) subject) batch.

Definition isSend (e : Event) : bool :=
  match e with SendEmail _ _ _ => true | _ => false end.

End SenderVocabulary.

Section SenderSamples.
Import JS PromotionalEmailModel PromotionalEmailController.

(** A clock that advances 150 ms from one reading to the next. *)
Definition sampleClock (n : nat) : Date :=
  mkDate 2026 10 2 1 (1793577600000 + 150 * Z.of_nat n).

Definition deliverAll (idx : nat) (student : Student)
  : Completion EmailServiceUtil.SendResult :=
  Resolved (EmailServiceUtil.mkSendResult true (Some "<1@educonnect.com>") None 150).

(** Every seventh recipient is refused by the transport. *)
Definition deliverMost (idx : nat) (student : Student)
  : Completion EmailServiceUtil.SendResult :=
  if Nat.eqb (idx mod 7) 3
  then Resolved (EmailServiceUtil.mkSendResult false None (Some "Mailbox unavailable") 90)
  else deliverAll idx student.

End SenderSamples.

Section Server.
Import JS EmailConfigModel PromotionalEmailModel PromotionalEmailController.

(** The server: the collections, and the background senders that have been
    started, each under the id of its campaign with the recipient list it
    was handed. *)
Record System := mkSystem {
  sys_world : World;
  sys_senders : gmap nat (list Student * Sender)
}.

Definition withCampaigns (campaigns' : gmap nat Stored) (w : World) : World :=
  mkWorld (configs w) (students w) campaigns'.

(** What can happen next: a campaign request is accepted or refused, a
    sender takes one step (whatever the transport and the clock do), a
    cancel request is handled, or something happens that does not write to
    the campaign collection.  The collections outlive the process: when it
    ends on the unhandled rejection of a sender and is started again, the
    senders it had take no further step, which is one of the runs here. *)
Inductive sys_step : System -> System -> Prop :=
| step_start (clk : ResetClock) (now : Date) (newId : nat) (body : Body)
    (ip : string) (clock : nat -> Date) (sys : System) (response : Response)
    (w' : World) (bg : Background) :
    sendPromotionalEmail clk now newId body ip (sys_world sys)
      = (response, w', Some bg) ->
    sys_step sys
      (mkSystem w'
         (<[newId := (bg_students bg, initialSender clock (bg_promotionalEmail bg))]>
            (sys_senders sys)))
| step_refused (clk : ResetClock) (now : Date) (newId : nat) (body : Body)
    (ip : string) (sys : System) (response : Response) (w' : World) :
    sendPromotionalEmail clk now newId body ip (sys_world sys) = (response, w', None) ->
    sys_step sys (mkSystem w' (sys_senders sys))
| step_sender (id : nat)
    (deliver : nat -> Student -> Completion EmailServiceUtil.SendResult)
    (clock : nat -> Date)
    (recipients : list Student) (s s' : Sender) (sys : System)
    (campaigns' : gmap nat Stored) :
    sys_senders sys !! id = Some (recipients, s) ->
    step deliver clock recipients s (campaigns (sys_world sys)) = (s', campaigns') ->
    sys_step sys
      (mkSystem (withCampaigns campaigns' (sys_world sys))
                (<[id := (recipients, s')]> (sys_senders sys)))
| step_cancel (now : Date) (id : nat) (sys : System) (response : Response)
    (campaigns' : gmap nat Stored) :
    cancelPromotionalEmail now id (campaigns (sys_world sys)) = (response, campaigns') ->
    sys_step sys (mkSystem (withCampaigns campaigns' (sys_world sys)) (sys_senders sys))
| step_elsewhere (sys : System) (w' : World) :
    campaigns w' = campaigns (sys_world sys) ->
    sys_step sys (mkSystem w' (sys_senders sys)).

(** The server as it starts: collections of any content, and no sender
    running. *)
Definition booted (w : World) : System := mkSystem w ∅.

Definition terminal (status : string) : Prop :=
  status = "completed" \/ status = "failed" \/ status = "cancelled".

(** A sender that has not ended has a recipient left to mail. *)
Definition SendersInv (sys : System) : Prop :=
  forall id recipients s,
    sys_senders sys !! id = Some (recipients, s) ->
    finished s = false -> (pos s < length recipients)%nat.

(** A sender that has ended has ended in the TypeError of the first turn,
    with ['failed'] on its own document. *)
Definition EndedInError (sys : System) : Prop :=
  forall id recipients s,
    sys_senders sys !! id = Some (recipients, s) ->
    finished s = true ->
    uncaught s = Some (notAFunction "addError") /\
    status (promotionalEmail s) = "failed".

(** Every campaign is as [create] stored it. *)
Definition AsCreated (campaigns : gmap nat Stored) : Prop :=
  forall id r, campaigns !! id = Some r ->
    st_status r = "sending" /\ st_sentCount r = 0 /\ st_failedCount r = 0.

End Server.

Section ServerSamples.
Import JS EmailConfigModel PromotionalEmailModel PromotionalEmailController.

(** A server with one student; a campaign is requested and accepted. *)
Definition sampleWorld : World := mkWorld [almostExhausted] (sampleStudents 1) ∅.

Definition sampleStart : Response * World * option Background :=
  sendPromotionalEmail (frozen nov2_later) nov2_later 1 sampleBody "10.0.0.1" sampleWorld.

Definition sampleBackground : Background :=
  default (mkBackground [] (hydrate 0 sendingCampaign) almostExhausted EmptyString)
          sampleStart.2.

Definition sys_started : System :=
  mkSystem sampleStart.1.2
    (<[1%nat := (bg_students sampleBackground,
                 initialSender sampleClock (bg_promotionalEmail sampleBackground))]> ∅).

(** The sender of campaign 1 takes a step. *)
Definition senderStep (sys : System) : System :=
  match sys_senders sys !! 1%nat with
  | Some (recipients, s) =>
      let r := step deliverAll sampleClock recipients s (campaigns (sys_world sys)) in
      mkSystem (withCampaigns r.2 (sys_world sys))
               (<[1%nat := (recipients, r.1)]> (sys_senders sys))
  | None => sys
  end.

(** Somebody asks to cancel the campaign [id]. *)
Definition cancelAsked (id : nat) (sys : System) : System :=
  mkSystem
    (withCampaigns (cancelPromotionalEmail nov2_later id (campaigns (sys_world sys))).2
                   (sys_world sys))
    (sys_senders sys).

(** The same server with the record of a finished campaign under id 7:
    campaign 1 is requested and accepted. *)
Definition legacyWorld : World :=
  mkWorld [almostExhausted] (sampleStudents 1) {[ 7%nat := completedCampaign ]}.

Definition legacyStart : Response * World * option Background :=
  sendPromotionalEmail (frozen nov2_later) nov2_later 1 sampleBody "10.0.0.1" legacyWorld.

Definition legacyBackground : Background :=
  default (mkBackground [] (hydrate 0 sendingCampaign) almostExhausted EmptyString)
          legacyStart.2.

Definition legacy_started : System :=
  mkSystem legacyStart.1.2
    (<[1%nat := (bg_students legacyBackground,
                 initialSender sampleClock (bg_promotionalEmail legacyBackground))]> ∅).

End ServerSamples.

(** ** Vocabulary for the reports, the middleware and the configuration *)

Section AttemptVocabulary.
Import EmailConfigModel.

(** One attempt to send, as the configuration gets to know it: the call of
    [recordSuccessfulSend] or of [recordFailedSend], with its clock reading. *)
Inductive Attempt :=
| Sent (now : Date) (sendTime : Z)
| NotSent (now : Date) (errorMessage : string).

Definition isSent (a : Attempt) : bool :=
  match a with Sent _ _ => true | NotSent _ _ => false end.

Definition recordAttempt (c : EmailConfig) (a : Attempt) : EmailConfig :=
  match a with
  | Sent now sendTime => recordSuccessfulSend now sendTime c
  | NotSent now errorMessage => recordFailedSend now errorMessage c
  end.

(** The attempts of a history, recorded one after the other. *)
Definition recordAll (attempts : list Attempt) (c : EmailConfig) : EmailConfig :=
  fold_left recordAttempt attempts c.

Definition successes (attempts : list Attempt) : Z :=
  Z.of_nat (length (List.filter isSent attempts)).

Definition failures (attempts : list Attempt) : Z :=
  Z.of_nat (length (List.filter (fun a => negb (isSent a)) attempts)).

(** The failures at the end of a history, since its last success. *)
Definition failuresSinceLastSuccess (attempts : list Attempt) : Z :=
  Z.of_nat (length (PromotionalEmailController.takeWhile
                      (fun a => negb (isSent a)) (rev attempts))).

End AttemptVocabulary.

Section TransporterVocabulary.
Import JS EmailConfigModel EmailServiceUtil.

(** Whether [initializeTransporter] takes a call from [ipAddress] for a
    change of address. *)
Definition addressChanged (ipAddress : string) (config : EmailConfig) : bool :=
  match lastUsedIP config with
  | Some ip => nonEmpty ipAddress && nonEmpty ip && negb (String.eqb ip ipAddress)
  | None => false
  end.

(** The active configuration as [initializeTransporter] leaves it in the
    collection: after the reset check and the bookkeeping of the address. *)
Definition visited (clk : InitClock) (ipAddress : string) (config : EmailConfig)
  : EmailConfig :=
  let checked := resetDailyCounterIfNeeded (ic_reset clk) config in
  if addressChanged ipAddress checked
  then recordSuspiciousActivity (ic_suspicious clk) ipAddress checked
  else set_lastUsedIP (Some ipAddress) checked.

(** The collection after [initializeTransporter] has saved the active
    configuration, once after the reset check and once more with the
    address. *)
Definition written (clk : InitClock) (ipAddress : string) (config : EmailConfig)
  (configs : list EmailConfig) : list EmailConfig :=
  EmailConfigModel.save (visited clk ipAddress config)
    (EmailConfigModel.save (resetDailyCounterIfNeeded (ic_reset clk) config) configs).

Definition limitMessage (config : EmailConfig) : string :=
  "Daily email limit reached (" +:+ pretty (dailyLimit config) +:+ ")".

(** The session counters account for every send: one recorded time per
    success. *)
Definition SessionInv (pm : PerformanceMetrics) : Prop :=
  Z.of_nat (length (sendTimes pm)) = pm_successCount pm /\ 0 <= pm_errorCount pm.

End TransporterVocabulary.

Section MiddlewareVocabulary.
Import JS EmailConfigModel EmailServiceUtil EmailServiceReports EmailMiddleware.

(** The refusal of [checkEmailConfig]. *)
Definition notConfigured : Passage :=
  status400 "Email service not configured. Please set up email configuration first." [].

(** [checkEmailConfig, checkEmailLimit] as the router chains them in front
    of [/promotional/send] and [/quick-send]: the second runs when the
    first has called [next ()]. *)
Definition sendGuards (clk1 clk2 : InitClock) (clientIP : option string)
  (configs : list EmailConfig) (this : EmailService)
  : list EmailConfig * EmailService * Passage :=
  let '(configs, this, passage) := checkEmailConfig clk1 clientIP configs this in
  match passage with
  | next =>
      let '(configs, this, passage, _) := checkEmailLimit clk2 configs this in
      (configs, this, passage)
  | status400 _ _ => (configs, this, passage)
  end.

End MiddlewareVocabulary.

Section AddressVocabulary.
Import PromotionalEmailController.


(** The same reading on the characters of a text, as [emailRegex.test]
    has it. *)
Definition AddressShaped (l : list (list Ascii.ascii)) : Prop :=
  exists localPart domain last,
    l = localPart ++ ["@"%char] :: domain ++ ["."%char] :: last /\
    localPart <> [] /\ domain <> [] /\ last <> [] /\
    forallb JS.plainChar localPart = true /\ forallb JS.plainChar domain = true /\
    forallb JS.plainChar last = true.

(** A no-break space, U+00A0, and a line separator, U+2028. *)
Definition nbsp : string :=
  String (Ascii.ascii_of_nat 194) (String (Ascii.ascii_of_nat 160) EmptyString).

Definition lineSeparator : string :=
  String (Ascii.ascii_of_nat 226)
    (String (Ascii.ascii_of_nat 128) (String (Ascii.ascii_of_nat 168) EmptyString)).

End AddressVocabulary.

Section StartedVocabulary.
Import JS EmailConfigModel PromotionalEmailModel PromotionalEmailController.

(** The content [sendPromotionalEmail] hands to [create]: the fields of
    the body, trimmed, with the default button text. *)
Definition requestedContent (body : Body) : Content :=
  let str o := trim (default EmptyString o) in
  mkContent (str (body_title body)) (str (body_content body))
    (trim (if falsy (body_buttonText body) then "Book Now"
           else default EmptyString (body_buttonText body)))
    (str (body_buttonLink body)) (str (body_contactEmail body))
    (str (body_contactPhone body)).

(** The record of a campaign that has just been created for [body]. *)
Definition freshCampaign (body : Body) (config : EmailConfig) : Stored :=
  mkStored (requestedContent body) 0 0 "sending" (_id config).

(** A body whose title is three blanks. *)
Definition blankTitleBody : Body :=
  mkBody (Some "   ") (body_content sampleBody) None (body_buttonLink sampleBody)
         (body_contactEmail sampleBody) (body_contactPhone sampleBody).

End StartedVocabulary.

Section HistoryVocabulary.
Import JS PromotionalEmailModel.

(** The campaigns from newest to oldest being [sorted], what the driver
    answers for a skip that is not negative and a positive limit. *)
Definition pageFrom (sorted : list Stored) (skip limit : Z) : Completion (list Stored) :=
  Resolved (take (Z.to_nat limit) (drop (Z.to_nat skip) sorted)).

(** Twenty-five campaigns, told apart by their counters. *)
Definition sampleHistory : list Stored :=
  map (fun k => mkStored sampleContent (Z.of_nat k) 0 "completed" 1) (seq 0 25).

End HistoryVocabulary.

Section ConfigVocabulary.
Import JS EmailConfigModel EmailServiceUtil PromotionalEmailController
       EmailConfigController.

(** The sender name and the daily limit [setEmailConfig] stores for a
    body. *)
Definition chosenFromName (body : ConfigBody) : string :=
  match cb_fromName body with
  | Some s => if String.eqb (trim s) EmptyString then "EduConnect Consultancy" else trim s
  | None => "EduConnect Consultancy"
  end.

Definition chosenLimit (body : ConfigBody) : Z :=
  match cb_dailyLimit body with
  | Some n => if n =? 0 then 500 else n
  | None => 500
  end.

(** The document [setEmailConfig] creates for a body: [address] is the
    address it stores, trimmed and in lower case, and [appPassword'] the app
    password of the body. *)
Definition createdConfig (clk : CreateClock) (newId : nat) (body : ConfigBody)
  (address appPassword' : string) : EmailConfig :=
  mkEmailConfig newId "gmail" address (removeSpaces appPassword')
    (chosenFromName body) true (chosenLimit body) 0 (cc_lastResetDate clk)
    0 (monthKey (cc_currentMonth clk) (cc_currentMonth clk))
    0 0 0 0 EmptyString None 0 None 0 None 0 None
    (cc_createdAt clk) (cc_updatedAt clk).

Definition sampleCreateClock : CreateClock := mkCreateClock nov2 nov2 nov2 nov2.

(** [toLowerCase] on a text whose letters are those of ASCII. *)
Definition lowerChar (c : Ascii.ascii) : Ascii.ascii :=
  let n := Ascii.nat_of_ascii c in
  if (65 <=? n)%nat && (n <=? 90)%nat then Ascii.ascii_of_nat (n + 32) else c.

Definition lowerASCII (s : string) : string :=
  String.string_of_list_ascii (map lowerChar (String.list_ascii_of_string s)).

Definition sampleConfigBody : ConfigBody :=
  mkConfigBody (Some "Admissions@EduConnect.com") (Some "abcd efgh ijkl mnop")
               None (Some 300).

End ConfigVocabulary.

Section CronVocabulary.
Import EmailCronJobs.

(** The two requests that reach the cron singleton: [POST /cron/start]
    calls [initialize ()], [POST /cron/stop] calls [stopAll ()]. *)
Inductive CronRequest := StartJobs | StopJobs.

Definition isStart (r : CronRequest) : bool :=
  match r with StartJobs => true | StopJobs => false end.

Definition serveCron (jobs : list Job) (r : CronRequest) : list Job :=
  match r with
  | StartJobs => initialize jobs
  | StopJobs => stopAll jobs
  end.

(** The number of start requests in a history, and the number of those
    made since the last stop request. *)
Definition starts (requests : list CronRequest) : nat :=
  length (List.filter isStart requests).

Definition startsSinceLastStop (requests : list CronRequest) : nat :=
  length (PromotionalEmailController.takeWhile isStart (rev requests)).

Definition fourExpressions : list string :=
  ["0 0 * * *"; "0 * * * *"; "*/30 * * * *"; "0 0 1 * *"].

End CronVocabulary.

Section AnalyticsVocabulary.
Import EmailAnalyticsModel.

Definition sampleDay (date sent rate : Z) : EmailAnalytics :=
  mkEmailAnalytics date "daily" sent 0 rate 100 0 [("0", sent)] 1 0 100.

End AnalyticsVocabulary.

Section ValidationVocabulary.
Import PromotionalEmailController.

(** A URL check that knows one address only. *)
Definition onlyConsultationUrl (s : string) : bool :=
  String.eqb s "https://educonnect.com/consultation".

End ValidationVocabulary.

(** * Properties *)

(** ** Numerics *)

(** [JS.round_div] is rounding to the nearest integer, ties upward. *)
Lemma round_div_nearest (num den : Z) :
  0 < den ->
  2 * num - den < 2 * den * JS.round_div num den <= 2 * num + den.
Proof.
  intros Hden. unfold JS.round_div.
  pose proof (Z.div_mod (2 * num + den) (2 * den) ltac:(lia)) as Hdm.
  pose proof (Z.mod_pos_bound (2 * num + den) (2 * den) ltac:(lia)) as Hb.
  lia.
Qed.

Lemma round_div_exact (q den : Z) : 0 < den -> JS.round_div (q * den) den = q.
Proof.
  intros Hden. unfold JS.round_div.
  replace (2 * (q * den) + den) with (den + q * (2 * den)) by lia.
  rewrite Z.div_add by lia. rewrite Z.div_small by lia. lia.
Qed.

Example round_pct_one_third : JS.round_pct 1 3 = 33.
Proof. reflexivity. Qed.

Example round_pct_tie_up : JS.round_pct 1 8 = 13.
Proof. reflexivity. Qed.

(** The binary64 product of 23/40 and 100 is 57.499999999999993: it lies
    below the tie 57.5 of the exact percentage, and [Math.round] takes it
    down where the exact percentage would go up. *)
Example round_pct_tie_down :
  JS.round_pct 23 40 = 57 /\ JS.round_div (100 * 23) 40 = 58.
Proof. split; reflexivity. Qed.

Example toDateString_sample :
  toDateString (mkDate 2026 10 2 1 1793577600000) = "Mon Nov 02 2026".
Proof. reflexivity. Qed.

Example monthKey_sample :
  let d := mkDate 2024 0 15 1 1705312800000 in monthKey d d = "2024-01".
Proof. reflexivity. Qed.

(** ** The sender configuration *)

Section EmailConfigFacts.
Import EmailConfigModel.

Lemma updateSuccessRate_frame (c : EmailConfig) :
  let c' := updateSuccessRate c in
  successRate c' =
    (if 0 <? totalEmailsSent c + totalEmailsFailed c
     then JS.round_pct (totalEmailsSent c) (totalEmailsSent c + totalEmailsFailed c)
     else 0) /\
  set_successRate (successRate c) c' = c.
Proof. destruct c; split; reflexivity. Qed.

(** C9.  [recordFailedSend (m)] adds one to [totalEmailsFailed], [errorCount]
    and [consecutiveFailures], stores the message and the time of the error,
    recomputes [successRate] from the new counters and leaves
    [averageSendTime], like every other path, as it was. *)
Theorem recordFailedSend_effect (now : Date) (m : string) (c : EmailConfig) :
  let c' := recordFailedSend now m c in
  totalEmailsFailed c' = totalEmailsFailed c + 1 /\
  errorCount c' = errorCount c + 1 /\
  consecutiveFailures c' = consecutiveFailures c + 1 /\
  lastErrorMessage c' = m /\
  lastErrorAt c' = Some now /\
  successRate c' =
    (if 0 <? totalEmailsSent c' + totalEmailsFailed c'
     then JS.round_pct (totalEmailsSent c') (totalEmailsSent c' + totalEmailsFailed c')
     else 0) /\
  averageSendTime c' = averageSendTime c /\
  c' = set_successRate (successRate c')
         (set_lastErrorAt (Some now)
            (set_lastErrorMessage m
               (set_consecutiveFailures (consecutiveFailures c + 1)
                  (set_errorCount (errorCount c + 1)
                     (set_totalEmailsFailed (totalEmailsFailed c + 1) c))))).
Proof. destruct c; repeat split; reflexivity. Qed.

(** With [sendTime = 0] the guard [if (sendTime)] fails and the running mean
    is not touched. *)
Lemma recordSuccessfulSend_zero (now : Date) (c : EmailConfig) :
  averageSendTime (recordSuccessfulSend now 0 c) = averageSendTime c.
Proof. destruct c; reflexivity. Qed.

(** C7, as stated, fails: a send that took 0 ms leaves the mean at 100, where
    the cumulative mean over the two attempts is 50. *)
Lemma recordSuccessfulSend_zero_not_mean :
  let c' := recordSuccessfulSend nov2 0 sampleConfig in
  let attempts := totalEmailsSent c' + totalEmailsFailed c' in
  attempts = 2 /\
  averageSendTime c' = 100 /\
  JS.round_div (averageSendTime sampleConfig * (attempts - 1) + 0) attempts = 50 /\
  averageSendTime c' <>
    JS.round_div (averageSendTime sampleConfig * (attempts - 1) + 0) attempts.
Proof. vm_compute. repeat split; congruence. Qed.

(** C7, amended.  [recordSuccessfulSend (t)] adds one to [totalEmailsSent],
    [emailsSentToday] and [monthlyEmailsSent], stamps [lastSuccessfulSend],
    zeroes [consecutiveFailures], and recomputes [successRate] as
    [Math.round ((sent / attempts) * 100)] over the new counters.  For a
    send time other than 0 it moves [averageSendTime] to the rounded
    cumulative mean over all attempts; for a send time of 0 it leaves
    [averageSendTime] as it was. *)
Theorem recordSuccessfulSend_effect (now : Date) (t : Z) (c : EmailConfig) :
  0 <= totalEmailsSent c -> 0 <= totalEmailsFailed c ->
  let c' := recordSuccessfulSend now t c in
  let attempts := totalEmailsSent c' + totalEmailsFailed c' in
  totalEmailsSent c' = totalEmailsSent c + 1 /\
  emailsSentToday c' = emailsSentToday c + 1 /\
  monthlyEmailsSent c' = monthlyEmailsSent c + 1 /\
  totalEmailsFailed c' = totalEmailsFailed c /\
  lastSuccessfulSend c' = Some now /\
  consecutiveFailures c' = 0 /\
  0 < attempts /\
  averageSendTime c' =
    (if t =? 0 then averageSendTime c
     else JS.round_div (averageSendTime c * (attempts - 1) + t) attempts) /\
  successRate c' = JS.round_pct (totalEmailsSent c') attempts.
Proof.
  intros Hsent Hfailed. unfold recordSuccessfulSend, JS.truthy.
  destruct c; cbn [totalEmailsSent totalEmailsFailed] in Hsent, Hfailed.
  destruct (t =? 0); cbn.
  all: split_and!; try reflexivity; try lia.
  all: unfold updateSuccessRate; cbn;
    destruct (Z.ltb_spec 0 (totalEmailsSent0 + 1 + totalEmailsFailed0));
    [reflexivity|lia].
Qed.

Lemma recordSuccessfulSend_effect_witness :
  let c' := recordSuccessfulSend nov2 120 sampleConfig in
  totalEmailsSent c' = 2 /\ emailsSentToday c' = 451 /\
  averageSendTime c' = 110 /\ successRate c' = 100.
Proof.
  pose proof (recordSuccessfulSend_effect nov2 120 sampleConfig
                ltac:(vm_compute; discriminate) ltac:(vm_compute; discriminate)) as H.
  cbv zeta in H. destruct H as (H1 & H2 & _ & _ & _ & _ & _ & H8 & H9).
  cbv zeta. rewrite H1, H2, H8, H9. vm_compute. repeat split; reflexivity.
Defined.

End EmailConfigFacts.

Section ResetFacts.
Import EmailConfigModel.

Lemma resetDailyCounterIfNeeded_fields (clk : ResetClock) (c : EmailConfig) :
  let c' := resetDailyCounterIfNeeded clk c in
  _id c' = _id c /\ isActive c' = isActive c /\ dailyLimit c' = dailyLimit c /\
  currentMonth c' = monthKey (at_year clk) (at_month clk) /\
  emailsSentToday c' =
    (if bool_decide (toDateString (at_today clk) <> toDateString (lastResetDate c))
     then 0 else emailsSentToday c) /\
  lastResetDate c' =
    (if bool_decide (toDateString (at_today clk) <> toDateString (lastResetDate c))
     then at_stamp clk else lastResetDate c).
Proof.
  unfold resetDailyCounterIfNeeded. destruct c; simpl.
  repeat case_bool_decide; simpl; repeat split; try reflexivity.
  all: simpl in *; assumption.
Qed.

Lemma resetDailyCounterIfNeeded_fresh (clk : ResetClock) (c : EmailConfig) :
  toDateString (at_today clk) = toDateString (lastResetDate c) ->
  currentMonth c = monthKey (at_year clk) (at_month clk) ->
  resetDailyCounterIfNeeded clk c = c.
Proof.
  intros Hd Hm. unfold resetDailyCounterIfNeeded.
  rewrite (bool_decide_eq_false_2
             (toDateString (at_today clk) <> toDateString (lastResetDate c)))
    by (intros H; apply H, Hd).
  rewrite bool_decide_eq_false_2 by (intros H; apply H, Hm).
  reflexivity.
Qed.

(** C8.  A second [resetDailyCounterIfNeeded] on the same day and in the
    same month changes nothing, in particular none of [emailsSentToday],
    [lastResetDate], [monthlyEmailsSent] and [currentMonth]; and a call made
    on another day than [lastResetDate] zeroes [emailsSentToday] and moves
    [lastResetDate] to the current date. *)
Theorem resetDailyCounterIfNeeded_idempotent (clk1 clk2 : ResetClock) (c : EmailConfig) :
  let c1 := resetDailyCounterIfNeeded clk1 c in
  let c2 := resetDailyCounterIfNeeded clk2 c1 in
  (sameDayAndMonth clk1 clk2 ->
     c2 = c1 /\
     emailsSentToday c2 = emailsSentToday c1 /\
     lastResetDate c2 = lastResetDate c1 /\
     monthlyEmailsSent c2 = monthlyEmailsSent c1 /\
     currentMonth c2 = currentMonth c1) /\
  (toDateString (at_today clk1) <> toDateString (lastResetDate c) ->
     emailsSentToday c1 = 0 /\ lastResetDate c1 = at_stamp clk1).
Proof.
  cbv zeta.
  destruct (resetDailyCounterIfNeeded_fields clk1 c) as (_ & _ & _ & Hm & He & Hl).
  split.
  - intros (Hstamp & Htoday & Hmonth).
    assert (resetDailyCounterIfNeeded clk2 (resetDailyCounterIfNeeded clk1 c)
            = resetDailyCounterIfNeeded clk1 c) as Heq.
    { apply resetDailyCounterIfNeeded_fresh.
      - rewrite Hl, Htoday. case_bool_decide as Hd.
        + symmetry. exact Hstamp.
        + exact Hd.
      - rewrite Hm. symmetry. exact Hmonth. }
    rewrite Heq. repeat split; reflexivity.
  - intros Hd. rewrite He, Hl.
    rewrite bool_decide_eq_true_2 by exact Hd. split; reflexivity.
Qed.

(** Yesterday's configuration with 450 mails sent, reset twice on 2 November. *)
Lemma resetDailyCounterIfNeeded_idempotent_witness :
  let c1 := resetDailyCounterIfNeeded (frozen nov2) sampleConfig in
  let c2 := resetDailyCounterIfNeeded (frozen nov2_later) c1 in
  c2 = c1 /\ emailsSentToday c1 = 0 /\ lastResetDate c1 = nov2.
Proof.
  pose proof (resetDailyCounterIfNeeded_idempotent
                (frozen nov2) (frozen nov2_later) sampleConfig) as [Hidem Hdaily].
  cbv zeta in *.
  destruct Hidem as (H & _).
  { unfold sameDayAndMonth. vm_compute. repeat split; reflexivity. }
  destruct Hdaily as (H0 & Hl).
  { vm_compute. discriminate. }
  repeat split; assumption.
Defined.

End ResetFacts.

(** ** The e-mail service *)

Section EmailServiceFacts.
Import JS EmailConfigModel EmailServiceUtil.

Variable sendMail : Transporter -> Mail -> SendMailOutcome.

(** C10.  With a transporter in place [sendEmail] neither resets the daily
    counter nor looks at the daily limit: whatever the date, and from any
    state with [emailsSentToday >= dailyLimit], an accepted delivery resolves
    to a success and adds one to [emailsSentToday], which then exceeds
    [dailyLimit]. *)
Theorem sendEmail_initialized_ignores_limit (clk : SendClock)
  (to subject html ipAddress : string) (configs : list EmailConfig)
  (this : EmailService) (tr : Transporter) (config : EmailConfig) (mid : string) :
  transporter this = Some tr ->
  currentConfig this = Some config ->
  sendMail tr (mailOf config to subject html) = Accepted mid ->
  dailyLimit config <= emailsSentToday config ->
  let sendTime := sc_end clk - sc_start clk in
  let config' := recordSuccessfulSend (sc_record clk) sendTime config in
  sendEmail sendMail clk to subject html ipAddress configs this =
    (EmailConfigModel.save config' configs,
     mkEmailService (Some tr) (Some config')
       (mkPerformanceMetrics (sendTimes (performanceMetrics this) ++ [sendTime])
          (pm_errorCount (performanceMetrics this))
          (pm_successCount (performanceMetrics this) + 1)),
     Resolved (mkSendResult true (Some mid) None sendTime)) /\
  emailsSentToday config' = emailsSentToday config + 1 /\
  lastResetDate config' = lastResetDate config /\
  dailyLimit config' = dailyLimit config /\
  dailyLimit config' < emailsSentToday config'.
Proof.
  intros Htr Hcfg Hsend Hlimit sendTime config'.
  assert (emailsSentToday config' = emailsSentToday config + 1 /\
          lastResetDate config' = lastResetDate config /\
          dailyLimit config' = dailyLimit config) as (He & Hl & Hd).
  { subst config'. unfold recordSuccessfulSend.
    destruct (JS.truthy sendTime); destruct config; repeat split; reflexivity. }
  split; [|repeat split; try assumption; lia].
  unfold sendEmail. rewrite Htr. cbn beta iota. rewrite Htr, Hcfg.
  fold (mailOf config to subject html). rewrite Hsend. reflexivity.
Qed.

End EmailServiceFacts.

Section EmailServiceSamples.
Import JS EmailConfigModel EmailServiceUtil.

Lemma sendEmail_initialized_ignores_limit_witness :
  let '(_, this', result) :=
    sendEmail acceptAll sampleSendClock "s1@example.org" "Offer" "<p>Hi</p>" "10.0.0.1"
              [exhaustedConfig] sampleService in
  result = Resolved (mkSendResult true (Some "<1@educonnect.com>") None 150) /\
  (emailsSentToday <$> currentConfig this') = Some 501 /\
  (dailyLimit <$> currentConfig this') = Some 500.
Proof.
  destruct (sendEmail_initialized_ignores_limit acceptAll sampleSendClock
              "s1@example.org" "Offer" "<p>Hi</p>" "10.0.0.1"
              [exhaustedConfig] sampleService
              (mkTransporter "gmail" "noreply@educonnect.com" "secret")
              exhaustedConfig "<1@educonnect.com>"
              eq_refl eq_refl eq_refl ltac:(vm_compute; discriminate))
    as (Hcall & He & _ & Hd & _).
  rewrite Hcall. cbn [fmap option_fmap option_map currentConfig].
  rewrite He, Hd. vm_compute. repeat split; reflexivity.
Defined.

End EmailServiceSamples.

(** ** Accepting a campaign *)

Section StartFacts.
Import JS EmailConfigModel PromotionalEmailModel PromotionalEmailController.

Lemma findOneActive_save (configs : list EmailConfig) (c c' : EmailConfig) :
  findOneActive configs = Some c ->
  _id c' = _id c -> isActive c' = true ->
  findOneActive (EmailConfigModel.save c' configs) = Some c'.
Proof.
  unfold findOneActive, EmailConfigModel.save. intros Hfind Hid Hact.
  induction configs as [|x configs IH]; simpl in *; [discriminate|].
  destruct (isActive x) eqn:Hx.
  - injection Hfind as ->. rewrite Hid, Nat.eqb_refl, Hact. reflexivity.
  - destruct (Nat.eqb (_id x) (_id c')).
    + rewrite Hact. reflexivity.
    + rewrite Hx. apply IH, Hfind.
Qed.

(** C1, amended.  A request that reaches the pre-flight check with fewer
    mails left for the day than it has recipients is refused with the quota
    error: no campaign record is created, no background sender is started,
    and the configuration is persisted as the reset check left it, so that
    [emailsSentToday] is [0] when the check found a new day and is unchanged
    otherwise. *)
Theorem sendPromotionalEmail_quota_exceeded (clk : ResetClock) (now : Date)
  (newId : nat) (body : Body) (ip : string) (w : World) (emailConfig : EmailConfig) :
  bodyComplete body ->
  findOneActive (configs w) = Some emailConfig ->
  let found := List.filter hasValidEmail (students w) in
  let checked := resetDailyCounterIfNeeded clk emailConfig in
  let remainingEmails := dailyLimit checked - emailsSentToday checked in
  found <> [] ->
  remainingEmails < Z.of_nat (length found) ->
  let '(response, w', background) := sendPromotionalEmail clk now newId body ip w in
  response = quotaExceeded remainingEmails (length found) /\
  campaigns w' = campaigns w /\
  background = None /\
  findOneActive (configs w') = Some checked /\
  emailsSentToday checked =
    (if bool_decide (toDateString (at_today clk) <> toDateString (lastResetDate emailConfig))
     then 0 else emailsSentToday emailConfig).
Proof.
  intros Hbody Hfind found checked remainingEmails Hfound Hquota.
  destruct (resetDailyCounterIfNeeded_fields clk emailConfig)
    as (Hid & Hact & _ & _ & He & _).
  unfold sendPromotionalEmail. rewrite Hbody, Hfind.
  fold found. destruct found as [|s0 found'] eqn:Efound; [congruence|].
  cbn [length Nat.eqb]. fold checked. fold remainingEmails.
  cbn [dailyLimit emailsSentToday].
  replace (remainingEmails <? Z.of_nat (S (length found'))) with true
    by (symmetry; apply Z.ltb_lt; exact Hquota).
  repeat split; cbn [configs campaigns]; [|exact He].
  apply (findOneActive_save _ emailConfig); [exact Hfind|exact Hid|].
  unfold checked. rewrite Hact. unfold findOneActive in Hfind.
  apply find_some in Hfind. apply Hfind.
Qed.

End StartFacts.

Section StartSamples.
Import JS EmailConfigModel PromotionalEmailModel PromotionalEmailController.

Lemma sendPromotionalEmail_quota_exceeded_witness :
  let w := mkWorld [almostExhausted] (sampleStudents 10) ∅ in
  let '(response, w', background) :=
    sendPromotionalEmail (frozen nov2_later) nov2_later 1 sampleBody "10.0.0.1" w in
  response = quotaExceeded 5 10 /\ campaigns w' = ∅ /\ background = None /\
  (emailsSentToday <$> findOneActive (configs w')) = Some 495.
Proof.
  pose proof (sendPromotionalEmail_quota_exceeded (frozen nov2_later) nov2_later 1
                sampleBody "10.0.0.1"
                (mkWorld [almostExhausted] (sampleStudents 10) ∅) almostExhausted
                eq_refl eq_refl ltac:(vm_compute; discriminate)
                ltac:(vm_compute; reflexivity)) as H.
  cbv zeta in *.
  destruct (sendPromotionalEmail _ _ _ _ _ _) as [[response w'] background].
  destruct H as (Hr & Hc & Hb & Hf & He).
  repeat split; [rewrite Hr; reflexivity|exact Hc|exact Hb|].
  rewrite Hf. cbn [fmap option_fmap option_map]. rewrite He. reflexivity.
Defined.

(** C1, as stated, fails.  The configuration was last reset yesterday with
    450 mails sent; a request for 501 recipients is refused with the quota
    error, and the refused call has taken [emailsSentToday] from 450 to 0. *)
Lemma sendPromotionalEmail_quota_exceeded_resets :
  let w := mkWorld [sampleConfig] (sampleStudents 501) ∅ in
  let '(response, w', background) :=
    sendPromotionalEmail (frozen nov2) nov2 1 sampleBody "10.0.0.1" w in
  response = quotaExceeded 500 501 /\ campaigns w' = ∅ /\ background = None /\
  (emailsSentToday <$> findOneActive (configs w)) = Some 450 /\
  (emailsSentToday <$> findOneActive (configs w')) = Some 0.
Proof. vm_compute. repeat split; reflexivity. Qed.

End StartSamples.

(** ** Cancelling a campaign *)

Section CancelFacts.
Import JS PromotionalEmailModel PromotionalEmailController.

Lemma cancelled_not_in_enum : bool_decide ("cancelled" ∈ statusEnum) = false.
Proof. reflexivity. Qed.

Lemma validate_unmodified_status (d : Doc) :
  PStatus ∉ modified d -> validate d = None.
Proof.
  intros H. unfold validate. rewrite (bool_decide_eq_false_2 _ H). reflexivity.
Qed.

Lemma validate_status_in_enum (d : Doc) :
  status d ∈ statusEnum -> validate d = None.
Proof.
  intros H. unfold validate. rewrite (bool_decide_eq_true_2 _ H).
  rewrite andb_false_r. reflexivity.
Qed.

(** No call of [cancelPromotionalEmail] changes the collection, and none
    answers with a success. *)
Lemma cancelPromotionalEmail_never_cancels (now : Date) (id : nat)
  (campaigns : gmap nat Stored) :
  snd (cancelPromotionalEmail now id campaigns) = campaigns /\
  forall i s f p, fst (cancelPromotionalEmail now id campaigns) <> Cancelled i s f p.
Proof.
  unfold cancelPromotionalEmail, findById.
  destruct (campaigns !! id) as [r|]; cbn [fmap option_fmap option_map].
  - destruct (negb (String.eqb (status (hydrate id r)) "sending")).
    + split; [reflexivity|discriminate].
    + destruct r. split; [reflexivity|discriminate].
  - split; [reflexivity|discriminate].
Qed.

Lemma cancelPromotionalEmail_sending (now : Date) (id : nat)
  (campaigns : gmap nat Stored) (r : Stored) :
  campaigns !! id = Some r -> st_status r = "sending" ->
  cancelPromotionalEmail now id campaigns
  = (Status500 "Failed to cancel promotional email", campaigns).
Proof.
  intros Hr Hs. unfold cancelPromotionalEmail, findById. rewrite Hr.
  cbn [fmap option_fmap option_map]. destruct r; simpl in Hs; subst.
  reflexivity.
Qed.

Lemma cancelPromotionalEmail_not_sending (now : Date) (id : nat)
  (campaigns : gmap nat Stored) (r : Stored) :
  campaigns !! id = Some r -> st_status r <> "sending" ->
  cancelPromotionalEmail now id campaigns
  = (Status400 "Cannot cancel campaign that is not in sending status", campaigns).
Proof.
  intros Hr Hs. unfold cancelPromotionalEmail, findById. rewrite Hr.
  cbn [fmap option_fmap option_map]. cbn [hydrate status].
  destruct (String.eqb_spec (st_status r) "sending"); [contradiction|reflexivity].
Qed.

End CancelFacts.

Section CancelSamples.
Import JS PromotionalEmailModel PromotionalEmailController.

(** C4.  On a campaign whose status is ['sending'] the cancel handler fails:
    the schema's enum refuses ['cancelled'], [save] throws, the handler
    answers 500 and the record keeps its status. *)
Theorem cancelPromotionalEmail_sending_refused :
  cancelPromotionalEmail nov2 7 {[ 7%nat := sendingCampaign ]}
  = (Status500 "Failed to cancel promotional email", {[ 7%nat := sendingCampaign ]}).
Proof. apply (cancelPromotionalEmail_sending _ _ _ sendingCampaign); reflexivity. Qed.

End CancelSamples.

(** ** The background sender *)

Section EngineFacts.
Import JS PromotionalEmailModel PromotionalEmailController.

Variable deliver : nat -> Student -> Completion EmailServiceUtil.SendResult.
Variable clock : nat -> Date.

(** While [map] runs, every callback calls [sendEmail] and nothing else
    happens. *)
Lemma callOne_fold (bn : Z) (doc : Doc) (batch : list Student) (b : Batch) :
  fold_left (fun b st => callOne bn doc st b) batch b
  = mkBatch (run_sentCount b) (run_failedCount b) (batchSent b) (batchFailed b)
            (b_trace b ++ dispatches bn (title (doc_content doc)) batch)
            (b_rejected b).
Proof.
  revert b. induction batch as [|st batch IH]; intros b.
  - cbn. rewrite app_nil_r. destruct b; reflexivity.
  - cbn [fold_left]. rewrite IH. unfold callOne, dispatches.
    cbn [map run_sentCount run_failedCount batchSent batchFailed b_trace b_rejected].
    rewrite <- app_assoc. reflexivity.
Qed.

(** A callback whose send has not succeeded ends in a rejection: the call
    of [addError] throws in the [try] block and again in the [catch]
    block. *)
Lemma resumeOne_spec (doc : Doc) (idx : nat) (st : Student) (b : Batch) :
  let b' := resumeOne deliver doc idx st b in
  b_trace b' = b_trace b /\
  b_rejected b' =
    match b_rejected b with
    | Some m => Some m
    | None => if delivered deliver (idx, st) then None
              else Some (notAFunction "addError")
    end.
Proof.
  unfold resumeOne, delivered. cbn [fst snd].
  destruct (deliver idx st) as [result|message].
  - destruct (EmailServiceUtil.success result).
    + cbn. split; [reflexivity|]. destruct (b_rejected b); reflexivity.
    + cbn. split; [reflexivity|]. destruct (b_rejected b); reflexivity.
  - cbn. split; [reflexivity|]. destruct (b_rejected b); reflexivity.
Qed.

Lemma resumeOne_fold (doc : Doc) (items : list (nat * Student)) (b : Batch) :
  let b' := fold_left (fun b '(idx, st) => resumeOne deliver doc idx st b) items b in
  b_trace b' = b_trace b /\
  b_rejected b' =
    match b_rejected b with
    | Some m => Some m
    | None => if forallb (delivered deliver) items then None
              else Some (notAFunction "addError")
    end.
Proof.
  revert b. induction items as [|[idx st] items IH]; intros b.
  - cbn. split; [reflexivity|]. destruct (b_rejected b); reflexivity.
  - cbn [fold_left forallb].
    destruct (resumeOne_spec doc idx st b) as [Htr Hrej].
    destruct (IH (resumeOne deliver doc idx st b)) as [Htr' Hrej'].
    cbv zeta in *. rewrite Htr', Hrej', Htr, Hrej. split; [reflexivity|].
    destruct (b_rejected b); [reflexivity|].
    destruct (delivered deliver (idx, st)); reflexivity.
Qed.

Lemma processBatch_spec (i : nat) (bn : Z) (batch : list Student) (s : Sender) :
  let b := processBatch deliver i bn batch s in
  b_trace b
    = trace s ++ dispatches bn (title (doc_content (promotionalEmail s))) batch /\
  b_rejected b =
    if forallb (delivered deliver) (combine (seq i (length batch)) batch)
    then None else Some (notAFunction "addError").
Proof.
  unfold processBatch. rewrite callOne_fold.
  match goal with
  | |- context [fold_left ?f ?items ?b0] =>
      destruct (resumeOne_fold (promotionalEmail s) items b0) as [Htr Hrej]
  end.
  cbv zeta in *. rewrite Htr, Hrej. split; reflexivity.
Qed.

(** One turn of the loop is the last: the mails of the batch are handed to
    the service, then the turn ends in the outer [catch] block, which
    throws in its turn.  Nothing is written to the collection. *)
Lemma batchTurn_spec (recipients : list Student) (s : Sender)
  (campaigns : gmap nat Stored) :
  let batch := take batchSize (drop (pos s) recipients) in
  let bn := Z.of_nat (pos s / batchSize) + 1 in
  let r := batchTurn deliver clock recipients s campaigns in
  finished r.1 = true /\
  uncaught r.1 = Some (notAFunction "addError") /\
  r.2 = campaigns /\
  status (promotionalEmail r.1) = "failed" /\
  trace r.1 =
    trace s ++ dispatches bn (title (doc_content (promotionalEmail s))) batch ++
    (if forallb (delivered deliver) (combine (seq (pos s) (length batch)) batch)
     then [BatchSettled bn] else []).
Proof.
  cbv zeta. unfold batchTurn.
  destruct (processBatch_spec (pos s) (Z.of_nat (pos s / batchSize) + 1)
              (take batchSize (drop (pos s) recipients)) s) as [Htr Hrej].
  cbv zeta in *. rewrite Hrej.
  destruct (forallb (delivered deliver) _).
  - unfold addPerformanceLog, failCampaign, addError, ended.
    cbn [promotionalEmail trace tick fst snd finished uncaught].
    rewrite Htr, <- app_assoc.
    destruct (promotionalEmail s). split_and!; reflexivity.
  - unfold failCampaign, addError, ended.
    cbn [promotionalEmail trace tick fst snd finished uncaught].
    rewrite Htr, app_nil_r.
    destruct (promotionalEmail s). split_and!; reflexivity.
Qed.

(** With a recipient to mail the function is over after one turn. *)
Lemma sendEmailsInBackground_one_turn (recipients : list Student) (doc : Doc)
  (campaigns : gmap nat Stored) :
  recipients <> [] ->
  sendEmailsInBackground deliver clock recipients doc campaigns
  = batchTurn deliver clock recipients (initialSender clock doc) campaigns.
Proof.
  intros Hne. unfold sendEmailsInBackground. cbn [run]. unfold step.
  cbn [finished initialSender pos].
  replace (0 <? length recipients)%nat with true
    by (symmetry; apply Nat.ltb_lt; destruct recipients; [congruence|cbn; lia]).
  destruct (batchTurn_spec recipients (initialSender clock doc) campaigns) as (Hfin & _).
  cbv zeta in Hfin.
  destruct (batchTurn deliver clock recipients (initialSender clock doc) campaigns)
    as [s' campaigns'].
  cbn [fst] in Hfin. rewrite Hfin. reflexivity.
Qed.

(** What a run on a list that is not empty comes to. *)
Lemma sendEmailsInBackground_spec (recipients : list Student) (doc : Doc)
  (campaigns : gmap nat Stored) :
  recipients <> [] ->
  let firstBatch := take batchSize recipients in
  let r := sendEmailsInBackground deliver clock recipients doc campaigns in
  finished r.1 = true /\
  uncaught r.1 = Some (notAFunction "addError") /\
  r.2 = campaigns /\
  status (promotionalEmail r.1) = "failed" /\
  trace r.1 =
    dispatches 1 (title (doc_content doc)) firstBatch ++
    (if forallb (delivered deliver) (combine (seq 0 (length firstBatch)) firstBatch)
     then [BatchSettled 1] else []).
Proof.
  intros Hne. cbv zeta.
  rewrite (sendEmailsInBackground_one_turn recipients doc campaigns Hne).
  pose proof (batchTurn_spec recipients (initialSender clock doc) campaigns) as H.
  cbv zeta in H. cbn [initialSender pos trace promotionalEmail] in H.
  rewrite drop_0 in H. exact H.
Qed.

Lemma filter_isSend_dispatches (bn : Z) (subject : string) (batch : list Student) :
  List.filter isSend (dispatches bn subject batch) = dispatches bn subject batch.
Proof.
  unfold dispatches. induction batch as [|st batch IH]; [reflexivity|].
  cbn. f_equal. exact IH.
Qed.

Lemma not_in_dispatches (e : Event) (bn : Z) (subject : string) (batch : list Student) :
  isSend e = false -> ~ In e (dispatches bn subject batch).
Proof.
  intros He Hin. unfold dispatches in Hin. apply in_map_iff in Hin as (st & <- & _).
  discriminate He.
Qed.

(** C5 fails on the code.  Whatever the transport does, a run of the
    background sender on a list that is not empty calls [sendEmail] for the
    first 10 recipients at most, in input order, and for nobody else: the
    first turn of the loop ends in a TypeError, because the schema has no
    method [addPerformanceLog] nor [addError], and the [catch] block throws
    for the same reason.  There is no pause of 2000 ms, no second batch and
    no write: the record stays as it was, its status is not ['completed']
    unless it was before.  With 25 recipients 10 mails are handed to the
    service and 15 are not. *)
Theorem sendEmailsInBackground_first_batch_only (recipients : list Student)
  (doc : Doc) (campaigns : gmap nat Stored) :
  recipients <> [] ->
  let '(s, campaigns') :=
    sendEmailsInBackground deliver clock recipients doc campaigns in
  let firstBatch := take 10 recipients in
  finished s = true /\
  uncaught s = Some "promotionalEmail.addError is not a function" /\
  List.filter isSend (trace s) = dispatches 1 (title (doc_content doc)) firstBatch /\
  ~ In (Sleep 2000) (trace s) /\
  (forall batch, In (BatchSettled batch) (trace s) -> batch = 1) /\
  campaigns' = campaigns /\
  (length recipients = 25%nat -> length (List.filter isSend (trace s)) = 10%nat).
Proof.
  intros Hne.
  pose proof (sendEmailsInBackground_spec recipients doc campaigns Hne) as H.
  cbv zeta in H.
  destruct (sendEmailsInBackground deliver clock recipients doc campaigns)
    as [s campaigns'].
  cbn [fst snd] in H. destruct H as (Hfin & Hthrown & Hsame & _ & Htrace).
  change batchSize with 10%nat in Htrace.
  assert (List.filter isSend (trace s)
          = dispatches 1 (title (doc_content doc)) (take 10 recipients)) as Hsends.
  { rewrite Htrace, List.filter_app, filter_isSend_dispatches.
    destruct (forallb _ _); cbn; apply app_nil_r. }
  split_and!; try assumption.
  - rewrite Htrace. intros Hin. apply in_app_or in Hin as [Hin|Hin].
    + revert Hin. apply not_in_dispatches. reflexivity.
    + destruct (forallb _ _); cbn in Hin; [destruct Hin as [Hin|[]]; discriminate|].
      exact Hin.
  - rewrite Htrace. intros batch Hin. apply in_app_or in Hin as [Hin|Hin].
    + exfalso. revert Hin. apply not_in_dispatches. reflexivity.
    + destruct (forallb _ _); cbn in Hin; [|contradiction].
      destruct Hin as [Hin|[]]. injection Hin as <-. reflexivity.
  - intros H25. rewrite Hsends. unfold dispatches.
    rewrite length_map, length_take, H25. reflexivity.
Qed.

(** C2 fails on the code.  The sender does not read the collection: its run
    is the same whatever the collection holds.  A request to cancel the
    campaign it works on is refused, before the run and after it, because
    the schema's enum has no ['cancelled'].  So the record is, in the end,
    the one [create] stored: its status is not ['cancelled'], and its
    counters show nothing of the first batch. *)
Theorem sendEmailsInBackground_ignores_cancel (now : Date) (recipients : list Student)
  (id : nat) (r : Stored) (campaigns other : gmap nat Stored) :
  campaigns !! id = Some r -> st_status r = "sending" -> recipients <> [] ->
  let doc := hydrate id r in
  let '(s, campaigns1) :=
    sendEmailsInBackground deliver clock recipients doc campaigns in
  let '(response, campaigns2) := cancelPromotionalEmail now id campaigns1 in
  fst (sendEmailsInBackground deliver clock recipients doc other) = s /\
  cancelPromotionalEmail now id campaigns
    = (Status500 "Failed to cancel promotional email", campaigns) /\
  response = Status500 "Failed to cancel promotional email" /\
  campaigns2 !! id = Some r /\
  st_status r <> "cancelled" /\
  List.filter isSend (trace s)
    = dispatches 1 (title (st_content r)) (take 10 recipients).
Proof.
  intros Hr Hst Hne doc.
  assert (fst (sendEmailsInBackground deliver clock recipients doc other)
          = fst (sendEmailsInBackground deliver clock recipients doc campaigns))
    as Hindep.
  { rewrite !sendEmailsInBackground_one_turn by exact Hne.
    unfold batchTurn. destruct (b_rejected _); reflexivity. }
  pose proof (sendEmailsInBackground_spec recipients doc campaigns Hne) as H.
  cbv zeta in H. change batchSize with 10%nat in H.
  destruct (sendEmailsInBackground deliver clock recipients doc campaigns)
    as [s campaigns1].
  cbn [fst snd] in H, Hindep. destruct H as (_ & _ & -> & _ & Htrace).
  assert (cancelPromotionalEmail now id campaigns
          = (Status500 "Failed to cancel promotional email", campaigns)) as Hcancel.
  { unfold cancelPromotionalEmail, findById. rewrite Hr.
    cbn [fmap option_fmap option_map]. destruct r; cbn in Hst; subst. reflexivity. }
  rewrite Hcancel. split_and!; try assumption; try reflexivity.
  - rewrite Hst. discriminate.
  - rewrite Htrace, List.filter_app, filter_isSend_dispatches.
    destruct (forallb _ _); cbn; apply app_nil_r.
Qed.

End EngineFacts.

Section EngineSamples.
Import JS PromotionalEmailModel PromotionalEmailController.

(** Twenty-five recipients, every send accepted. *)
Lemma sendEmailsInBackground_first_batch_only_witness :
  let '(s, campaigns') :=
    sendEmailsInBackground deliverAll sampleClock (sampleStudents 25)
      (hydrate 7 sendingCampaign) {[ 7%nat := sendingCampaign ]} in
  uncaught s = Some "promotionalEmail.addError is not a function" /\
  length (List.filter isSend (trace s)) = 10%nat /\
  ~ In (Sleep 2000) (trace s) /\
  campaigns' = {[ 7%nat := sendingCampaign ]}.
Proof.
  pose proof (sendEmailsInBackground_first_batch_only deliverAll sampleClock
                (sampleStudents 25) (hydrate 7 sendingCampaign)
                {[ 7%nat := sendingCampaign ]} ltac:(vm_compute; discriminate)) as H.
  destruct (sendEmailsInBackground _ _ _ _ _) as [s campaigns'].
  destruct H as (_ & Hthrown & _ & Hsleep & _ & Hsame & H25).
  split_and!; [exact Hthrown|exact (H25 eq_refl)|exact Hsleep|exact Hsame].
Defined.

(** When the transport refuses a mail the run ends the same way, with one
    difference: [Promise.all] rejects, so the batch never settles. *)
Example sendEmailsInBackground_refused_sample :
  let '(s, campaigns') :=
    sendEmailsInBackground deliverMost sampleClock (sampleStudents 25)
      (hydrate 7 sendingCampaign) {[ 7%nat := sendingCampaign ]} in
  uncaught s = Some "promotionalEmail.addError is not a function" /\
  length (trace s) = 10%nat /\ ~ In (BatchSettled 1) (trace s) /\
  local_sentCount s = 9 /\ local_failedCount s = 2 /\
  campaigns' = {[ 7%nat := sendingCampaign ]}.
Proof.
  vm_compute. split_and!; try reflexivity.
  intros H. repeat (destruct H as [H|H]; [discriminate|]). exact H.
Qed.

(** Twenty-five recipients, every send accepted, and a request to cancel
    the campaign once the first batch has settled: ten mails have gone out,
    the request is answered with 500, and the record still says ['sending']
    with [sentCount = 0]. *)
Lemma sendEmailsInBackground_ignores_cancel_witness :
  let '(s, campaigns1) :=
    sendEmailsInBackground deliverAll sampleClock (sampleStudents 25)
      (hydrate 7 sendingCampaign) {[ 7%nat := sendingCampaign ]} in
  let '(response, campaigns2) := cancelPromotionalEmail nov2_later 7 campaigns1 in
  response = Status500 "Failed to cancel promotional email" /\
  campaigns2 !! 7%nat = Some sendingCampaign /\
  st_status sendingCampaign = "sending" /\ st_sentCount sendingCampaign = 0 /\
  length (List.filter isSend (trace s)) = 10%nat.
Proof.
  pose proof (sendEmailsInBackground_ignores_cancel deliverAll sampleClock nov2_later
                (sampleStudents 25) 7 sendingCampaign {[ 7%nat := sendingCampaign ]} ∅
                ltac:(apply lookup_singleton_eq) eq_refl
                ltac:(vm_compute; discriminate)) as H.
  cbv zeta in H.
  destruct (sendEmailsInBackground _ _ _ _ _) as [s campaigns1].
  destruct (cancelPromotionalEmail nov2_later 7 campaigns1) as [response campaigns2].
  destruct H as (_ & _ & Hresponse & Hrecord & _ & Hsends).
  split_and!; [exact Hresponse|exact Hrecord|reflexivity|reflexivity|].
  rewrite Hsends. reflexivity.
Defined.

End EngineSamples.

(** ** The life cycle of a campaign record *)

Section LifeCycle.
Import JS EmailConfigModel PromotionalEmailModel PromotionalEmailController.

Lemma create_result (newId : nat) (input : CreateInput) (c : gmap nat Stored) :
  match create newId input c with
  | (Some doc, c', _) =>
      c !! newId = None /\
      exists r, c' = <[newId := r]> c /\ st_status r = ci_status input /\
                st_sentCount r = 0 /\ st_failedCount r = 0 /\
                doc = hydrate newId r
  | (None, c', _) => c' = c
  end.
Proof.
  unfold create. destruct (requiredMissing _); [reflexivity|].
  destruct (negb _); [reflexivity|].
  destruct (c !! newId) eqn:Hc; [reflexivity|].
  split; [reflexivity|]. eexists. repeat split.
Qed.

(** What an accepted request leaves behind: a new record as [create] stores
    it, and a sender with somebody to mail. *)
Lemma sendPromotionalEmail_campaigns (clk : ResetClock) (now : Date) (newId : nat)
  (body : Body) (ip : string) (w : World) :
  match sendPromotionalEmail clk now newId body ip w with
  | (response, w', Some bg) =>
      let n := Z.of_nat (length (bg_students bg)) in
      response = Started newId n (ceil_div (n * 2) 60) /\
      bg_students bg <> [] /\
      campaigns w !! newId = None /\
      exists r, campaigns w' = <[newId := r]> (campaigns w) /\
                st_status r = "sending" /\
                st_sentCount r = 0 /\ st_failedCount r = 0 /\
                bg_promotionalEmail bg = hydrate newId r
  | (_, w', None) => campaigns w' = campaigns w
  end.
Proof.
  unfold sendPromotionalEmail.
  destruct (_ || _); [reflexivity|].
  destruct (findOneActive (configs w)); [|reflexivity].
  destruct (List.filter hasValidEmail (students w)) as [|s0 found] eqn:Hfound;
    [reflexivity|].
  cbn [length Nat.eqb].
  cbn [dailyLimit emailsSentToday configs students campaigns].
  destruct (_ <? _); [reflexivity|].
  match goal with |- context [create ?i ?x ?c] =>
    pose proof (create_result i x c) as Hc; destruct (create i x c) as [[[doc|] c'] t]
  end; [|reflexivity].
  cbn [bg_students bg_promotionalEmail campaigns ci_status] in *.
  destruct Hc as (Hfresh & r & -> & Hst & Hsent & Hfailed & ->).
  split_and!; [reflexivity|discriminate|exact Hfresh|].
  exists r. split_and!; try reflexivity; assumption.
Qed.

(** One step of a sender that has a recipient left, or has ended, writes
    nothing, and the sender has ended after it. *)
Lemma step_spec (deliver : nat -> Student -> Completion EmailServiceUtil.SendResult)
  (clock : nat -> Date) (recipients : list Student) (s : Sender)
  (c : gmap nat Stored) :
  (finished s = false -> (pos s < length recipients)%nat) ->
  let r := step deliver clock recipients s c in
  finished r.1 = true /\ r.2 = c.
Proof.
  intros Hpos. unfold step. destruct (finished s) eqn:Hfin.
  - split; [exact Hfin|reflexivity].
  - rewrite (proj2 (Nat.ltb_lt _ _) (Hpos eq_refl)).
    destruct (batchTurn_spec deliver clock recipients s c) as (H1 & _ & H3 & _).
    split; assumption.
Qed.

Lemma SendersInv_booted (w : World) : SendersInv (booted w).
Proof. intros id recipients s H. cbn in H. rewrite lookup_empty in H. discriminate. Qed.

(** One step of the server keeps the senders as they should be and leaves
    the records there are as they are. *)
Lemma sys_step_keeps_records (sys sys' : System) :
  SendersInv sys -> sys_step sys sys' ->
  SendersInv sys' /\
  forall id r, campaigns (sys_world sys) !! id = Some r ->
               campaigns (sys_world sys') !! id = Some r.
Proof.
  intros Hinv Hstep. destruct Hstep as
    [clk now newId body ip clock sys response w' bg Hstart
    |clk now newId body ip sys response w' Hrefused
    |id deliver clock recipients s s' sys campaigns' Hs Hstep
    |now id sys response campaigns' Hcancel
    |sys w' Hsame]; cbn [sys_world sys_senders withCampaigns campaigns].
  - (* a campaign is accepted *)
    pose proof (sendPromotionalEmail_campaigns clk now newId body ip (sys_world sys)) as H.
    rewrite Hstart in H. cbv zeta in H.
    destruct H as (_ & Hne & Hfresh & r0 & Hw' & _). split.
    + intros id recipients s Hlook Hfin. cbn [sys_senders] in Hlook.
      destruct (decide (newId = id)) as [->|Hid].
      * rewrite lookup_insert_eq in Hlook. injection Hlook as <- <-.
        cbn [initialSender pos]. destruct (bg_students bg); [congruence|cbn; lia].
      * rewrite lookup_insert_ne in Hlook by exact Hid.
        apply (Hinv id recipients s Hlook Hfin).
    + intros id r Hr. rewrite Hw'. rewrite lookup_insert_ne by congruence. exact Hr.
  - (* a campaign is refused *)
    pose proof (sendPromotionalEmail_campaigns clk now newId body ip (sys_world sys)) as H.
    rewrite Hrefused in H. split.
    + intros id recipients s Hlook Hfin. apply (Hinv id recipients s Hlook Hfin).
    + intros id r Hr. rewrite H. exact Hr.
  - (* a sender takes a step *)
    pose proof (step_spec deliver clock recipients s (campaigns (sys_world sys))
                  (Hinv id recipients s Hs)) as Hspec.
    cbv zeta in Hspec. rewrite Hstep in Hspec. cbn [fst snd] in Hspec.
    destruct Hspec as [Hfin' ->]. split.
    + intros id0 recipients0 s0 Hlook Hfin. cbn [sys_senders] in Hlook.
      destruct (decide (id = id0)) as [<-|Hid].
      * rewrite lookup_insert_eq in Hlook. injection Hlook as <- <-. congruence.
      * rewrite lookup_insert_ne in Hlook by exact Hid.
        apply (Hinv id0 recipients0 s0 Hlook Hfin).
    + intros id0 r Hr. exact Hr.
  - (* a cancel request *)
    pose proof (cancelPromotionalEmail_never_cancels now id (campaigns (sys_world sys)))
      as [Hsame _].
    rewrite Hcancel in Hsame. cbn [snd] in Hsame. subst campaigns'. split.
    + intros id0 recipients0 s0 Hlook Hfin. apply (Hinv id0 recipients0 s0 Hlook Hfin).
    + intros id0 r Hr. exact Hr.
  - (* anything else *)
    split.
    + intros id0 recipients0 s0 Hlook Hfin. apply (Hinv id0 recipients0 s0 Hlook Hfin).
    + intros id0 r Hr. rewrite Hsame. exact Hr.
Qed.

Lemma rtc_keeps_records (sys sys' : System) :
  SendersInv sys -> rtc sys_step sys sys' ->
  SendersInv sys' /\
  forall id r, campaigns (sys_world sys) !! id = Some r ->
               campaigns (sys_world sys') !! id = Some r.
Proof.
  intros Hinv Hsteps. induction Hsteps as [sys|sys sys1 sys' Hstep _ IH].
  - split; [exact Hinv|]. intros id r Hr. exact Hr.
  - destruct (sys_step_keeps_records sys sys1 Hinv Hstep) as [Hinv1 Hkeep1].
    destruct (IH Hinv1) as [Hinv' Hkeep']. split; [exact Hinv'|].
    intros id r Hr. apply Hkeep', Hkeep1, Hr.
Qed.

(** One step of the server adds records as [create] stores them, and only
    such records. *)
Lemma sys_step_as_created (sys sys' : System) :
  SendersInv sys -> sys_step sys sys' ->
  AsCreated (campaigns (sys_world sys)) -> AsCreated (campaigns (sys_world sys')).
Proof.
  intros Hinv Hstep Hall. destruct Hstep as
    [clk now newId body ip clock sys response w' bg Hstart
    |clk now newId body ip sys response w' Hrefused
    |id deliver clock recipients s s' sys campaigns' Hs Hstep
    |now id sys response campaigns' Hcancel
    |sys w' Hsame]; cbn [sys_world sys_senders withCampaigns campaigns].
  - pose proof (sendPromotionalEmail_campaigns clk now newId body ip (sys_world sys)) as H.
    rewrite Hstart in H. cbv zeta in H.
    destruct H as (_ & _ & _ & r0 & Hw' & Hst & Hsent & Hfailed & _).
    intros id r Hr. rewrite Hw' in Hr.
    destruct (decide (newId = id)) as [->|Hid].
    + rewrite lookup_insert_eq in Hr. injection Hr as <-. split_and!; assumption.
    + rewrite lookup_insert_ne in Hr by exact Hid. apply (Hall id r Hr).
  - pose proof (sendPromotionalEmail_campaigns clk now newId body ip (sys_world sys)) as H.
    rewrite Hrefused in H. rewrite H. exact Hall.
  - pose proof (step_spec deliver clock recipients s (campaigns (sys_world sys))
                  (Hinv id recipients s Hs)) as Hspec.
    cbv zeta in Hspec. rewrite Hstep in Hspec. cbn [fst snd] in Hspec.
    destruct Hspec as [_ ->]. exact Hall.
  - pose proof (cancelPromotionalEmail_never_cancels now id (campaigns (sys_world sys)))
      as [Hsame _].
    rewrite Hcancel in Hsame. cbn [snd] in Hsame. subst campaigns'. exact Hall.
  - rewrite Hsame. exact Hall.
Qed.

(** C3.  Once the status of a record is ['completed'], ['failed'] or
    ['cancelled'] it does not change again.  From the start of the server,
    with any content of the collections, and through any sequence of
    campaign requests, steps of the senders they start, cancel requests and
    other operations, a record that has a terminal status keeps it.  The
    closing write of a sender is not in the way: a sender that the handler
    has started has a recipient to mail, and its first turn is its last. *)
Theorem terminal_status_is_final (w : World) (sys sys' : System) (id : nat)
  (r : Stored) :
  rtc sys_step (booted w) sys -> rtc sys_step sys sys' ->
  campaigns (sys_world sys) !! id = Some r -> terminal (st_status r) ->
  exists r', campaigns (sys_world sys') !! id = Some r' /\ st_status r' = st_status r.
Proof.
  intros Hboot Hsteps Hr _.
  destruct (rtc_keeps_records (booted w) sys (SendersInv_booted w) Hboot) as [Hinv _].
  destruct (rtc_keeps_records sys sys' Hinv Hsteps) as [_ Hkeep].
  exists r. split; [apply Hkeep, Hr|reflexivity].
Qed.

End LifeCycle.

Section LifeCycleSamples.
Import JS EmailConfigModel PromotionalEmailModel PromotionalEmailController.

Lemma legacy_started_step : sys_step (booted legacyWorld) legacy_started.
Proof.
  apply (step_start (frozen nov2_later) nov2_later 1 sampleBody "10.0.0.1" sampleClock
           (booted legacyWorld) legacyStart.1.1 legacyStart.1.2 legacyBackground).
  vm_compute. reflexivity.
Qed.

Lemma senderStep_step (sys : System) (recipients : list Student) (s : Sender) :
  sys_senders sys !! 1%nat = Some (recipients, s) -> sys_step sys (senderStep sys).
Proof.
  intros H. unfold senderStep. rewrite H.
  apply (step_sender 1 deliverAll sampleClock recipients s); [exact H|].
  destruct (step _ _ _ _ _); reflexivity.
Qed.

Lemma cancelAsked_step (id : nat) (sys : System) : sys_step sys (cancelAsked id sys).
Proof.
  apply (step_cancel nov2_later id sys
           (cancelPromotionalEmail nov2_later id (campaigns (sys_world sys))).1).
  destruct (cancelPromotionalEmail _ _ _); reflexivity.
Qed.

(** The record of a finished campaign is in the collection when campaign 1
    is started; the sender of campaign 1 runs, and somebody asks to cancel
    the finished campaign. *)
Lemma terminal_status_is_final_witness :
  (st_status <$> campaigns (sys_world legacy_started) !! 7%nat) = Some "completed" /\
  exists r',
    campaigns (sys_world (cancelAsked 7 (senderStep legacy_started))) !! 7%nat = Some r' /\
    st_status r' = "completed".
Proof.
  split; [vm_compute; reflexivity|].
  apply (terminal_status_is_final legacyWorld legacy_started
           (cancelAsked 7 (senderStep legacy_started)) 7 completedCampaign).
  - apply rtc_once, legacy_started_step.
  - eapply rtc_l; [|apply rtc_once, cancelAsked_step].
    eapply senderStep_step. vm_compute. reflexivity.
  - vm_compute. reflexivity.
  - left. reflexivity.
Defined.

End LifeCycleSamples.

Section StoredFields.
Import JS EmailConfigModel PromotionalEmailModel PromotionalEmailController.

Variable deliver : nat -> Student -> Completion EmailServiceUtil.SendResult.
Variable clock : nat -> Date.

(** C6 fails on the code.  For every accepted request there is at least one
    recipient, but the record of the campaign carries neither
    [totalRecipients] nor [progress]: the schema declares neither path, so
    [create] drops the one and the assignment to the other stays on the
    sender's own document.  Read back with [findById], both are
    [undefined], when the campaign has been created and when its sender has
    ended; and the counters stored are 0 then as before, whatever has been
    sent. *)
Theorem campaign_progress_not_as_specified (clk : ResetClock) (now : Date)
  (newId : nat) (body : Body) (ip : string) (w w' : World) (response : Response)
  (bg : Background) :
  sendPromotionalEmail clk now newId body ip w = (response, w', Some bg) ->
  let n := Z.of_nat (length (bg_students bg)) in
  let '(s, campaigns') :=
    sendEmailsInBackground deliver clock (bg_students bg) (bg_promotionalEmail bg)
                           (campaigns w') in
  response = Started newId n (ceil_div (n * 2) 60) /\
  1 <= n /\
  (totalRecipients <$> findById newId (campaigns w')) = Some None /\
  (progress <$> findById newId (campaigns w')) = Some None /\
  finished s = true /\
  (totalRecipients <$> findById newId campaigns') = Some None /\
  (progress <$> findById newId campaigns') = Some None /\
  (st_sentCount <$> campaigns' !! newId) = Some 0 /\
  (st_failedCount <$> campaigns' !! newId) = Some 0.
Proof.
  intros Hstart.
  pose proof (sendPromotionalEmail_campaigns clk now newId body ip w) as H.
  rewrite Hstart in H. cbv zeta in H.
  destruct H as (Hresponse & Hne & _ & r & Hw' & _ & Hsent & Hfailed & Hdoc).
  pose proof (sendEmailsInBackground_spec deliver clock (bg_students bg)
                (bg_promotionalEmail bg) (campaigns w') Hne) as Hrun.
  cbv zeta in *.
  destruct (sendEmailsInBackground deliver clock (bg_students bg)
              (bg_promotionalEmail bg) (campaigns w')) as [s campaigns'].
  cbn [fst snd] in Hrun. destruct Hrun as (Hfin & _ & -> & _).
  unfold findById. rewrite Hw', lookup_insert_eq.
  cbn [fmap option_fmap option_map hydrate totalRecipients progress].
  rewrite Hsent, Hfailed.
  split_and!; try reflexivity; try assumption.
  destruct (bg_students bg); [congruence|cbn [length]; lia].
Qed.

End StoredFields.

Section StoredFieldsSamples.
Import JS EmailConfigModel PromotionalEmailModel PromotionalEmailController.

(** One student, one mail accepted: the sender has computed 100 % on its
    own document, and the record has no progress. *)
Lemma campaign_progress_not_as_specified_witness :
  let '(s, campaigns') :=
    sendEmailsInBackground deliverAll sampleClock (bg_students sampleBackground)
      (bg_promotionalEmail sampleBackground) (campaigns sampleStart.1.2) in
  sampleStart.1.1 = Started 1 1 1 /\
  progress (promotionalEmail s) = Some 100 /\
  local_sentCount s = 1 /\
  (progress <$> findById 1 campaigns') = Some None /\
  (totalRecipients <$> findById 1 campaigns') = Some None /\
  (st_sentCount <$> campaigns' !! 1%nat) = Some 0.
Proof.
  pose proof (campaign_progress_not_as_specified deliverAll sampleClock
                (frozen nov2_later) nov2_later 1 sampleBody "10.0.0.1" sampleWorld
                sampleStart.1.2 sampleStart.1.1 sampleBackground
                ltac:(vm_compute; reflexivity)) as H.
  cbv zeta in H.
  destruct (sendEmailsInBackground deliverAll sampleClock (bg_students sampleBackground)
              (bg_promotionalEmail sampleBackground) (campaigns sampleStart.1.2))
    as [s campaigns'] eqn:Hrun.
  destruct H as (Hresponse & _ & _ & _ & _ & Htotal & Hprogress & Hsent & _).
  split_and!; try assumption.
  - vm_compute in Hrun. injection Hrun as <- _. reflexivity.
  - vm_compute in Hrun. injection Hrun as <- _. reflexivity.
Defined.

End StoredFieldsSamples.

(** * Further properties *)

(** ** The counters of the configuration over a history of attempts *)

Section AttemptFacts.
Import EmailConfigModel.

Lemma recordAttempt_counters (c : EmailConfig) (a : Attempt) :
  let c' := recordAttempt c a in
  totalEmailsSent c' = totalEmailsSent c + (if isSent a then 1 else 0) /\
  emailsSentToday c' = emailsSentToday c + (if isSent a then 1 else 0) /\
  monthlyEmailsSent c' = monthlyEmailsSent c + (if isSent a then 1 else 0) /\
  totalEmailsFailed c' = totalEmailsFailed c + (if isSent a then 0 else 1) /\
  errorCount c' = errorCount c + (if isSent a then 0 else 1) /\
  consecutiveFailures c' = (if isSent a then 0 else consecutiveFailures c + 1).
Proof.
  destruct a as [now t|now m]; cbn [recordAttempt isSent].
  - unfold recordSuccessfulSend. destruct (JS.truthy t); destruct c; cbn;
      repeat split; lia.
  - destruct c; cbn; repeat split; lia.
Qed.

(** X1.  Over any history of attempts the lifetime, daily and monthly counters
    grow by the number of successes, the failure counters by the number of
    failures, and [consecutiveFailures] ends as the number of failures
    since the last success (on top of its old value if there was no
    success at all). *)
Theorem recordAll_counts (attempts : list Attempt) (c : EmailConfig) :
  let c' := recordAll attempts c in
  totalEmailsSent c' = totalEmailsSent c + successes attempts /\
  emailsSentToday c' = emailsSentToday c + successes attempts /\
  monthlyEmailsSent c' = monthlyEmailsSent c + successes attempts /\
  totalEmailsFailed c' = totalEmailsFailed c + failures attempts /\
  errorCount c' = errorCount c + failures attempts /\
  consecutiveFailures c' =
    (if existsb isSent attempts then 0 else consecutiveFailures c)
    + failuresSinceLastSuccess attempts.
Proof.
  cbv zeta. unfold recordAll, successes, failures, failuresSinceLastSuccess.
  induction attempts as [|a attempts IH] using rev_ind.
  - cbn. repeat split; lia.
  - rewrite fold_left_app. cbn [fold_left].
    pose proof (recordAttempt_counters (fold_left recordAttempt attempts c) a) as H.
    cbv zeta in H. destruct H as (H1 & H2 & H3 & H4 & H5 & H6).
    destruct IH as (I1 & I2 & I3 & I4 & I5 & I6).
    rewrite H1, H2, H3, H4, H5, H6, I1, I2, I3, I4, I5, I6.
    rewrite !List.filter_app, !length_app, existsb_app, rev_app_distr.
    cbn [List.filter rev app PromotionalEmailController.takeWhile existsb].
    destruct (isSent a); cbn [negb length orb].
    + rewrite orb_true_r. repeat split; lia.
    + rewrite orb_false_r. repeat split; lia.
Qed.

Lemma recordSuccessfulSend_average (now : Date) (t : Z) (c : EmailConfig) :
  let n := totalEmailsSent c + 1 + totalEmailsFailed c in
  averageSendTime (recordSuccessfulSend now t c) =
    (if t =? 0 then averageSendTime c
     else JS.round_div (averageSendTime c * (n - 1) + t) n).
Proof.
  unfold recordSuccessfulSend, JS.truthy.
  destruct c. destruct (t =? 0); reflexivity.
Qed.

(** X2.  After a success the running mean of the send times lies between the old
    mean and the time of the new send. *)
Theorem recordSuccessfulSend_average_between (now : Date) (t : Z) (c : EmailConfig) :
  0 <= totalEmailsSent c -> 0 <= totalEmailsFailed c ->
  let c' := recordSuccessfulSend now t c in
  Z.min (averageSendTime c) t <= averageSendTime c' <= Z.max (averageSendTime c) t.
Proof.
  intros Hsent Hfailed. cbv zeta.
  rewrite recordSuccessfulSend_average. cbv zeta.
  destruct (t =? 0) eqn:Ht; [lia|].
  set (n := totalEmailsSent c + 1 + totalEmailsFailed c).
  set (a := averageSendTime c).
  assert (0 < n) as Hpos by (subst n; lia).
  split.
  - rewrite <- (round_div_exact (Z.min a t) n) by lia.
    unfold JS.round_div. apply Z.div_le_mono; [lia|]. nia.
  - rewrite <- (round_div_exact (Z.max a t) n) by lia.
    unfold JS.round_div. apply Z.div_le_mono; [lia|]. nia.
Qed.

Lemma recordSuccessfulSend_average_between_witness :
  100 <= averageSendTime (recordSuccessfulSend nov2 120 sampleConfig) <= 120.
Proof.
  apply (recordSuccessfulSend_average_between nov2 120 sampleConfig);
    vm_compute; discriminate.
Defined.

End AttemptFacts.

(** ** The transporter *)

Section TransporterFacts.
Import JS EmailConfigModel EmailServiceUtil.

Lemma resetDailyCounterIfNeeded_keeps (clk : ResetClock) (c : EmailConfig) :
  let c' := resetDailyCounterIfNeeded clk c in
  service c' = service c /\ email c' = email c /\ appPassword c' = appPassword c /\
  fromName c' = fromName c /\
  lastUsedIP c' = lastUsedIP c /\
  suspiciousActivityCount c' = suspiciousActivityCount c /\
  totalEmailsSent c' = totalEmailsSent c /\ totalEmailsFailed c' = totalEmailsFailed c /\
  successRate c' = successRate c /\ consecutiveFailures c' = consecutiveFailures c.
Proof.
  unfold resetDailyCounterIfNeeded. destruct c; simpl.
  repeat case_bool_decide; simpl; repeat split; reflexivity.
Qed.

Lemma visited_fields (clk : InitClock) (ip : string) (config : EmailConfig) :
  let checked := resetDailyCounterIfNeeded (ic_reset clk) config in
  let c' := visited clk ip config in
  _id c' = _id config /\ isActive c' = isActive config /\
  dailyLimit c' = dailyLimit config /\
  service c' = service config /\ email c' = email config /\
  appPassword c' = appPassword config /\ fromName c' = fromName config /\
  emailsSentToday c' = emailsSentToday checked /\
  lastUsedIP c' = Some ip /\
  suspiciousActivityCount c' =
    suspiciousActivityCount config + (if addressChanged ip config then 1 else 0) /\
  successRate c' = successRate config /\
  consecutiveFailures c' = consecutiveFailures config.
Proof.
  cbv zeta. unfold visited.
  destruct (resetDailyCounterIfNeeded_fields (ic_reset clk) config)
    as (Hid & Hact & Hlim & _).
  destruct (resetDailyCounterIfNeeded_keeps (ic_reset clk) config)
    as (Hs & He & Hp & Hn & Hip & Hsus & _ & _ & Hrate & Hcons).
  assert (addressChanged ip (resetDailyCounterIfNeeded (ic_reset clk) config)
          = addressChanged ip config) as ->.
  { unfold addressChanged. rewrite Hip. reflexivity. }
  destruct (resetDailyCounterIfNeeded (ic_reset clk) config) as [].
  cbn in *. subst.
  destruct (addressChanged ip config); cbn; repeat split; lia.
Qed.

(** What [initializeTransporter] does when there is an active
    configuration. *)
Lemma initializeTransporter_active (clk : InitClock) (ip : string)
  (configs : list EmailConfig) (this : EmailService) (config : EmailConfig) :
  findOneActive configs = Some config ->
  let c' := visited clk ip config in
  let configs' := written clk ip config configs in
  findOneActive configs' = Some c' /\
  initializeTransporter clk ip configs this =
    if dailyLimit c' <=? emailsSentToday c'
    then (configs', this, Some (limitMessage c'))
    else (configs',
          mkEmailService
            (Some (mkTransporter (service c') (email c') (appPassword c')))
            (Some c') (performanceMetrics this),
          None).
Proof.
  intros Hfind c' configs'. unfold configs', written.
  set (checked := resetDailyCounterIfNeeded (ic_reset clk) config).
  assert (isActive config = true) as Hact.
  { unfold findOneActive in Hfind. apply find_some in Hfind. apply Hfind. }
  destruct (resetDailyCounterIfNeeded_fields (ic_reset clk) config)
    as (Hid & Hact' & _).
  destruct (visited_fields clk ip config) as (Hid' & Hact'' & _).
  split.
  - apply (findOneActive_save _ checked).
    + apply (findOneActive_save _ config); [exact Hfind|exact Hid|].
      unfold checked. rewrite Hact'. exact Hact.
    + unfold c', checked. rewrite Hid', Hid. reflexivity.
    + unfold c'. rewrite Hact''. exact Hact.
  - unfold initializeTransporter. rewrite Hfind. fold checked.
    unfold c', visited, addressChanged, limitMessage. fold checked.
    destruct (lastUsedIP checked) as [old|];
      [destruct (nonEmpty ip && nonEmpty old && negb (String.eqb old ip))|];
      reflexivity.
Qed.

(** X3.  [initializeTransporter] succeeds exactly when there is an active
    configuration whose daily counter, after the reset check, is below its
    limit.  It then builds the transporter from the credentials of that
    configuration and keeps as [currentConfig] the very document it has
    written to the collection, with the caller's address in [lastUsedIP]
    and a counter below the limit; the session metrics are not touched. *)
Theorem initializeTransporter_succeeds_iff (clk : InitClock) (ip : string)
  (configs : list EmailConfig) (this : EmailService) :
  let '(configs', this', thrown) := initializeTransporter clk ip configs this in
  (thrown = None <->
   exists config,
     findOneActive configs = Some config /\
     emailsSentToday (resetDailyCounterIfNeeded (ic_reset clk) config)
       < dailyLimit config) /\
  (thrown = None ->
   exists c',
     findOneActive configs' = Some c' /\
     currentConfig this' = Some c' /\
     transporter this'
       = Some (mkTransporter (service c') (email c') (appPassword c')) /\
     performanceMetrics this' = performanceMetrics this /\
     emailsSentToday c' < dailyLimit c' /\
     lastUsedIP c' = Some ip).
Proof.
  destruct (findOneActive configs) as [config|] eqn:Hfind.
  - destruct (initializeTransporter_active clk ip configs this config Hfind)
      as (Hfind' & ->).
    destruct (visited_fields clk ip config)
      as (_ & _ & Hlim & _ & _ & _ & _ & Hsent & Hip & _).
    cbv zeta in *.
    destruct (Z.leb_spec (dailyLimit (visited clk ip config))
                         (emailsSentToday (visited clk ip config))) as [Hle|Hlt].
    + split; [split|]; try discriminate.
      intros (config' & [= <-] & Hbelow). lia.
    + split; [split|].
      * intros _. exists config. split; [reflexivity|lia].
      * reflexivity.
      * intros _. exists (visited clk ip config). cbn. repeat split; assumption.
  - unfold initializeTransporter. rewrite Hfind.
    split; [split|]; try discriminate.
    intros (config & [=] & _).
Qed.

(** X4.  When [initializeTransporter] throws it leaves the service as it was:
    a transporter and a [currentConfig] set up earlier stay in place.
    Without an active configuration nothing is written; at the daily limit
    the reset check and the caller's address have been written to the
    collection before the error is thrown. *)
Theorem initializeTransporter_failure_keeps_service (clk : InitClock) (ip : string)
  (configs configs' : list EmailConfig) (this this' : EmailService) (message : string) :
  initializeTransporter clk ip configs this = (configs', this', Some message) ->
  this' = this /\
  match findOneActive configs with
  | None => configs' = configs /\ message = "No active email configuration found"
  | Some config =>
      findOneActive configs' = Some (visited clk ip config) /\
      message = limitMessage config /\
      dailyLimit config
        <= emailsSentToday (resetDailyCounterIfNeeded (ic_reset clk) config)
  end.
Proof.
  destruct (findOneActive configs) as [config|] eqn:Hfind.
  - destruct (initializeTransporter_active clk ip configs this config Hfind)
      as (Hfind' & ->).
    destruct (visited_fields clk ip config)
      as (_ & _ & Hlim & _ & _ & _ & _ & Hsent & _).
    cbv zeta in *.
    destruct (Z.leb_spec (dailyLimit (visited clk ip config))
                         (emailsSentToday (visited clk ip config))) as [Hle|Hlt];
      [|discriminate].
    intros [= <- <- <-]. split; [reflexivity|]. split; [exact Hfind'|].
    split; [|lia]. unfold limitMessage. rewrite Hlim. reflexivity.
  - unfold initializeTransporter. rewrite Hfind. intros [= <- <- <-].
    repeat split; reflexivity.
Qed.

End TransporterFacts.

Section TransporterSamples.
Import JS EmailConfigModel EmailServiceUtil.

(** The limit was reached on 2 November; a call later that day throws and
    the transporter set up in the morning stays. *)
Lemma initializeTransporter_failure_keeps_service_witness :
  let today := set_lastResetDate nov2 exhaustedConfig in
  exists configs',
    initializeTransporter (mkInitClock (frozen nov2_later) nov2_later) "10.0.0.1"
                          [today] sampleService
      = (configs', sampleService, Some "Daily email limit reached (500)") /\
    findOneActive configs' = Some (set_lastUsedIP (Some "10.0.0.1") today).
Proof.
  cbv zeta.
  destruct (initializeTransporter (mkInitClock (frozen nov2_later) nov2_later) "10.0.0.1"
              [set_lastResetDate nov2 exhaustedConfig] sampleService)
    as [[configs' this'] thrown] eqn:Hrun.
  assert (thrown = Some "Daily email limit reached (500)") as ->.
  { vm_compute in Hrun. injection Hrun as _ _ <-. reflexivity. }
  destruct (initializeTransporter_failure_keeps_service _ _ _ _ _ _ _ Hrun)
    as (-> & Hfind & _).
  exists configs'. split; [reflexivity|]. exact Hfind.
Defined.

End TransporterSamples.

Section AddressFacts.
Import JS EmailConfigModel EmailServiceUtil.

Lemma addressChanged_same (ip : string) (c : EmailConfig) :
  lastUsedIP c = Some ip -> addressChanged ip c = false.
Proof.
  intros H. unfold addressChanged. rewrite H, String.eqb_refl.
  destruct (nonEmpty ip); reflexivity.
Qed.

(** X5.  A call of [initializeTransporter] records the caller's address, and
    counts one suspicious activity exactly when the address recorded before
    was another one (both being non-empty).  A second call from the same
    address therefore never adds to [suspiciousActivityCount], whatever
    the clock and whether or not either call ends in the daily-limit error. *)
Theorem initializeTransporter_same_address_once (clk1 clk2 : InitClock) (ip : string)
  (configs : list EmailConfig) (this : EmailService) (config : EmailConfig) :
  findOneActive configs = Some config ->
  let '(configs1, this1, _) := initializeTransporter clk1 ip configs this in
  let '(configs2, _, _) := initializeTransporter clk2 ip configs1 this1 in
  exists c1 c2,
    findOneActive configs1 = Some c1 /\ findOneActive configs2 = Some c2 /\
    lastUsedIP c1 = Some ip /\ lastUsedIP c2 = Some ip /\
    suspiciousActivityCount c1 =
      suspiciousActivityCount config + (if addressChanged ip config then 1 else 0) /\
    suspiciousActivityCount c2 = suspiciousActivityCount c1.
Proof.
  intros Hfind.
  destruct (initializeTransporter_active clk1 ip configs this config Hfind)
    as (Hfind1 & Hrun1).
  set (configs1 := written clk1 ip config configs) in *.
  destruct (initializeTransporter clk1 ip configs this) as [[configs1' this1] thrown1].
  assert (configs1' = configs1) as ->.
  { cbv zeta in Hrun1.
    destruct (dailyLimit (visited clk1 ip config) <=?
              emailsSentToday (visited clk1 ip config));
      injection Hrun1 as -> _ _; reflexivity. }
  destruct (initializeTransporter_active clk2 ip configs1 this1 _ Hfind1)
    as (Hfind2 & Hrun2).
  set (configs2 := written clk2 ip (visited clk1 ip config) configs1) in *.
  destruct (initializeTransporter clk2 ip configs1 this1) as [[configs2' this2] thrown2].
  assert (configs2' = configs2) as ->.
  { cbv zeta in Hrun2.
    destruct (dailyLimit (visited clk2 ip (visited clk1 ip config)) <=?
              emailsSentToday (visited clk2 ip (visited clk1 ip config)));
      injection Hrun2 as -> _ _; reflexivity. }
  destruct (visited_fields clk1 ip config)
    as (_ & _ & _ & _ & _ & _ & _ & _ & Hip1 & Hsus1 & _).
  destruct (visited_fields clk2 ip (visited clk1 ip config))
    as (_ & _ & _ & _ & _ & _ & _ & _ & Hip2 & Hsus2 & _).
  cbv zeta in *.
  exists (visited clk1 ip config), (visited clk2 ip (visited clk1 ip config)).
  split_and!; try assumption.
  rewrite Hsus2, (addressChanged_same ip _ Hip1). lia.
Qed.

End AddressFacts.

Section AddressSamples.
Import JS EmailConfigModel EmailServiceUtil.

(** The configuration was last used from 10.0.0.1; two calls come in from
    10.0.0.2. *)
Lemma initializeTransporter_same_address_once_witness :
  let config := set_lastUsedIP (Some "10.0.0.1") sampleConfig in
  let clk := mkInitClock (frozen nov2) nov2 in
  let '(configs1, this1, _) := initializeTransporter clk "10.0.0.2" [config] constructor in
  let '(configs2, _, _) := initializeTransporter clk "10.0.0.2" configs1 this1 in
  exists c1 c2,
    findOneActive configs1 = Some c1 /\ findOneActive configs2 = Some c2 /\
    suspiciousActivityCount c1 = 1 /\ suspiciousActivityCount c2 = 1.
Proof.
  cbv zeta.
  pose proof (initializeTransporter_same_address_once
                (mkInitClock (frozen nov2) nov2) (mkInitClock (frozen nov2) nov2)
                "10.0.0.2" [set_lastUsedIP (Some "10.0.0.1") sampleConfig]
                constructor (set_lastUsedIP (Some "10.0.0.1") sampleConfig)
                eq_refl) as H.
  destruct (initializeTransporter (mkInitClock (frozen nov2) nov2) "10.0.0.2"
              [set_lastUsedIP (Some "10.0.0.1") sampleConfig] constructor)
    as [[configs1 this1] thrown1].
  destruct (initializeTransporter (mkInitClock (frozen nov2) nov2) "10.0.0.2"
              configs1 this1) as [[configs2 this2] thrown2].
  destruct H as (c1 & c2 & H1 & H2 & _ & _ & Hs1 & Hs2).
  exists c1, c2.
  split; [exact H1|]. split; [exact H2|]. split; [exact Hs1|].
  rewrite Hs2. exact Hs1.
Defined.

End AddressSamples.

Section UninitialisedFacts.
Import JS EmailConfigModel EmailServiceUtil.

Variable sendMail : Transporter -> Mail -> SendMailOutcome.

(** X6.  Without a transporter [sendEmail] initialises one first, and with it
    goes through the reset check and the daily limit: at the limit the call
    is rejected with the limit error, nothing is handed to the transport,
    no counter moves, and the service stays without a transporter. *)
Theorem sendEmail_uninitialised_checks_limit (clk : SendClock)
  (to subject html ipAddress : string) (configs : list EmailConfig)
  (this : EmailService) (config : EmailConfig) :
  transporter this = None ->
  findOneActive configs = Some config ->
  dailyLimit config
    <= emailsSentToday (resetDailyCounterIfNeeded (ic_reset (sc_init clk)) config) ->
  exists configs',
    sendEmail sendMail clk to subject html ipAddress configs this
      = (configs', this, Thrown (limitMessage config)) /\
    findOneActive configs' = Some (visited (sc_init clk) ipAddress config) /\
    emailsSentToday (visited (sc_init clk) ipAddress config)
      = emailsSentToday (resetDailyCounterIfNeeded (ic_reset (sc_init clk)) config) /\
    totalEmailsSent (visited (sc_init clk) ipAddress config) = totalEmailsSent config /\
    totalEmailsFailed (visited (sc_init clk) ipAddress config) = totalEmailsFailed config.
Proof.
  intros Htr Hfind Hlimit.
  destruct (initializeTransporter_active (sc_init clk) ipAddress configs this config Hfind)
    as (Hfind' & Hrun).
  set (configs' := written (sc_init clk) ipAddress config configs) in *.
  destruct (visited_fields (sc_init clk) ipAddress config)
    as (_ & _ & Hlim & _ & _ & _ & _ & Hsent & _).
  cbv zeta in *.
  rewrite (proj2 (Z.leb_le _ _)) in Hrun by lia.
  exists configs'. split_and!; try assumption.
  - unfold sendEmail. rewrite Htr, Hrun. unfold limitMessage. rewrite Hlim. reflexivity.
  - unfold visited.
    destruct (resetDailyCounterIfNeeded_keeps (ic_reset (sc_init clk)) config)
      as (_ & _ & _ & _ & _ & _ & Ht & _).
    rewrite <- Ht.
    destruct (addressChanged ipAddress _);
      destruct (resetDailyCounterIfNeeded (ic_reset (sc_init clk)) config);
      reflexivity.
  - unfold visited.
    destruct (resetDailyCounterIfNeeded_keeps (ic_reset (sc_init clk)) config)
      as (_ & _ & _ & _ & _ & _ & _ & Hf & _).
    rewrite <- Hf.
    destruct (addressChanged ipAddress _);
      destruct (resetDailyCounterIfNeeded (ic_reset (sc_init clk)) config);
      reflexivity.
Qed.

(** X7.  Every call of [sendEmail] keeps the session counters consistent: one
    recorded send time per success. *)
Theorem sendEmail_keeps_session (clk : SendClock)
  (to subject html ipAddress : string) (configs : list EmailConfig)
  (this : EmailService) :
  SessionInv (performanceMetrics this) ->
  SessionInv (performanceMetrics
                (sendEmail sendMail clk to subject html ipAddress configs this).1.2).
Proof.
  intros [Hlen Herr]. unfold sendEmail, SessionInv.
  destruct (transporter this) as [tr|] eqn:Htr.
  - cbn beta iota. rewrite Htr.
    destruct (currentConfig this) as [config|]; [|cbn; split; assumption].
    destruct (sendMail tr _); cbn; rewrite ?length_app; cbn; split; lia.
  - destruct (initializeTransporter (sc_init clk) ipAddress configs this)
      as [[configs' this'] thrown] eqn:Hrun.
    assert (performanceMetrics this' = performanceMetrics this) as Hpm.
    { unfold initializeTransporter in Hrun.
      destruct (findOneActive configs); [|injection Hrun as _ <- _; reflexivity].
      destruct (dailyLimit _ <=? emailsSentToday _);
        injection Hrun as _ <- _; reflexivity. }
    destruct thrown as [message|]; [cbn; rewrite Hpm; split; assumption|].
    destruct (transporter this') as [tr|], (currentConfig this') as [config|];
      try (cbn; rewrite Hpm; split; assumption).
    destruct (sendMail tr _); cbn; rewrite Hpm, ?length_app; cbn; split; lia.
Qed.

End UninitialisedFacts.

Section UninitialisedSamples.
Import JS EmailConfigModel EmailServiceUtil.

(** The limit of 500 was reached today and the service has just been
    restarted. *)
Lemma sendEmail_uninitialised_checks_limit_witness :
  exists configs',
    sendEmail acceptAll sampleSendClock "student@example.org" "Hello" "<p>Hello</p>"
              "10.0.0.1" [set_lastResetDate nov2 exhaustedConfig] constructor
      = (configs', constructor, Thrown "Daily email limit reached (500)").
Proof.
  destruct (sendEmail_uninitialised_checks_limit acceptAll sampleSendClock
              "student@example.org" "Hello" "<p>Hello</p>" "10.0.0.1"
              [set_lastResetDate nov2 exhaustedConfig] constructor
              (set_lastResetDate nov2 exhaustedConfig) eq_refl eq_refl
              ltac:(vm_compute; discriminate))
    as (configs' & Hrun & _).
  exists configs'. exact Hrun.
Defined.

Lemma sendEmail_keeps_session_witness :
  SessionInv (performanceMetrics
                (sendEmail acceptAll sampleSendClock "student@example.org" "Hello"
                           "<p>Hello</p>" "10.0.0.1" [sampleConfig] constructor).1.2).
Proof.
  apply sendEmail_keeps_session. split; [reflexivity|]. cbn. lia.
Defined.

End UninitialisedSamples.

(** ** The middleware in front of the campaign routes *)

Section MiddlewareFacts.
Import JS EmailConfigModel EmailServiceUtil EmailServiceReports EmailMiddleware.

(** X8.  A request passes [checkEmailConfig, checkEmailLimit] exactly when
    [initializeTransporter] succeeds; it then finds the service holding the
    stored configuration with mails left for the day.  Every other request
    is refused by [checkEmailConfig] with the message that the service is
    not configured, be it for want of an active configuration or because
    the daily limit is reached: run behind [checkEmailConfig],
    [checkEmailLimit] never refuses. *)
Theorem sendGuards_outcome (clk1 clk2 : InitClock) (clientIP : option string)
  (configs : list EmailConfig) (this : EmailService) :
  let '(configs', this', passage) := sendGuards clk1 clk2 clientIP configs this in
  (passage = next /\
   exists c,
     findOneActive configs' = Some c /\ currentConfig this' = Some c /\
     emailsSentToday c < dailyLimit c)
  \/
  (passage = notConfigured /\ this' = this /\
   (findOneActive configs = None \/
    exists config,
      findOneActive configs = Some config /\
      dailyLimit config
        <= emailsSentToday (resetDailyCounterIfNeeded (ic_reset clk1) config))).
Proof.
  unfold sendGuards, checkEmailConfig.
  destruct (findOneActive configs) as [config|] eqn:Hfind.
  - destruct (initializeTransporter_active clk1 (default "unknown" clientIP)
                configs this config Hfind) as (Hfind1 & ->).
    destruct (visited_fields clk1 (default "unknown" clientIP) config)
      as (_ & _ & Hlim & _ & _ & _ & _ & Hsent & _).
    cbv zeta in *.
    set (c := visited clk1 (default "unknown" clientIP) config) in *.
    destruct (Z.leb_spec (dailyLimit c) (emailsSentToday c)) as [Hle|Hlt].
    + right. split; [reflexivity|]. split; [reflexivity|].
      right. exists config. split; [reflexivity|lia].
    + unfold checkEmailLimit, getEmailStats. cbn.
      destruct (Z.leb_spec (dailyLimit c - emailsSentToday c) 0) as [Hle'|_]; [lia|].
      left. split; [reflexivity|]. exists c. repeat split; assumption.
  - unfold initializeTransporter. rewrite Hfind.
    right. split; [reflexivity|]. split; [reflexivity|]. left. reflexivity.
Qed.

End MiddlewareFacts.

(** ** The two address checks *)

Section AddressShapeFacts.
Import JS PromotionalEmailController EmailMiddleware StudentModel.



Lemma in_removelast_split {A} (x : A) (l : list A) :
  In x (removelast l) -> exists pre post, l = pre ++ x :: post /\ post <> [].
Proof.
  induction l as [|y l IH]; cbn; [contradiction|].
  destruct l as [|z l]; [contradiction|].
  intros [->|Hin].
  - exists [], (z :: l). split; [reflexivity|discriminate].
  - destruct (IH Hin) as (pre & post & -> & Hpost).
    exists (y :: pre), post. split; [reflexivity|exact Hpost].
Qed.






Lemma chars_concat (l : list Ascii.ascii) : concat (chars l) = l.
Proof.
  induction l as [|b l IH]; [reflexivity|].
  cbn [chars]. destruct (chars l) as [|[|b' ch] rest].
  - cbn in *. rewrite <- IH. reflexivity.
  - cbn in *. rewrite <- IH. reflexivity.
  - destruct (continuation b'); cbn in *; rewrite <- IH; reflexivity.
Qed.

Lemma span_spec (p : list Ascii.ascii -> bool) (l : list (list Ascii.ascii)) :
  l = (span p l).1 ++ (span p l).2 /\
  forallb p (span p l).1 = true /\
  match (span p l).2 with x :: _ => p x = false | [] => True end.
Proof.
  induction l as [|x l IH]; cbn [span]; [repeat split|].
  destruct (p x) eqn:Hx; [|cbn; repeat split; exact Hx].
  destruct (span p l) as [run rest]. cbn [fst snd] in *.
  destruct IH as (H1 & H2 & H3). cbn. rewrite Hx, H2.
  repeat split; [f_equal; exact H1|exact H3].
Qed.

Lemma span_all (p : list Ascii.ascii -> bool) (l l' : list (list Ascii.ascii)) :
  forallb p l = true ->
  match l' with x :: _ => p x = false | [] => True end ->
  span p (l ++ l') = (l, l').
Proof.
  intros Hl Hl'. induction l as [|x l IH]; cbn in *.
  - destruct l' as [|y l']; [reflexivity|]. cbn. rewrite Hl'. reflexivity.
  - apply andb_prop in Hl as [Hx Hl]. rewrite Hx, (IH Hl). reflexivity.
Qed.

Lemma isChar_eq (c : Ascii.ascii) (ch : list Ascii.ascii) :
  isChar c ch = true <-> ch = [c].
Proof. unfold isChar. apply bool_decide_eq_true. Qed.

Lemma dotBetween_split (l : list (list Ascii.ascii)) :
  dotBetween l = true <->
  exists domain last, l = domain ++ ["."%char] :: last /\ domain <> [] /\ last <> [].
Proof.
  unfold dotBetween. split.
  - destruct l as [|c tl]; [discriminate|].
    intros H. apply existsb_exists in H as (x & Hin & Hx).
    apply isChar_eq in Hx as ->.
    apply in_removelast_split in Hin as (pre & post & -> & Hpost).
    exists (c :: pre), post. repeat split; [discriminate|exact Hpost].
  - intros (domain & last & -> & Hd & Hl).
    destruct domain as [|c domain]; [congruence|]. cbn [app].
    apply existsb_exists. exists ["."%char]. split; [|reflexivity].
    rewrite removelast_app by discriminate.
    apply in_or_app. right.
    destruct last as [|y last]; [congruence|]. left. reflexivity.
Qed.

Lemma plainChar_noSpace (l : list (list Ascii.ascii)) :
  forallb plainChar l = true ->
  forallb (fun ch => negb (isWhiteSpace ch)) l = true.
Proof.
  induction l as [|c l IH]; cbn; [reflexivity|].
  intros H. apply andb_prop in H as [Hc Hl].
  rewrite (IH Hl), andb_true_r. unfold plainChar in Hc.
  apply andb_prop in Hc as [Hc _]. exact Hc.
Qed.

Lemma plainChar_not_at (l : list (list Ascii.ascii)) :
  forallb plainChar l = true ->
  forallb (fun ch => negb (isChar "@" ch)) l = true.
Proof.
  induction l as [|c l IH]; cbn; [reflexivity|].
  intros H. apply andb_prop in H as [Hc Hl].
  rewrite (IH Hl), andb_true_r. unfold plainChar in Hc.
  apply andb_prop in Hc as [_ Hc]. exact Hc.
Qed.

Lemma plainChar_no_at (l : list (list Ascii.ascii)) :
  forallb plainChar l = true -> List.filter (isChar "@") l = [].
Proof.
  induction l as [|c l IH]; cbn [forallb List.filter]; [reflexivity|].
  intros H. apply andb_prop in H as [Hc Hl]. rewrite (IH Hl).
  unfold plainChar in Hc. apply andb_prop in Hc as [_ Hc].
  apply negb_true_iff in Hc. rewrite Hc. reflexivity.
Qed.

Lemma emailRegex_shaped (s : string) :
  emailRegex s = true <-> AddressShaped (chars (String.list_ascii_of_string s)).
Proof.
  unfold emailRegex, AddressShaped.
  set (l := chars (String.list_ascii_of_string s)).
  set (p := fun ch => negb (isChar "@" ch)).
  split.
  - destruct (span_spec p l) as (Hl & _ & Hhead).
    destruct (span p l) as [localPart rest]. cbn [fst snd] in *.
    destruct rest as [|x domain]; [discriminate|].
    intros H. apply andb_prop in H as [H Hdot].
    apply andb_prop in H as [H Hdomain]. apply andb_prop in H as [Hne Hlocal].
    apply dotBetween_split in Hdot as (d & last & -> & Hd & Hlast).
    rewrite forallb_app in Hdomain. apply andb_prop in Hdomain as [Hd' Hlast'].
    cbn [forallb] in Hlast'. apply andb_prop in Hlast' as [_ Hlast'].
    exists localPart, d, last.
    assert (x = ["@"%char]) as ->.
    { unfold p in Hhead. apply negb_false_iff, isChar_eq in Hhead. exact Hhead. }
    split_and!; try assumption.
    destruct localPart; [discriminate|discriminate].
  - intros (localPart & domain & last & Hl & Hne & Hd & Hlast & Hp1 & Hp2 & Hp3).
    rewrite Hl.
    rewrite (span_all p localPart) by
      (first [apply plainChar_not_at; exact Hp1 | reflexivity]).
    rewrite Hp1, forallb_app. cbn [forallb]. rewrite Hp2, Hp3.
    replace (dotBetween (domain ++ ["."%char] :: last)) with true
      by (symmetry; apply dotBetween_split; exists domain, last; repeat split; assumption).
    destruct localPart; [congruence|]. reflexivity.
Qed.

(** X9.  [isValidEmail] accepts exactly the texts made of a local part, an
    [@], a domain, a dot and a last part, where the three parts are not
    empty and hold neither white space nor an [@], white space being that of
    JavaScript: a no-break space or a line separator counts.  An accepted
    address therefore holds exactly one [@] and no white space at all. *)
Theorem isValidEmail_shape (email : string) :
  let l := chars (String.list_ascii_of_string email) in
  (isValidEmail email = true <-> AddressShaped l) /\
  (AddressShaped l ->
   length (List.filter (isChar "@") l) = 1%nat /\
   forallb (fun ch => negb (isWhiteSpace ch)) l = true) /\
  isValidEmail ("a" +:+ nbsp +:+ "b@c.d") = false /\
  isValidEmail ("a@c.d" +:+ lineSeparator) = false /\
  isValidEmail "a@c.d" = true.
Proof.
  cbv zeta. split; [apply emailRegex_shaped|].
  split; [|repeat split; reflexivity].
  intros (localPart & domain & last & -> & _ & _ & _ & Hp1 & Hp2 & Hp3).
  split.
  - rewrite List.filter_app. cbn [List.filter].
    change (isChar "@" ["@"%char]) with true. cbn iota.
    rewrite List.filter_app. cbn [List.filter].
    change (isChar "@" ["."%char]) with false. cbn iota.
    rewrite !plainChar_no_at by assumption. reflexivity.
  - rewrite forallb_app. cbn [forallb]. rewrite forallb_app. cbn [forallb].
    rewrite !plainChar_noSpace by assumption. reflexivity.
Qed.





End AddressShapeFacts.

(** ** Starting a campaign *)

Section StartedFacts.
Import JS EmailConfigModel PromotionalEmailModel PromotionalEmailController.


(** What [sendPromotionalEmail] does once the pre-flight check has passed. *)
Lemma sendPromotionalEmail_past_check (clk : ResetClock) (now : Date) (newId : nat)
  (body : Body) (ip : string) (w : World) (emailConfig : EmailConfig) :
  bodyComplete body ->
  findOneActive (configs w) = Some emailConfig ->
  let found := List.filter hasValidEmail (students w) in
  let checked := resetDailyCounterIfNeeded clk emailConfig in
  found <> [] ->
  Z.of_nat (length found) <= dailyLimit checked - emailsSentToday checked ->
  sendPromotionalEmail clk now newId body ip w =
    let w1 := mkWorld (EmailConfigModel.save checked (configs w)) (students w)
                      (campaigns w) in
    if requiredMissing (requestedContent body)
    then (Status500 "Failed to send promotional email", w1, None)
    else
      match campaigns w !! newId with
      | Some _ => (Status500 "Failed to send promotional email", w1, None)
      | None =>
          (Started newId (Z.of_nat (length found))
                   (ceil_div (Z.of_nat (length found) * 2) 60),
           mkWorld (EmailConfigModel.save checked (configs w)) (students w)
                   (<[newId := freshCampaign body checked]> (campaigns w)),
           Some (mkBackground found (hydrate newId (freshCampaign body checked))
                              checked ip))
      end.
Proof.
  intros Hbody Hfind found checked Hfound Hquota.
  unfold sendPromotionalEmail. rewrite Hbody, Hfind.
  fold found. destruct found as [|s0 found'] eqn:Efound; [congruence|].
  cbn [length Nat.eqb]. fold checked. cbn [dailyLimit emailsSentToday].
  replace (dailyLimit checked - emailsSentToday checked
             <? Z.of_nat (S (length found'))) with false
    by (symmetry; apply Z.ltb_ge; exact Hquota).
  cbv zeta. unfold create. cbn [ci_content ci_status ci_configUsed campaigns].
  fold (requestedContent body).
  destruct (requiredMissing (requestedContent body)); [reflexivity|].
  cbn [negb]. fold (freshCampaign body checked).
  destruct (campaigns w !! newId); reflexivity.
Qed.

(** X11.  A body that passes the handler's check of the required fields, but
    with a required field that is empty once trimmed, is not answered with
    400: the handler goes through the reset check and the quota check,
    fails in [create], and answers 500.  No campaign is created and nothing
    is sent. *)
Theorem sendPromotionalEmail_blank_field (clk : ResetClock) (now : Date) (newId : nat)
  (body : Body) (ip : string) (w : World) (emailConfig : EmailConfig) :
  bodyComplete body ->
  findOneActive (configs w) = Some emailConfig ->
  let found := List.filter hasValidEmail (students w) in
  let checked := resetDailyCounterIfNeeded clk emailConfig in
  found <> [] ->
  Z.of_nat (length found) <= dailyLimit checked - emailsSentToday checked ->
  requiredMissing (requestedContent body) = true ->
  sendPromotionalEmail clk now newId body ip w =
    (Status500 "Failed to send promotional email",
     mkWorld (EmailConfigModel.save checked (configs w)) (students w) (campaigns w),
     None).
Proof.
  intros Hbody Hfind found checked Hfound Hquota Hblank.
  rewrite (sendPromotionalEmail_past_check clk now newId body ip w emailConfig)
    by assumption.
  cbv zeta. rewrite Hblank. reflexivity.
Qed.

(** X12.  An accepted request stores a campaign with status ['sending'] and
    both counters at 0 under the new id, its texts trimmed as JavaScript
    trims them, leaves the other campaigns alone, and hands the background
    sender exactly the students with a valid address, in the order of the
    collection.  The estimate it answers with is one minute per 30
    recipients, rounded up.  The number of recipients is not a path of the
    schema and is not stored; and the configuration keeps its counters:
    nothing is reserved for the campaign. *)
Theorem sendPromotionalEmail_started (clk : ResetClock) (now : Date) (newId : nat)
  (body : Body) (ip : string) (w : World) (emailConfig : EmailConfig) :
  bodyComplete body ->
  findOneActive (configs w) = Some emailConfig ->
  let found := List.filter hasValidEmail (students w) in
  let checked := resetDailyCounterIfNeeded clk emailConfig in
  found <> [] ->
  Z.of_nat (length found) <= dailyLimit checked - emailsSentToday checked ->
  requiredMissing (requestedContent body) = false ->
  campaigns w !! newId = None ->
  let '(response, w', background) := sendPromotionalEmail clk now newId body ip w in
  let n := Z.of_nat (length found) in
  response = Started newId n (ceil_div (n * 2) 60) /\
  30 * (ceil_div (n * 2) 60 - 1) < n <= 30 * ceil_div (n * 2) 60 /\
  campaigns w' = <[newId := freshCampaign body checked]> (campaigns w) /\
  (forall id, id <> newId -> campaigns w' !! id = campaigns w !! id) /\
  background
    = Some (mkBackground found (hydrate newId (freshCampaign body checked)) checked ip) /\
  totalRecipients (hydrate newId (freshCampaign body checked)) = None /\
  findOneActive (configs w') = Some checked /\
  emailsSentToday checked
    = (if bool_decide (toDateString (at_today clk) <> toDateString (lastResetDate emailConfig))
       then 0 else emailsSentToday emailConfig).
Proof.
  intros Hbody Hfind found checked Hfound Hquota Hfields Hfresh.
  rewrite (sendPromotionalEmail_past_check clk now newId body ip w emailConfig)
    by assumption.
  cbv zeta. rewrite Hfields, Hfresh.
  destruct (resetDailyCounterIfNeeded_fields clk emailConfig)
    as (Hid & Hact & _ & _ & He & _).
  split_and!; try reflexivity.
  - unfold ceil_div.
    pose proof (Z.div_mod (- (Z.of_nat (length found) * 2)) 60 ltac:(lia)).
    pose proof (Z.mod_pos_bound (- (Z.of_nat (length found) * 2)) 60 ltac:(lia)).
    lia.
  - unfold ceil_div.
    pose proof (Z.div_mod (- (Z.of_nat (length found) * 2)) 60 ltac:(lia)).
    pose proof (Z.mod_pos_bound (- (Z.of_nat (length found) * 2)) 60 ltac:(lia)).
    lia.
  - intros id Hid'. cbn [campaigns]. apply lookup_insert_ne. congruence.
  - cbn [configs]. apply (findOneActive_save _ emailConfig); [exact Hfind|exact Hid|].
    unfold checked. rewrite Hact. unfold findOneActive in Hfind.
    apply find_some in Hfind. apply Hfind.
  - exact He.
Qed.


End StartedFacts.

Section StartedSamples.
Import JS EmailConfigModel PromotionalEmailModel PromotionalEmailController.

(** One student, five mails left for the day, and a title of three
    blanks. *)
Lemma sendPromotionalEmail_blank_field_witness :
  (sendPromotionalEmail (frozen nov2_later) nov2_later 1 blankTitleBody "10.0.0.1"
                        sampleWorld).1.1
    = Status500 "Failed to send promotional email".
Proof.
  rewrite (sendPromotionalEmail_blank_field (frozen nov2_later) nov2_later 1
             blankTitleBody "10.0.0.1" sampleWorld almostExhausted);
    try reflexivity.
  - vm_compute. discriminate.
  - vm_compute. discriminate.
Defined.

Lemma sendPromotionalEmail_started_witness :
  (sendPromotionalEmail (frozen nov2_later) nov2_later 1 sampleBody "10.0.0.1"
                        sampleWorld).1.1
    = Started 1 1 1.
Proof.
  pose proof (sendPromotionalEmail_started (frozen nov2_later) nov2_later 1
                sampleBody "10.0.0.1" sampleWorld almostExhausted
                eq_refl eq_refl ltac:(vm_compute; discriminate)
                ltac:(vm_compute; discriminate) eq_refl eq_refl) as H.
  destruct (sendPromotionalEmail (frozen nov2_later) nov2_later 1 sampleBody
              "10.0.0.1" sampleWorld) as [[response w'] background].
  destruct H as (-> & _). reflexivity.
Defined.


End StartedSamples.

(** ** The campaign history *)

Section HistoryFacts.
Import JS PromotionalEmailModel EmailConfigController PromotionalEmailHistory.

Lemma ceil_div_bounds (a b : Z) :
  0 < b -> b * (ceil_div a b - 1) < a <= b * ceil_div a b.
Proof.
  intros Hb. unfold ceil_div.
  pose proof (Z.div_mod (- a) b ltac:(lia)).
  pose proof (Z.mod_pos_bound (- a) b Hb). lia.
Qed.

(** X14.  For a page number and a page size of at least 1 the handler answers
    with the page-th run of [limit] campaigns, without their logs.
    [totalPages] is the number of pages needed for all campaigns; [hasNext]
    is set exactly when the next page holds a campaign, [hasPrev] exactly
    when the page is not the first; and a page past the last one is
    empty. *)
Theorem getPromotionalEmails_pages (find : Z -> Z -> Completion (list Stored))
  (sorted : list Stored) (page limit : Z) :
  (forall skip limit', 0 <= skip -> 0 < limit' ->
     find skip limit' = pageFrom sorted skip limit') ->
  1 <= page -> 1 <= limit ->
  let total := Z.of_nat (length sorted) in
  let emails := take (Z.to_nat limit) (drop (Z.to_nat ((page - 1) * limit)) sorted) in
  exists pagination,
    getPromotionalEmails find (Resolved total) (Some page) (Some limit)
      = Json 200 (map withoutLogs emails, pagination) /\
    pg_page pagination = page /\ pg_limit pagination = limit /\
    pg_total pagination = total /\
    limit * (totalPages pagination - 1) < total <= limit * totalPages pagination /\
    (hasNext pagination = true <-> drop (Z.to_nat (page * limit)) sorted <> []) /\
    (hasPrev pagination = true <-> 1 < page) /\
    (totalPages pagination < page -> emails = []).
Proof.
  intros Hfind Hpage Hlimit total emails.
  pose proof (ceil_div_bounds total limit ltac:(lia)) as Hceil.
  eexists. split.
  { unfold getPromotionalEmails, orDefault.
    destruct (Z.eqb_spec page 0) as [|_]; [lia|].
    destruct (Z.eqb_spec limit 0) as [|_]; [lia|].
    rewrite Hfind by nia. unfold pageFrom. fold emails. reflexivity. }
  cbn [pg_page pg_limit pg_total totalPages hasNext hasPrev].
  split; [reflexivity|]. split; [reflexivity|]. split; [reflexivity|].
  split; [exact Hceil|]. split; [|split].
  - rewrite Z.ltb_lt. split.
    + intros Hlt Hnil. apply (f_equal length) in Hnil.
      rewrite length_drop in Hnil. cbn in Hnil. subst total. nia.
    + intros Hne. destruct (Z.lt_ge_cases page (ceil_div total limit)) as [|Hge];
        [assumption|].
      exfalso. apply Hne. apply drop_ge. subst total. nia.
  - apply Z.ltb_lt.
  - intros Hpast. subst emails. rewrite drop_ge; [apply take_nil|].
    subst total. nia.
Qed.

End HistoryFacts.

Section HistorySamples.
Import JS PromotionalEmailModel EmailConfigController PromotionalEmailHistory.

(** The second page of ten out of twenty-five campaigns. *)
Lemma getPromotionalEmails_pages_witness :
  exists pagination,
    getPromotionalEmails (pageFrom sampleHistory) (Resolved 25) (Some 2) (Some 10)
      = Json 200 (map withoutLogs (take 10 (drop 10 sampleHistory)), pagination) /\
    totalPages pagination = 3 /\ hasNext pagination = true /\
    hasPrev pagination = true.
Proof.
  destruct (getPromotionalEmails_pages (pageFrom sampleHistory) sampleHistory 2 10)
    as (pagination & Hrun & _); [reflexivity|lia|lia|].
  exists pagination. split; [exact Hrun|].
  cbv zeta in Hrun. vm_compute in Hrun. injection Hrun as <-.
  repeat split; reflexivity.
Defined.

End HistorySamples.

(** ** Setting and deleting the configuration *)

Section ConfigFacts.
Import JS EmailConfigModel EmailServiceUtil PromotionalEmailController
       EmailConfigController StudentModel.

Variable toLowerCase : string -> string.

(** Lowering the case of a text maps every character to one character at
    least: only the empty text comes out empty. *)
Hypothesis toLowerCase_not_empty :
  forall s, toLowerCase s = EmptyString -> s = EmptyString.

Lemma trimStart_noSpace (l : list (list Ascii.ascii)) :
  forallb (fun ch => negb (isWhiteSpace ch)) l = true -> trimStart l = l.
Proof.
  destruct l as [|ch l]; [reflexivity|]. cbn.
  intros H. apply andb_prop in H as [Hc _].
  apply negb_true_iff in Hc. rewrite Hc. reflexivity.
Qed.

Lemma trim_noSpace (s : string) :
  forallb (fun ch => negb (isWhiteSpace ch)) (chars (String.list_ascii_of_string s)) = true ->
  trim s = s.
Proof.
  intros H. unfold trim.
  rewrite (trimStart_noSpace _ H).
  rewrite trimStart_noSpace.
  - rewrite rev_involutive, chars_concat.
    apply String.string_of_list_ascii_of_string.
  - apply forallb_forall. intros c Hc. apply in_rev in Hc.
    rewrite forallb_forall in H. apply H, Hc.
Qed.

(** An address that passes the format check holds no white space, so
    [trim] leaves it as it is. *)
Lemma emailRegex_trim (s : string) : emailRegex s = true -> trim s = s.
Proof.
  intros H. apply trim_noSpace.
  apply emailRegex_shaped in H
    as (localPart & domain & last & -> & _ & _ & _ & Hp1 & Hp2 & Hp3).
  rewrite forallb_app. cbn [forallb]. rewrite forallb_app. cbn [forallb].
  rewrite !plainChar_noSpace by assumption. reflexivity.
Qed.

Lemma emailRegex_not_empty (s : string) : emailRegex s = true -> s <> EmptyString.
Proof. intros H ->. vm_compute in H. discriminate. Qed.

Lemma String_length_not_empty (s : string) :
  String_length s <> 0%nat -> s <> EmptyString.
Proof. intros H ->. apply H. reflexivity. Qed.

Lemma eqb_not_empty (s : string) :
  s <> EmptyString -> String.eqb s EmptyString = false.
Proof. intros H. destruct s; [congruence|reflexivity]. Qed.

Lemma save_fresh (d c : EmailConfig) (l : list EmailConfig) :
  Forall (fun x => _id x <> _id d) l -> _id c = _id d ->
  EmailConfigModel.save d (l ++ [c]) = l ++ [d].
Proof.
  intros Hl Hc. unfold EmailConfigModel.save. rewrite map_app. cbn.
  rewrite Hc, Nat.eqb_refl. f_equal.
  induction Hl as [|x l Hx Hl IH]; [reflexivity|].
  cbn. rewrite IH. apply Nat.eqb_neq in Hx. rewrite Hx. reflexivity.
Qed.

Lemma deactivateAll_ids (newId : nat) (configs : list EmailConfig) :
  Forall (fun c => _id c <> newId) configs ->
  Forall (fun c => _id c <> newId) (deactivateAll configs) /\
  existsb (fun c => Nat.eqb (_id c) newId) (deactivateAll configs) = false.
Proof.
  unfold deactivateAll.
  induction 1 as [|x l Hx Hl [IH1 IH2]]; [split; [constructor|reflexivity]|].
  assert (_id (set_isActive false x) = _id x) as Hid by (destruct x; reflexivity).
  cbn [map existsb]. split.
  - constructor; [rewrite Hid; exact Hx|exact IH1].
  - rewrite Hid, IH2. apply Nat.eqb_neq in Hx. rewrite Hx. reflexivity.
Qed.

Lemma findOneActive_deactivated (configs : list EmailConfig) (c : EmailConfig) :
  isActive c = true -> findOneActive (deactivateAll configs ++ [c]) = Some c.
Proof.
  intros Hc. unfold findOneActive, deactivateAll.
  induction configs as [|x l IH]; cbn; [rewrite Hc; reflexivity|].
  destruct x; cbn. exact IH.
Qed.

(** What [setEmailConfig] does with a body that passes its three checks,
    the new id being fresh. *)
Lemma setEmailConfig_valid (clk : CreateClock) (init : InitClock) (newId : nat)
  (body : ConfigBody) (clientIP : option string) (configs : list EmailConfig)
  (service : EmailService) (email' appPassword' : string) :
  cb_email body = Some email' -> cb_appPassword body = Some appPassword' ->
  emailRegex email' = true ->
  String_length (removeSpaces appPassword') = 16%nat ->
  Forall (fun c => _id c <> newId) configs ->
  let created := createdConfig clk newId body (toLowerCase email') appPassword' in
  let ip := default "unknown" clientIP in
  let c := visited init ip created in
  email created = toLowerCase email' /\
  emailsSentToday c = 0 /\
  setEmailConfig toLowerCase clk init newId body clientIP configs service =
    if chosenLimit body <=? 0
    then (Failure 500 "Failed to set email configuration",
          deactivateAll configs ++ [c], service)
    else (Json 200 (mkConfigData newId (toLowerCase email') (chosenFromName body)
                                 (chosenLimit body) true),
          deactivateAll configs ++ [c],
          mkEmailService
            (Some (mkTransporter "gmail" (toLowerCase email') (removeSpaces appPassword')))
            (Some c) (performanceMetrics service)).
Proof.
  intros Hemail Hpw Hformat Hlen Hfresh created ip c.
  pose proof (emailRegex_trim email' Hformat) as Htrim.
  assert (email created = toLowerCase email') as Hcreated by reflexivity.
  destruct (resetDailyCounterIfNeeded_fields (ic_reset init) created)
    as (_ & _ & _ & _ & Hsent & _).
  destruct (visited_fields init ip created)
    as (Hid & Hact & Hlim & Hs & He & Hp & Hn & Hsent' & _).
  cbv zeta in *. fold c in Hid, Hact, Hlim, Hs, He, Hp, Hn, Hsent'.
  assert (emailsSentToday c = 0) as Hzero.
  { rewrite Hsent', Hsent. case_bool_decide; reflexivity. }
  split; [exact Hcreated|]. split; [exact Hzero|].
  destruct (deactivateAll_ids newId configs Hfresh) as [Hids Hnone].
  unfold setEmailConfig. rewrite Hemail, Hpw.
  rewrite (eqb_not_empty email') by (apply emailRegex_not_empty, Hformat).
  rewrite (eqb_not_empty appPassword').
  2:{ intros ->. vm_compute in Hlen. discriminate. }
  cbn [orb]. rewrite Hformat, Hlen. cbn [negb Nat.eqb].
  fold (chosenFromName body). fold (chosenLimit body).
  unfold create.
  rewrite (eqb_not_empty (toLowerCase (trim email'))).
  2:{ rewrite Htrim. intros H0. apply toLowerCase_not_empty in H0.
      exact (emailRegex_not_empty email' Hformat H0). }
  rewrite (eqb_not_empty (removeSpaces appPassword'))
    by (apply String_length_not_empty; rewrite Hlen; discriminate).
  cbn [orb]. rewrite Hnone, Htrim.
  fold (createdConfig clk newId body (toLowerCase email') appPassword'). fold created.
  destruct (initializeTransporter_active init ip (deactivateAll configs ++ [created])
              service created (findOneActive_deactivated configs created eq_refl))
    as (_ & Hrun).
  cbv zeta in Hrun. fold ip. rewrite Hrun. fold c.
  assert (written init ip created (deactivateAll configs ++ [created])
          = deactivateAll configs ++ [c]) as ->.
  { unfold written. fold c.
    set (checked := resetDailyCounterIfNeeded (ic_reset init) created).
    assert (_id checked = newId) as Hidc.
    { destruct (resetDailyCounterIfNeeded_fields (ic_reset init) created) as (H & _).
      exact H. }
    assert (_id c = newId) as Hidc' by (rewrite Hid; reflexivity).
    rewrite (save_fresh checked created);
      [|rewrite Hidc; exact Hids|rewrite Hidc; reflexivity].
    apply save_fresh; [rewrite Hidc'; exact Hids|rewrite Hidc, Hidc'; reflexivity]. }
  rewrite Hlim, Hzero, Hs, He, Hp.
  change (dailyLimit created) with (chosenLimit body).
  change (EmailConfigModel.service created) with "gmail".
  change (appPassword created) with (removeSpaces appPassword').
  rewrite Hcreated.
  destruct (chosenLimit body <=? 0); reflexivity.
Qed.

(** X15.  A body that passes the checks of [setEmailConfig] (an address of
    the shape the regular expression asks for, an app password of 16 code
    units once its white space is removed), with a positive limit, replaces
    the configuration: every configuration there was is deactivated and
    kept, the new one is added as the only active one, and the service is
    initialised again with it, so that the next mail goes out under the new
    address.  The address stored is the address sent, put to lower case by
    [toLowerCase]; its counter for the day is 0. *)
Theorem setEmailConfig_replaces (clk : CreateClock) (init : InitClock) (newId : nat)
  (body : ConfigBody) (clientIP : option string) (configs : list EmailConfig)
  (service : EmailService) (email' appPassword' : string) :
  cb_email body = Some email' -> cb_appPassword body = Some appPassword' ->
  emailRegex email' = true ->
  String_length (removeSpaces appPassword') = 16%nat ->
  Forall (fun c => _id c <> newId) configs ->
  0 < chosenLimit body ->
  exists c,
    setEmailConfig toLowerCase clk init newId body clientIP configs service =
      (Json 200 (mkConfigData newId (toLowerCase email') (chosenFromName body)
                              (chosenLimit body) true),
       deactivateAll configs ++ [c],
       mkEmailService
         (Some (mkTransporter "gmail" (toLowerCase email') (removeSpaces appPassword')))
         (Some c) (performanceMetrics service)) /\
    findOneActive (deactivateAll configs ++ [c]) = Some c /\
    Forall (fun c' => isActive c' = false) (deactivateAll configs) /\
    _id c = newId /\ isActive c = true /\
    email c = toLowerCase email' /\ appPassword c = removeSpaces appPassword' /\
    dailyLimit c = chosenLimit body /\ emailsSentToday c = 0 /\
    lastUsedIP c = Some (default "unknown" clientIP).
Proof.
  intros Hemail Hpw Hformat Hlen Hfresh Hpos.
  destruct (setEmailConfig_valid clk init newId body clientIP configs service
              email' appPassword' Hemail Hpw Hformat Hlen Hfresh)
    as (Hcreated & Hzero & Hrun).
  cbv zeta in *.
  destruct (visited_fields init (default "unknown" clientIP)
              (createdConfig clk newId body (toLowerCase email') appPassword'))
    as (Hid & Hact & Hlim & _ & He & Hp & _ & _ & Hip & _).
  cbv zeta in *.
  exists (visited init (default "unknown" clientIP)
                  (createdConfig clk newId body (toLowerCase email') appPassword')).
  rewrite Hrun. rewrite (proj2 (Z.leb_gt _ _)) by exact Hpos.
  split_and!; try assumption; try reflexivity.
  - apply findOneActive_deactivated. rewrite Hact. reflexivity.
  - unfold deactivateAll. clear. induction configs as [|y l IH]; cbn;
      constructor; [destruct y; reflexivity|exact IH].
Qed.

(** X16.  [setEmailConfig] is not all or nothing.  With a negative [dailyLimit]
    the body passes the checks, the old configurations are deactivated and
    the new one is stored as the active one; initialising the transporter
    then fails on the limit, and the request is answered with 500.  The
    service keeps the transporter and the [currentConfig] it had. *)
Theorem setEmailConfig_negative_limit (clk : CreateClock) (init : InitClock)
  (newId : nat) (body : ConfigBody) (clientIP : option string)
  (configs : list EmailConfig) (service : EmailService)
  (email' appPassword' : string) (limit : Z) :
  cb_email body = Some email' -> cb_appPassword body = Some appPassword' ->
  emailRegex email' = true ->
  String_length (removeSpaces appPassword') = 16%nat ->
  Forall (fun c => _id c <> newId) configs ->
  cb_dailyLimit body = Some limit -> limit < 0 ->
  exists c,
    setEmailConfig toLowerCase clk init newId body clientIP configs service =
      (Failure 500 "Failed to set email configuration",
       deactivateAll configs ++ [c], service) /\
    findOneActive (deactivateAll configs ++ [c]) = Some c /\
    _id c = newId /\ email c = toLowerCase email' /\ dailyLimit c = limit.
Proof.
  intros Hemail Hpw Hformat Hlen Hfresh Hlimit Hneg.
  destruct (setEmailConfig_valid clk init newId body clientIP configs service
              email' appPassword' Hemail Hpw Hformat Hlen Hfresh)
    as (Hcreated & Hzero & Hrun).
  cbv zeta in *.
  destruct (visited_fields init (default "unknown" clientIP)
              (createdConfig clk newId body (toLowerCase email') appPassword'))
    as (Hid & Hact & Hlim & _ & He & _).
  cbv zeta in *.
  assert (chosenLimit body = limit) as Hchosen.
  { unfold chosenLimit. rewrite Hlimit.
    destruct (Z.eqb_spec limit 0); [lia|reflexivity]. }
  exists (visited init (default "unknown" clientIP)
                  (createdConfig clk newId body (toLowerCase email') appPassword')).
  rewrite Hrun, Hchosen. rewrite (proj2 (Z.leb_le _ _)) by lia.
  split_and!; try assumption; try reflexivity.
  - apply findOneActive_deactivated. rewrite Hact. reflexivity.
  - rewrite Hlim. cbn. exact Hchosen.
Qed.

End ConfigFacts.

Section ReplacedSamples.
Import JS EmailConfigModel EmailServiceUtil PromotionalEmailController
       EmailConfigController.

Lemma lowerASCII_not_empty (s : string) :
  lowerASCII s = EmptyString -> s = EmptyString.
Proof. destruct s; [reflexivity|intros H; cbn in H; discriminate]. Qed.

(** A new sender replaces the exhausted one. *)
Lemma setEmailConfig_replaces_witness :
  exists c,
    setEmailConfig lowerASCII sampleCreateClock (mkInitClock (frozen nov2) nov2) 2
                   sampleConfigBody (Some "10.0.0.1") [exhaustedConfig] sampleService
      = (Json 200 (mkConfigData 2 "admissions@educonnect.com" "EduConnect Consultancy"
                                300 true),
         [set_isActive false exhaustedConfig; c],
         mkEmailService
           (Some (mkTransporter "gmail" "admissions@educonnect.com" "abcdefghijklmnop"))
           (Some c) (mkPerformanceMetrics [] 0 0)).
Proof.
  destruct (setEmailConfig_replaces lowerASCII lowerASCII_not_empty
              sampleCreateClock (mkInitClock (frozen nov2) nov2) 2
              sampleConfigBody (Some "10.0.0.1") [exhaustedConfig] sampleService
              "Admissions@EduConnect.com" "abcd efgh ijkl mnop"
              eq_refl eq_refl eq_refl eq_refl
              ltac:(repeat constructor; discriminate) ltac:(reflexivity))
    as (c & Hrun & _).
  exists c. exact Hrun.
Defined.

Lemma setEmailConfig_negative_limit_witness :
  exists c,
    setEmailConfig lowerASCII sampleCreateClock (mkInitClock (frozen nov2) nov2) 2
                   (mkConfigBody (Some "admissions@educonnect.com")
                                 (Some "abcdefghijklmnop") None (Some (-1)))
                   (Some "10.0.0.1") [sampleConfig] sampleService
      = (Failure 500 "Failed to set email configuration",
         [set_isActive false sampleConfig; c], sampleService) /\
    findOneActive [set_isActive false sampleConfig; c] = Some c.
Proof.
  destruct (setEmailConfig_negative_limit lowerASCII lowerASCII_not_empty
              sampleCreateClock (mkInitClock (frozen nov2) nov2) 2
              (mkConfigBody (Some "admissions@educonnect.com")
                            (Some "abcdefghijklmnop") None (Some (-1)))
              (Some "10.0.0.1") [sampleConfig] sampleService
              "admissions@educonnect.com" "abcdefghijklmnop" (-1)
              eq_refl eq_refl eq_refl eq_refl
              ltac:(repeat constructor; discriminate) eq_refl ltac:(lia))
    as (c & Hrun & Hfind & _).
  exists c. split; [exact Hrun|exact Hfind].
Defined.

End ReplacedSamples.

Section DeleteFacts.
Import JS EmailConfigModel EmailServiceUtil EmailConfigController.

Variable sendMail : Transporter -> Mail -> SendMailOutcome.

Lemma findOneActive_delete (id : nat) (configs : list EmailConfig) (config : EmailConfig) :
  findOneActive configs = Some config -> id <> _id config ->
  findOneActive (findByIdAndDelete id configs) = Some config.
Proof.
  unfold findOneActive. intros Hfind Hid.
  induction configs as [|x l IH]; [discriminate|].
  cbn [findByIdAndDelete]. cbn [List.find] in Hfind.
  destruct (isActive x) eqn:Hx.
  - injection Hfind as ->.
    destruct (Nat.eqb_spec (_id config) id) as [E|_]; [congruence|].
    cbn [List.find]. rewrite Hx. reflexivity.
  - destruct (Nat.eqb (_id x) id); [exact Hfind|].
    cbn [List.find]. rewrite Hx. apply IH, Hfind.
Qed.

(** X17.  [deleteEmailConfig] clears the transporter of the service whichever
    configuration is deleted.  With the daily limit reached, a mail that
    the service would have sent before the deletion of another, unused
    configuration is refused after it, because [sendEmail] has to
    initialise the transporter again and this time meets the limit. *)
Theorem deleteEmailConfig_forces_check (clk : SendClock)
  (to subject html ipAddress : string) (id : nat) (configs : list EmailConfig)
  (service : EmailService) (tr : Transporter) (config other : EmailConfig)
  (mid : string) :
  transporter service = Some tr -> currentConfig service = Some config ->
  findOneActive configs = Some config ->
  findById id configs = Some other -> id <> _id config ->
  dailyLimit config
    <= emailsSentToday (resetDailyCounterIfNeeded (ic_reset (sc_init clk)) config) ->
  sendMail tr (mailOf config to subject html) = Accepted mid ->
  (sendEmail sendMail clk to subject html ipAddress configs service).2
    = Resolved (mkSendResult true (Some mid) None (sc_end clk - sc_start clk)) /\
  let '(answer, configs', service') := deleteEmailConfig id configs service in
  answer = Json 200 tt /\
  configs' = findByIdAndDelete id configs /\
  transporter service' = None /\ currentConfig service' = None /\
  (sendEmail sendMail clk to subject html ipAddress configs' service').2
    = Thrown (limitMessage config).
Proof.
  intros Htr Hcfg Hfind Hother Hid Hlimit Hsend. split.
  - unfold sendEmail. rewrite Htr. cbn beta iota. rewrite Htr, Hcfg.
    fold (mailOf config to subject html). rewrite Hsend. reflexivity.
  - unfold deleteEmailConfig. rewrite Hother.
    split_and!; try reflexivity.
    unfold sendEmail. cbn [transporter].
    destruct (initializeTransporter_active (sc_init clk) ipAddress
                (findByIdAndDelete id configs)
                (mkEmailService None None (performanceMetrics service)) config
                (findOneActive_delete id configs config Hfind Hid))
      as (_ & ->).
    destruct (visited_fields (sc_init clk) ipAddress config)
      as (_ & _ & Hlim & _ & _ & _ & _ & Hsent & _).
    cbv zeta in *. rewrite (proj2 (Z.leb_le _ _)) by lia.
    cbn. unfold limitMessage. rewrite Hlim. reflexivity.
Qed.

End DeleteFacts.

Section DeleteSamples.
Import JS EmailConfigModel EmailServiceUtil EmailConfigController.

(** The limit is reached; an old, inactive configuration is deleted. *)
Lemma deleteEmailConfig_forces_check_witness :
  let today := set_lastResetDate nov2 exhaustedConfig in
  let old := set_isActive false (createdConfig sampleCreateClock 7 sampleConfigBody
                                   "old@educonnect.com" "abcdefghijklmnop") in
  let service := mkEmailService (transporter sampleService) (Some today)
                                (mkPerformanceMetrics [] 0 0) in
  let '(_, configs', service') := deleteEmailConfig 7 [old; today] service in
  (sendEmail acceptAll sampleSendClock "student@example.org" "Hello" "<p>Hello</p>"
             "10.0.0.1" [old; today] service).2
    = Resolved (mkSendResult true (Some "<1@educonnect.com>") None 150) /\
  (sendEmail acceptAll sampleSendClock "student@example.org" "Hello" "<p>Hello</p>"
             "10.0.0.1" configs' service').2
    = Thrown "Daily email limit reached (500)".
Proof.
  cbv zeta.
  pose proof (deleteEmailConfig_forces_check acceptAll sampleSendClock
                "student@example.org" "Hello" "<p>Hello</p>" "10.0.0.1" 7
                [set_isActive false (createdConfig sampleCreateClock 7 sampleConfigBody
                                       "old@educonnect.com" "abcdefghijklmnop");
                 set_lastResetDate nov2 exhaustedConfig]
                (mkEmailService (transporter sampleService)
                   (Some (set_lastResetDate nov2 exhaustedConfig))
                   (mkPerformanceMetrics [] 0 0))
                _ (set_lastResetDate nov2 exhaustedConfig) _ "<1@educonnect.com>"
                eq_refl eq_refl eq_refl eq_refl ltac:(discriminate)
                ltac:(vm_compute; discriminate) eq_refl) as [Hbefore Hafter].
  destruct (deleteEmailConfig 7 _ _) as [[answer configs'] service'].
  destruct Hafter as (_ & _ & _ & _ & Hafter).
  split; [exact Hbefore|exact Hafter].
Defined.

End DeleteSamples.

(** ** Health and recommendations *)

Section HealthFacts.
Import JS EmailConfigModel EmailServiceUtil EmailServiceReports
       EmailAnalyticsController.

(** X18.  [getSystemHealth] reports ['degraded'] exactly when there are more than
    5 consecutive failures or the success rate is below 80, and
    ['healthy'] otherwise; a low quota and suspicious activity add issues
    without changing the status.  Whenever the status is ['degraded'],
    [generateRecommendations] holds a recommendation of priority
    ['high']. *)
Theorem degraded_is_recommended (stats : Stats) (health : Health) :
  let '(status, issues) := diagnose stats in
  (status = "degraded" <->
   5 < stats_consecutiveFailures stats \/ stats_successRate stats < 80) /\
  (status = "healthy" <->
   stats_consecutiveFailures stats <= 5 /\ 80 <= stats_successRate stats) /\
  (length issues <= 4)%nat /\
  (status = "degraded" ->
   exists r, In r (generateRecommendations stats health) /\ rec_priority r = "high").
Proof.
  unfold diagnose.
  destruct (Z.ltb_spec 5 (stats_consecutiveFailures stats)) as [Hcf|Hcf];
    destruct (Z.ltb_spec (stats_successRate stats) 80) as [Hrate|Hrate];
    destruct (remainingToday stats <? 50);
    destruct (0 <? stats_suspiciousActivityCount stats);
    cbn [app length].
  all: split;
    [split; intros H; first [reflexivity|discriminate H|lia]
    |split; [split; intros H; first [reflexivity|discriminate H|lia]
            |split; [lia|]]].
  all: intros H; try discriminate H; clear H.
  all: unfold generateRecommendations.
  all: destruct (Z.ltb_spec (stats_successRate stats) 90) as [H90|H90];
    destruct (Z.ltb_spec 3 (stats_consecutiveFailures stats)) as [H3|H3];
    try lia;
    destruct (remainingToday stats <? 100);
    destruct (5000 <? stats_averageSendTime stats); cbn [app].
  all: match goal with
       | |- exists r, In r ?l /\ _ =>
           let rec pick l :=
             match l with
             | ?x :: ?l' =>
                 first [exists x; split; [cbn; tauto|reflexivity] | pick l']
             end in
           pick l
       end.
Qed.

End HealthFacts.

Section NewConfigFacts.
Import JS EmailConfigModel EmailServiceUtil EmailServiceReports
       PromotionalEmailController EmailConfigController.

Variable toLowerCase : string -> string.

Hypothesis toLowerCase_not_empty :
  forall s, toLowerCase s = EmptyString -> s = EmptyString.

(** X19.  A configuration that has just been set is reported as degraded: the
    success rate of a configuration starts at 0, which is below 80, so
    that the first health check after a successful [setEmailConfig] has
    the status ['degraded'] and the issue of a low success rate, before
    any mail has been sent or has failed. *)
Theorem getSystemHealth_after_setEmailConfig (clk : CreateClock) (init : InitClock)
  (newId : nat) (body : ConfigBody) (clientIP : option string)
  (configs : list EmailConfig) (service : EmailService)
  (email' appPassword' : string) (clk2 : InitClock) (now : Date) :
  cb_email body = Some email' -> cb_appPassword body = Some appPassword' ->
  emailRegex email' = true ->
  String_length (removeSpaces appPassword') = 16%nat ->
  Forall (fun c => _id c <> newId) configs ->
  0 < chosenLimit body ->
  let '(_, configs', service') :=
    setEmailConfig toLowerCase clk init newId body clientIP configs service in
  exists health,
    getSystemHealth clk2 now configs' service' = (configs', service', Resolved health) /\
    health_status health = "degraded" /\
    In "Low success rate: 0%" (health_issues health) /\
    totalSent (health_stats health) = 0 /\
    totalFailed (health_stats health) = 0 /\
    stats_consecutiveFailures (health_stats health) = 0.
Proof.
  intros Hemail Hpw Hformat Hlen Hfresh Hpos.
  destruct (setEmailConfig_valid toLowerCase toLowerCase_not_empty
              clk init newId body clientIP configs service
              email' appPassword' Hemail Hpw Hformat Hlen Hfresh)
    as (_ & _ & ->).
  cbv zeta. rewrite (proj2 (Z.leb_gt _ _)) by exact Hpos.
  set (created := createdConfig clk newId body (toLowerCase email') appPassword').
  set (c := visited init (default "unknown" clientIP) created).
  destruct (visited_fields init (default "unknown" clientIP) created)
    as (_ & _ & _ & _ & _ & _ & _ & _ & _ & _ & Hrate & Hcons).
  cbv zeta in *. fold c in Hrate, Hcons.
  change (successRate created) with 0 in Hrate.
  change (consecutiveFailures created) with 0 in Hcons.
  assert (totalEmailsSent c = 0 /\ totalEmailsFailed c = 0) as [Hsent Hfailed].
  { unfold c, visited.
    destruct (resetDailyCounterIfNeeded_keeps (ic_reset init) created)
      as (_ & _ & _ & _ & _ & _ & Ht & Hf & _).
    cbv zeta in *. change (totalEmailsSent created) with 0 in Ht.
    change (totalEmailsFailed created) with 0 in Hf.
    destruct (addressChanged _ _);
      destruct (resetDailyCounterIfNeeded (ic_reset init) created);
      cbn in *; split; assumption. }
  unfold getSystemHealth, getEmailStats. cbn [currentConfig performanceMetrics].
  unfold diagnose, statsOf.
  cbn [stats_consecutiveFailures stats_successRate remainingToday
       stats_suspiciousActivityCount].
  rewrite Hrate, Hcons. cbn [Z.ltb Z.compare app].
  eexists. split; [reflexivity|].
  cbn [health_status health_issues health_stats totalSent totalFailed
       stats_consecutiveFailures].
  destruct (dailyLimit c - emailsSentToday c <? 50);
    destruct (0 <? suspiciousActivityCount c);
    cbn; split_and!; auto.
Qed.

End NewConfigFacts.

Section NewConfigSamples.
Import JS EmailConfigModel EmailServiceUtil EmailServiceReports
       PromotionalEmailController EmailConfigController.

Lemma getSystemHealth_after_setEmailConfig_witness :
  let '(_, configs', service') :=
    setEmailConfig lowerASCII sampleCreateClock (mkInitClock (frozen nov2) nov2) 2
                   sampleConfigBody (Some "10.0.0.1") [exhaustedConfig] sampleService in
  exists health,
    getSystemHealth (mkInitClock (frozen nov2) nov2) nov2_later configs' service'
      = (configs', service', Resolved health) /\
    health_status health = "degraded" /\
    health_issues health = ["Low success rate: 0%"].
Proof.
  pose proof (getSystemHealth_after_setEmailConfig lowerASCII lowerASCII_not_empty
                sampleCreateClock (mkInitClock (frozen nov2) nov2) 2
                sampleConfigBody (Some "10.0.0.1") [exhaustedConfig] sampleService
                "Admissions@EduConnect.com" "abcd efgh ijkl mnop"
                (mkInitClock (frozen nov2) nov2) nov2_later
                eq_refl eq_refl eq_refl eq_refl
                ltac:(repeat constructor; discriminate) ltac:(reflexivity)) as H.
  destruct (setEmailConfig lowerASCII sampleCreateClock (mkInitClock (frozen nov2) nov2) 2
              sampleConfigBody (Some "10.0.0.1") [exhaustedConfig] sampleService)
    as [[answer configs'] service'] eqn:Hset.
  destruct H as (health & Hrun & Hstatus & _).
  exists health. split; [exact Hrun|]. split; [exact Hstatus|].
  vm_compute in Hset. injection Hset as _ <- <-.
  vm_compute in Hrun. injection Hrun as <-. reflexivity.
Defined.

End NewConfigSamples.

(** ** The summary of the analytics *)

Section SummaryFacts.
Import JS EmailAnalyticsModel PromotionalEmailModel EmailAnalyticsController.

Lemma fold_best (l pre mid : list EmailAnalytics) (d : EmailAnalytics) :
  Forall (fun x => ea_emailsSent x < ea_emailsSent d) pre ->
  Forall (fun x => ea_emailsSent x <= ea_emailsSent d) mid ->
  exists pre' post',
    pre ++ d :: mid ++ l
      = pre' ++ fold_left (fun best day =>
                             if ea_emailsSent best <? ea_emailsSent day
                             then day else best) l d :: post' /\
    Forall (fun x => ea_emailsSent x
                     < ea_emailsSent
                         (fold_left (fun best day =>
                                       if ea_emailsSent best <? ea_emailsSent day
                                       then day else best) l d)) pre' /\
    Forall (fun x => ea_emailsSent x
                     <= ea_emailsSent
                          (fold_left (fun best day =>
                                        if ea_emailsSent best <? ea_emailsSent day
                                        then day else best) l d)) post'.
Proof.
  revert pre mid d. induction l as [|y l IH]; intros pre mid d Hpre Hmid.
  - exists pre, mid. rewrite app_nil_r. repeat split; assumption.
  - cbn [fold_left].
    destruct (Z.ltb_spec (ea_emailsSent d) (ea_emailsSent y)) as [Hlt|Hge].
    + destruct (IH (pre ++ d :: mid) [] y) as (pre' & post' & Heq & H1 & H2).
      * apply Forall_app. split; [|constructor].
        -- eapply Forall_impl; [exact Hpre|]. intros x Hx. cbn in Hx. lia.
        -- exact Hlt.
        -- eapply Forall_impl; [exact Hmid|]. intros x Hx. cbn in Hx. lia.
      * constructor.
      * exists pre', post'. split; [|split; assumption].
        rewrite <- Heq. rewrite <- !app_assoc. reflexivity.
    + destruct (IH pre (mid ++ [y]) d Hpre) as (pre' & post' & Heq & H1 & H2).
      * apply Forall_app. split; [exact Hmid|]. constructor; [exact Hge|constructor].
      * exists pre', post'. split; [|split; assumption].
        rewrite <- Heq. rewrite <- !app_assoc. reflexivity.
Qed.

(** X20.  [bestDay] is a day with the largest number of mails sent, and among
    several such days the first of the list; it is missing only when there
    are no analytics. *)
Theorem generateSummary_bestDay (analytics : list EmailAnalytics)
  (campaigns : list Stored) :
  match bestDay (generateSummary analytics campaigns) with
  | None => analytics = []
  | Some d =>
      exists earlier later,
        analytics = earlier ++ d :: later /\
        Forall (fun x => ea_emailsSent x < ea_emailsSent d) earlier /\
        Forall (fun x => ea_emailsSent x <= ea_emailsSent d) later
  end.
Proof.
  unfold generateSummary. cbn [bestDay]. unfold reduce1.
  destruct analytics as [|d l]; [reflexivity|].
  destruct (fold_best l [] [] d) as (pre' & post' & Heq & H1 & H2);
    [constructor|constructor|].
  exists pre', post'. split; [exact Heq|split; assumption].
Qed.

(** X21.  The schema of a campaign has no path [successRate], so no campaign
    compares greater than another one: [mostSuccessfulCampaign] is the
    first campaign of the list, whatever the campaigns did. *)
Theorem generateSummary_mostSuccessfulCampaign (analytics : list EmailAnalytics)
  (campaigns : list Stored) :
  mostSuccessfulCampaign (generateSummary analytics campaigns) = head campaigns.
Proof.
  unfold generateSummary. cbn [mostSuccessfulCampaign]. unfold reduce1.
  destruct campaigns as [|c l]; [reflexivity|]. cbn [head]. f_equal.
  induction l as [|y l IH]; [reflexivity|]. exact IH.
Qed.

End SummaryFacts.

(** ** The cron jobs *)

Section CronFacts.
Import EmailCronJobs.

Lemma initialize_app (jobs : list Job) :
  initialize jobs = jobs ++ map schedule fourExpressions.
Proof.
  unfold initialize, setupMonthlyReset, setupHealthCheck, setupPerformanceReset,
    setupDailyAnalytics. rewrite <- !app_assoc. reflexivity.
Qed.

(** X22.  [initialize] does not look at the jobs there are.  After any history
    of start and stop requests the singleton holds four jobs for every
    start request made, the four schedules once per request; the jobs of
    the requests made since the last stop are running, all earlier ones
    are stopped and still in the list. *)
Theorem cron_jobs_accumulate (requests : list CronRequest) :
  let jobs := fold_left serveCron requests constructor in
  length jobs = (4 * starts requests)%nat /\
  map expression jobs = concat (replicate (starts requests) fourExpressions) /\
  map running jobs =
    replicate (4 * (starts requests - startsSinceLastStop requests)) false ++
    replicate (4 * startsSinceLastStop requests) true.
Proof.
  cbv zeta. unfold starts, startsSinceLastStop.
  induction requests as [|r requests IH] using rev_ind; [repeat split|].
  destruct IH as (IHlen & IHexp & IHrun).
  rewrite fold_left_app, List.filter_app, length_app, rev_app_distr.
  cbn [fold_left List.filter rev app PromotionalEmailController.takeWhile].
  set (jobs := fold_left serveCron requests constructor) in *.
  set (n := length (List.filter isStart requests)) in *.
  set (k := length (PromotionalEmailController.takeWhile isStart (rev requests))) in *.
  assert (k <= n)%nat as Hkn.
  { subst k n. clear. rewrite <- (length_rev (List.filter isStart requests)).
    rewrite <- List.filter_rev.
    induction (rev requests) as [|x l IH]; [reflexivity|].
    cbn. destruct (isStart x); cbn; lia. }
  destruct r; cbn [isStart serveCron length]; fold k.
  - rewrite initialize_app, length_app, !map_app, IHlen, IHexp, IHrun.
    split; [cbn; lia|]. split.
    + replace (n + 1)%nat with (n + 1)%nat by reflexivity.
      rewrite replicate_add, concat_app. cbn. rewrite ?app_nil_r. reflexivity.
    + replace (n + 1 - S k)%nat with (n - k)%nat by lia.
      replace (4 * S k)%nat with (4 * k + 4)%nat by lia.
      rewrite replicate_add, <- app_assoc. reflexivity.
  - rewrite Nat.add_0_r, Nat.sub_0_r. unfold stopAll.
    rewrite length_map. split; [exact IHlen|]. split.
    + rewrite map_map. cbn. exact IHexp.
    + rewrite map_map. cbn [running Nat.mul replicate]. rewrite app_nil_r.
      change (n + (n + (n + (n + 0))))%nat with (4 * n)%nat.
      rewrite <- IHlen. clear. induction jobs as [|j l IH]; [reflexivity|].
      cbn. f_equal. exact IH.
Qed.

End CronFacts.

(** ** The daily analytics *)

Section AnalyticsFacts.
Import JS EmailConfigModel EmailServiceUtil EmailAnalyticsModel EmailServiceReports.

Lemma upsert_holds (update : EmailAnalytics) (docs : list EmailAnalytics) :
  In update (upsert update docs).
Proof.
  induction docs as [|d docs IH]; cbn [upsert]; [left; reflexivity|].
  destruct (_ && _); [left; reflexivity|right; exact IH].
Qed.

(** X23.  [recordDailyAnalytics] records nothing.  The key it puts into the
    Map [sendingPattern] is [currentHour], a Number; the cast of the update
    to the schema throws on such a key, the function's own [catch] swallows
    the error, and the analytics are left as they were, whatever the
    statistics are.  What the call does to the configurations and to the
    service is what [getEmailStats] does.  An update whose Map has strings
    for its keys is written: the first daily document of the day is
    replaced, or a document is added. *)
Theorem recordDailyAnalytics_records_nothing (clk : InitClock) (today currentHour : Z)
  (configs : list EmailConfig) (this : EmailService)
  (analytics : list EmailAnalytics) :
  let '(configs', this', analytics') :=
    recordDailyAnalytics clk today currentHour configs this analytics in
  analytics' = analytics /\
  (configs', this') = (getEmailStats clk configs this).1 /\
  (forall update count rest,
     u_sendingPattern update = (NumberKey currentHour, count) :: rest ->
     findOneAndUpdate update analytics
       = Thrown "Mongoose maps only support string keys, got number") /\
  (forall update entries,
     castMap (u_sendingPattern update) = Resolved entries ->
     exists written e,
       findOneAndUpdate update analytics = Resolved written /\ In e written /\
       ea_date e = u_date update /\ ea_period e = u_period update /\
       ea_emailsSent e = u_emailsSent update /\ ea_sendingPattern e = entries).
Proof.
  unfold recordDailyAnalytics.
  destruct (getEmailStats clk configs this) as [[configs' this'] [stats|message]];
    cbn [fst snd findOneAndUpdate u_sendingPattern castMap].
  all: split; [reflexivity|]; split; [reflexivity|]; split.
  all: try (intros update count rest Hkey; unfold findOneAndUpdate;
            rewrite Hkey; reflexivity).
  all: intros update entries Hcast; unfold findOneAndUpdate; rewrite Hcast;
    eexists _, _; split; [reflexivity|]; split; [apply upsert_holds|];
    repeat split.
Qed.

End AnalyticsFacts.

Section AnalyticsSamples.
Import JS EmailConfigModel EmailServiceUtil EmailAnalyticsModel EmailServiceReports.

(** At midnight of 2 November, with 500 mails sent: the record there is of
    the day stays as it is. *)
Example recordDailyAnalytics_sample :
  let analytics := [sampleDay 1793491200000 400 99; sampleDay 1793577600000 10 100] in
  (recordDailyAnalytics (mkInitClock (frozen nov2) nov2) 1793577600000 0
     [exhaustedConfig] sampleService analytics).2 = analytics.
Proof. reflexivity. Qed.

End AnalyticsSamples.

(** ** The validation middleware *)

Section ValidationFacts.
Import JS PromotionalEmailModel PromotionalEmailController EmailMiddleware.

Variable isValidUrl : string -> bool.

(** A string that [new URL] accepts holds more than white space. *)
Hypothesis isValidUrl_not_blank :
  forall s, isValidUrl s = true -> trim s <> EmptyString.

Lemma shorterThan_not_blank (n : nat) (s : string) :
  (0 < n)%nat -> shorterThan n s = false -> String.eqb (trim s) EmptyString = false.
Proof.
  unfold shorterThan. intros Hn Hs. apply Nat.ltb_ge in Hs.
  destruct (trim s); [change (String_length EmptyString) with 0%nat in Hs; lia|reflexivity].
Qed.

Lemma missingOr_false (p : string -> bool) (o : option string) :
  missingOr p o = false ->
  exists s, o = Some s /\ String.eqb s EmptyString = false /\ p s = false.
Proof.
  destruct o as [s|]; [|discriminate]. cbn. intros H.
  apply orb_false_elim in H as [H1 H2]. exists s. repeat split; assumption.
Qed.

(** X24.  [validatePromotionalEmail] is stricter than the handler behind it: a
    body it lets through has the five required fields, and none of them
    is empty once trimmed, so that [sendPromotionalEmail] neither answers
    that fields are required nor fails in [create] for want of one. *)
Theorem validatePromotionalEmail_stricter (body : Body) :
  validatePromotionalEmail isValidUrl body = next ->
  bodyComplete body /\ requiredMissing (requestedContent body) = false.
Proof.
  unfold validatePromotionalEmail. intros H.
  destruct (missingOr (shorterThan 5) (body_title body)) eqn:H1;
    destruct (missingOr (shorterThan 10) (body_content body)) eqn:H2;
    destruct (missingOr (fun s => negb (isValidUrl s)) (body_buttonLink body)) eqn:H3;
    destruct (missingOr (fun s => negb (isValidEmail s)) (body_contactEmail body)) eqn:H4;
    destruct (missingOr (shorterThan 5) (body_contactPhone body)) eqn:H5;
    try discriminate H.
  clear H.
  apply missingOr_false in H1 as (title' & Ht & Ht1 & Ht2).
  apply missingOr_false in H2 as (content' & Hc & Hc1 & Hc2).
  apply missingOr_false in H3 as (link' & Hl & Hl1 & Hl2).
  apply missingOr_false in H4 as (email' & He & He1 & He2).
  apply missingOr_false in H5 as (phone' & Hp & Hp1 & Hp2).
  apply negb_false_iff in Hl2, He2.
  split.
  - unfold bodyComplete, falsy. rewrite Ht, Hc, Hl, He, Hp, Ht1, Hc1, Hl1, He1, Hp1.
    reflexivity.
  - unfold requiredMissing, requestedContent. cbv beta zeta.
    cbn [title content buttonLink contactEmail contactPhone].
    rewrite Ht, Hc, Hl, He, Hp. cbn [default from_option id].
    rewrite (shorterThan_not_blank 5 title') by (lia || assumption).
    rewrite (shorterThan_not_blank 10 content') by (lia || assumption).
    rewrite (shorterThan_not_blank 5 phone') by (lia || assumption).
    rewrite (emailRegex_trim email' He2), He1.
    destruct (String.eqb_spec (trim link') EmptyString) as [E|_]; [|reflexivity].
    exfalso. exact (isValidUrl_not_blank link' Hl2 E).
Qed.

End ValidationFacts.

Section ValidationSamples.
Import JS PromotionalEmailModel PromotionalEmailController EmailMiddleware.

Lemma validatePromotionalEmail_stricter_witness :
  validatePromotionalEmail onlyConsultationUrl sampleBody = next /\
  bodyComplete sampleBody /\ requiredMissing (requestedContent sampleBody) = false.
Proof.
  split; [reflexivity|].
  apply (validatePromotionalEmail_stricter onlyConsultationUrl).
  - intros s Hs. apply String.eqb_eq in Hs as ->. vm_compute. discriminate.
  - reflexivity.
Defined.

End ValidationSamples.

(** ** A campaign once it is accepted *)

Section AsCreatedFacts.
Import JS EmailConfigModel PromotionalEmailModel PromotionalEmailController.

Lemma sys_step_ended (sys sys' : System) :
  SendersInv sys -> sys_step sys sys' -> EndedInError sys -> EndedInError sys'.
Proof.
  intros Hinv Hstep Hended. destruct Hstep as
    [clk now newId body ip clock sys response w' bg Hstart
    |clk now newId body ip sys response w' Hrefused
    |id deliver clock recipients s s' sys campaigns' Hs Hstep
    |now id sys response campaigns' Hcancel
    |sys w' Hsame]; try exact Hended.
  - intros id recipients s Hlook Hfin. cbn [sys_senders] in Hlook.
    destruct (decide (newId = id)) as [->|Hid].
    + rewrite lookup_insert_eq in Hlook. injection Hlook as <- <-. discriminate Hfin.
    + rewrite lookup_insert_ne in Hlook by exact Hid.
      apply (Hended id recipients s Hlook Hfin).
  - intros id0 recipients0 s0 Hlook Hfin. cbn [sys_senders] in Hlook.
    destruct (decide (id = id0)) as [<-|Hid].
    + rewrite lookup_insert_eq in Hlook. injection Hlook as <- <-.
      unfold step in Hstep. destruct (finished s) eqn:Hfin0.
      * injection Hstep as <- _. apply (Hended id recipients s Hs Hfin0).
      * rewrite (proj2 (Nat.ltb_lt _ _) (Hinv id recipients s Hs Hfin0)) in Hstep.
        destruct (batchTurn_spec deliver clock recipients s (campaigns (sys_world sys)))
          as (_ & H2 & _ & H4 & _).
        rewrite Hstep in H2, H4. split; assumption.
    + rewrite lookup_insert_ne in Hlook by exact Hid.
      apply (Hended id0 recipients0 s0 Hlook Hfin).
Qed.

(** X25.  A campaign never gets further than its first batch, and its record
    never shows even that.  From a start of the server with no campaign but
    such as [create] stores them, and through any sequence of campaign
    requests, steps of the senders they start, cancel requests and other
    operations, every record has the status ['sending'] and both counters
    at 0; and every sender that is over has ended in the TypeError, having
    set ['failed'] on its own document, which is never saved. *)
Theorem campaign_stays_as_created (w : World) (sys : System) :
  AsCreated (campaigns w) -> rtc sys_step (booted w) sys ->
  AsCreated (campaigns (sys_world sys)) /\ EndedInError sys.
Proof.
  intros Hall Hsteps.
  assert (SendersInv (booted w) /\ AsCreated (campaigns (sys_world (booted w))) /\
          EndedInError (booted w)) as Hstart.
  { split; [apply SendersInv_booted|]. split; [exact Hall|].
    intros id recipients s H. cbn in H. rewrite lookup_empty in H. discriminate. }
  clear Hall. revert Hstart.
  induction Hsteps as [sys|sys sys1 sys' Hstep _ IH]; intros (Hinv & Hall & Hended).
  - split; assumption.
  - apply IH. split_and!.
    + apply (sys_step_keeps_records sys sys1 Hinv Hstep).
    + apply (sys_step_as_created sys sys1 Hinv Hstep Hall).
    + apply (sys_step_ended sys sys1 Hinv Hstep Hended).
Qed.

End AsCreatedFacts.

Section AsCreatedSamples.
Import JS EmailConfigModel PromotionalEmailModel PromotionalEmailController.

Lemma sys_started_step : sys_step (booted sampleWorld) sys_started.
Proof.
  apply (step_start (frozen nov2_later) nov2_later 1 sampleBody "10.0.0.1" sampleClock
           (booted sampleWorld) sampleStart.1.1 sampleStart.1.2 sampleBackground).
  vm_compute. reflexivity.
Qed.

(** One student; the campaign is accepted and its sender runs: the mail has
    gone out, the sender has ended with ['failed'] on its document, and the
    record says ['sending'] with nothing sent. *)
Lemma campaign_stays_as_created_witness :
  let sys := senderStep sys_started in
  (exists r, campaigns (sys_world sys) !! 1%nat = Some r /\
             st_status r = "sending" /\ st_sentCount r = 0) /\
  (exists s, snd <$> sys_senders sys !! 1%nat = Some s /\
             finished s = true /\ local_sentCount s = 1 /\
             status (promotionalEmail s) = "failed").
Proof.
  cbv zeta.
  destruct (campaign_stays_as_created sampleWorld (senderStep sys_started))
    as [Hall Hended].
  - intros id r H. cbn in H. rewrite lookup_empty in H. discriminate.
  - eapply rtc_l; [apply sys_started_step|]. apply rtc_once.
    eapply senderStep_step. vm_compute. reflexivity.
  - split.
    + destruct (campaigns (sys_world (senderStep sys_started)) !! 1%nat) as [r|] eqn:Hr;
        [|vm_compute in Hr; discriminate].
      exists r. destruct (Hall 1%nat r Hr) as (H1 & H2 & _). repeat split; assumption.
    + destruct (sys_senders (senderStep sys_started) !! 1%nat) as [[recipients s]|] eqn:Hs;
        [|vm_compute in Hs; discriminate].
      exists s. split; [reflexivity|].
      assert (finished s = true /\ local_sentCount s = 1) as [Hfin Hsent].
      { vm_compute in Hs. injection Hs as _ <-. split; reflexivity. }
      destruct (Hended 1%nat recipients s Hs Hfin) as [_ Hstatus].
      repeat split; assumption.
Defined.

End AsCreatedSamples.

(** ** The test mail *)

Section TestMailFacts.
Import JS EmailConfigModel EmailServiceUtil PromotionalEmailController
       EmailConfigController.

Variable sendMail : Transporter -> Mail -> SendMailOutcome.

(** X26.  A test mail is a mail like any other.  With a transporter in place
    and a well-formed address, [testEmailConfig] answers 200 when the
    transport accepts the mail and 400 when it refuses it; either way the
    attempt is recorded on the configuration the service holds: an accepted
    test mail takes one mail off the daily quota, and a refused one adds to
    the errors and to the consecutive failures.  An address that is
    missing, empty or malformed is answered with 400, and nothing is sent
    or recorded. *)
Theorem testEmailConfig_is_recorded (clk : SendClock) (testEmail : option string)
  (testContent : string) (clientIP : option string) (configs : list EmailConfig)
  (service : EmailService) (tr : Transporter) (config : EmailConfig) :
  transporter service = Some tr -> currentConfig service = Some config ->
  let '(answer, configs', service') :=
    testEmailConfig sendMail clk testEmail testContent clientIP configs service in
  match testEmail with
  | Some address =>
      if emailRegex address
      then
        match sendMail tr (mailOf config address "Test Email - EduConnect Configuration"
                                  testContent) with
        | Accepted mid =>
            let config' :=
              recordSuccessfulSend (sc_record clk) (sc_end clk - sc_start clk) config in
            answer = Json 200 (mkTestData (sc_end clk - sc_start clk) (Some mid)) /\
            currentConfig service' = Some config' /\
            emailsSentToday config' = emailsSentToday config + 1
        | Rejected message =>
            let config' := recordFailedSend (sc_record clk) message config in
            answer = Failure 400 "Failed to send test email" /\
            currentConfig service' = Some config' /\
            emailsSentToday config' = emailsSentToday config /\
            errorCount config' = errorCount config + 1 /\
            consecutiveFailures config' = consecutiveFailures config + 1
        end
      else
        (exists message, answer = Failure 400 message) /\
        configs' = configs /\ service' = service
  | None =>
      answer = Failure 400 "Test email address is required" /\
      configs' = configs /\ service' = service
  end.
Proof.
  intros Htr Hcfg. unfold testEmailConfig.
  destruct testEmail as [address|]; [|repeat split].
  destruct (String.eqb_spec address EmptyString) as [->|Hne].
  { change (emailRegex EmptyString) with false. cbv iota.
    split; [eexists; reflexivity|split; reflexivity]. }
  destruct (emailRegex address) eqn:Hformat; cbn [negb];
    [|split; [eexists; reflexivity|split; reflexivity]].
  unfold sendEmail. rewrite Htr. cbn beta iota. rewrite Htr, Hcfg.
  fold (mailOf config address "Test Email - EduConnect Configuration" testContent).
  destruct (sendMail tr _) as [mid|message]; cbn [success sendTime messageId].
  - split_and!; try reflexivity.
    unfold recordSuccessfulSend. destruct (JS.truthy _); destruct config; reflexivity.
  - split_and!; try reflexivity; destruct config; reflexivity.
Qed.

End TestMailFacts.

Section TestMailSamples.
Import JS EmailConfigModel EmailServiceUtil PromotionalEmailController
       EmailConfigController.

(** A test mail sent after the limit of 500 was reached. *)
Lemma testEmailConfig_is_recorded_witness :
  let '(answer, _, service') :=
    testEmailConfig acceptAll sampleSendClock (Some "admin@example.org") "<p>Test</p>"
                    (Some "10.0.0.1") [exhaustedConfig] sampleService in
  answer = Json 200 (mkTestData 150 (Some "<1@educonnect.com>")) /\
  (emailsSentToday <$> currentConfig service') = Some 501.
Proof.
  pose proof (testEmailConfig_is_recorded acceptAll sampleSendClock
                (Some "admin@example.org") "<p>Test</p>" (Some "10.0.0.1")
                [exhaustedConfig] sampleService _ exhaustedConfig eq_refl eq_refl) as H.
  destruct (testEmailConfig _ _ _ _ _ _ _) as [[answer configs'] service'].
  cbv zeta in H. cbn in H. destruct H as (-> & -> & _).
  split; reflexivity.
Defined.

End TestMailSamples.

(** ** Refusals before the quota check, and the statistics *)

Section EarlyRefusalFacts.
Import JS EmailConfigModel PromotionalEmailModel PromotionalEmailController.

(** X27.  A campaign request with a required field missing or empty, a request
    made while there is no active configuration, and a request made while
    no student has a valid address are each answered with status 400
    before the reset check: nothing is written, not even the daily
    counter, and no sender is started. *)
Theorem sendPromotionalEmail_early_refusal (clk : ResetClock) (now : Date)
  (newId : nat) (body : Body) (ip : string) (w : World) :
  ~ bodyComplete body \/ findOneActive (configs w) = None \/
  List.filter hasValidEmail (students w) = [] ->
  exists message,
    sendPromotionalEmail clk now newId body ip w = (Status400 message, w, None).
Proof.
  unfold bodyComplete, sendPromotionalEmail. intros H.
  destruct (falsy (body_title body) || falsy (body_content body) ||
            falsy (body_buttonLink body) || falsy (body_contactEmail body) ||
            falsy (body_contactPhone body)) eqn:Hbody;
    [eexists; reflexivity|].
  destruct (findOneActive (configs w)) as [emailConfig|] eqn:Hfind;
    [|eexists; reflexivity].
  destruct H as [H|[H|H]]; [congruence|discriminate|].
  rewrite H. eexists. reflexivity.
Qed.

End EarlyRefusalFacts.

Section EarlyRefusalSamples.
Import JS EmailConfigModel PromotionalEmailModel PromotionalEmailController.

(** No student is registered yet. *)
Lemma sendPromotionalEmail_early_refusal_witness :
  exists message,
    sendPromotionalEmail (frozen nov2_later) nov2_later 1 sampleBody "10.0.0.1"
                         (mkWorld [sampleConfig] [] ∅)
      = (Status400 message, mkWorld [sampleConfig] [] ∅, None).
Proof.
  apply sendPromotionalEmail_early_refusal. right. right. reflexivity.
Defined.

End EarlyRefusalSamples.

Section StatisticsFacts.
Import JS EmailConfigModel EmailServiceUtil EmailServiceReports.

Lemma fold_left_add_bounds (l : list Z) (lo hi a : Z) :
  Forall (fun t => lo <= t <= hi) l ->
  a + lo * Z.of_nat (length l) <= fold_left Z.add l a <= a + hi * Z.of_nat (length l).
Proof.
  intros Hl. revert a. induction Hl as [|t l Ht Hl IH]; intros a; [cbn; lia|].
  cbn [fold_left length]. specialize (IH (a + t)). lia.
Qed.

(** X28.  Once a configuration is loaded, [getEmailStats] answers from the
    document the service holds: it reads and writes nothing in the
    collection and leaves the service as it is.  What it reports as
    remaining is the limit less the mails sent today; the session's total
    is its successes plus its errors; and the session's average send time
    is 0 when no time has been recorded and lies within the range of the
    recorded times otherwise. *)
Theorem getEmailStats_snapshot (clk : InitClock) (configs : list EmailConfig)
  (this : EmailService) (c : EmailConfig) (lo hi : Z) :
  currentConfig this = Some c ->
  Forall (fun t => lo <= t <= hi) (sendTimes (performanceMetrics this)) ->
  exists stats,
    getEmailStats clk configs this = (configs, this, Resolved stats) /\
    sentToday stats = emailsSentToday c /\
    remainingToday stats = dailyLimit c - emailsSentToday c /\
    cs_totalSends (currentSession stats)
      = pm_successCount (performanceMetrics this)
        + pm_errorCount (performanceMetrics this) /\
    (sendTimes (performanceMetrics this) = [] ->
     cs_averageSendTime (currentSession stats) = 0) /\
    (sendTimes (performanceMetrics this) <> [] ->
     lo <= cs_averageSendTime (currentSession stats) <= hi).
Proof.
  intros Hcfg Htimes. unfold getEmailStats. rewrite Hcfg. cbn beta iota.
  rewrite Hcfg. eexists. split; [reflexivity|].
  cbn [sentToday remainingToday currentSession statsOf sessionOf cs_totalSends
       cs_averageSendTime].
  split_and!; try reflexivity.
  - intros ->. reflexivity.
  - intros Hne. set (l := sendTimes (performanceMetrics this)) in *.
    assert (0 < length l)%nat as Hlen by (destruct l; [congruence|cbn; lia]).
    rewrite (proj2 (Nat.ltb_lt _ _) Hlen).
    pose proof (fold_left_add_bounds l lo hi 0 Htimes) as Hsum.
    fold (total l) in Hsum.
    set (n := Z.of_nat (length l)) in *. assert (0 < n) as Hn by lia.
    split.
    + rewrite <- (round_div_exact lo n) by lia.
      unfold JS.round_div. apply Z.div_le_mono; lia.
    + rewrite <- (round_div_exact hi n) by lia.
      unfold JS.round_div. apply Z.div_le_mono; lia.
Qed.

End StatisticsFacts.

Section StatisticsSamples.
Import JS EmailConfigModel EmailServiceUtil EmailServiceReports.

(** Three mails of the session took 120, 150 and 95 ms. *)
Lemma getEmailStats_snapshot_witness :
  exists stats,
    getEmailStats (mkInitClock (frozen nov2) nov2) [sampleConfig]
      (mkEmailService (transporter sampleService) (Some sampleConfig)
                      (mkPerformanceMetrics [120; 150; 95] 0 3))
    = ([sampleConfig],
       mkEmailService (transporter sampleService) (Some sampleConfig)
                      (mkPerformanceMetrics [120; 150; 95] 0 3),
       Resolved stats) /\
    remainingToday stats = 50 /\
    95 <= cs_averageSendTime (currentSession stats) <= 150.
Proof.
  destruct (getEmailStats_snapshot (mkInitClock (frozen nov2) nov2) [sampleConfig]
              (mkEmailService (transporter sampleService) (Some sampleConfig)
                              (mkPerformanceMetrics [120; 150; 95] 0 3))
              sampleConfig 95 150 eq_refl
              ltac:(repeat constructor; lia))
    as (stats & Hrun & _ & Hrem & _ & _ & Havg).
  exists stats. split; [exact Hrun|]. split; [exact Hrem|].
  apply Havg. discriminate.
Defined.

End StatisticsSamples.
